(** * The Terminal core of Far-NetBox

    A shallow embedding of [src/core/Terminal.cpp]: the transaction manager,
    the retry query of the file-operation loop, overwrite confirmation, the
    remote recycle bin, tunnel bring-up and the two phases of directory
    synchronization, followed by the properties proved about them.

    Stateful methods are state transformers over the terminal object that
    return an [Outcome]: a value or a raised C++ exception.  Everything the
    terminal cannot decide by itself (the file-system backend, the host
    callbacks) is a field of the object, as in the source, and is given the
    list of calls made so far. *)

From Stdlib Require Import ZArith List String Bool Lia Ascii DecimalString.
From Stdlib Require Import Permutation Sorted.
From Equations Require Import Equations.
Import ListNotations.
Local Open Scope string_scope.
Local Open Scope Z_scope.
Local Open Scope list_scope.

Set Warnings "-register-all".


(** ** Flag sets

    Modelled from the spec: the macros FLAGSET, FLAGCLEAR and FLAGMASK and the
    numeric values of the flag constants (the sp, cp, df and qa families) are
    declared in
    headers that are not part of the sources at hand (Common.h, Terminal.h,
    Interface.h).  The spec calls such an [int] a "bitset" over named tags; a
    flag word is the list of the tags that are set, and [0] is the empty
    list. *)
Module Flags.

Class Tag (A : Type) := tag_eqb : A -> A -> bool.

Definition FLAGSET {A} `{Tag A} (SET : list A) (FLAG : A) : bool :=
  existsb (tag_eqb FLAG) SET.

Definition FLAGCLEAR {A} `{Tag A} (SET : list A) (FLAG : A) : bool :=
  negb (FLAGSET SET FLAG).

Definition FLAGMASK {A} (ENABLE : bool) (FLAG : list A) : list A :=
  if ENABLE then FLAG else [].

End Flags.
Export Flags.

(** ** Enumerations used by the terminal *)

(** Modelled from the spec: the qa answers of Interface.h (absent), one
    constructor for each constant that Terminal.cpp names and [qaNone] for
    the value 0 that [unsigned int Result = 0] starts from. *)
Inductive TQueryAnswer : Type :=
| qaNone | qaYes | qaNo | qaCancel | qaYesToAll | qaNoToAll
| qaAbort | qaRetry | qaSkip | qaAll | qaNeverAskAgain.

Scheme Equality for TQueryAnswer.
#[global] Instance TQueryAnswer_Tag : Tag TQueryAnswer := TQueryAnswer_beq.

(** [TBatchOverwrite] of FileOperationProgress.h, as the spec lists it. *)
Inductive TBatchOverwrite : Type :=
| boNo | boAll | boNone | boOlder | boAlternateResume | boAppend | boResume.

Scheme Equality for TBatchOverwrite.

Inductive TCancelStatus : Type :=
| csContinue | csCancel | csCancelTransfer | csRemoteAbort.

Scheme Equality for TCancelStatus.

Inductive TFileOperation : Type :=
| foNone | foCopy | foMove | foDelete | foSetProperties | foCustomCommand
| foCalculateSize | foRemoteMove | foRemoteCopy.

Scheme Equality for TFileOperation.

Inductive TOperationSide : Type := osLocal | osRemote.

(** The command tags that Terminal.cpp passes to [ReactOnCommand]. *)
Inductive TFSCommand : Type :=
| fsCurrentDirectory | fsChangeDirectory | fsHomeDirectory | fsListDirectory
| fsListFile | fsReadSymlink | fsLookupUsersGroups
| fsCopyToRemote | fsCopyToLocal | fsDeleteFile | fsRenameFile | fsMoveFile
| fsCopyFile | fsCreateDirectory | fsChangeMode | fsChangeGroup
| fsChangeOwner | fsChangeProperties | fsAnyCommand.

(** Flags of [DeleteFile]'s [Params]. *)
Inductive TDeleteFlag : Type := dfAlternative | dfForceDelete.

Scheme Equality for TDeleteFlag.
#[global] Instance TDeleteFlag_Tag : Tag TDeleteFlag := TDeleteFlag_beq.

(** Flags of the copy [Params]. *)
Inductive TCopyFlag : Type :=
| cpDelete | cpTemporary | cpNoConfirmation | cpNewerOnly | cpAppend | cpResume.

Scheme Equality for TCopyFlag.
#[global] Instance TCopyFlag_Tag : Tag TCopyFlag := TCopyFlag_beq.

(** ** Messages and exceptions *)

(** Resource strings are not part of the sources; a formatted message keeps
    the resource identifier and its arguments. *)
Inductive TTextId : Type :=
| TUNNEL_NO_FREE_PORT | TUNNEL_SESSION_NAME
| LOCAL_FILE_OVERWRITE | REMOTE_FILE_OVERWRITE | FILE_OVERWRITE_DETAILS
| LIST_DIR_ERROR
| SKIP_ALL_BUTTON.

Inductive TMessage : Type :=
| Text (s : string)
| FMTLOAD (Id : TTextId) (Args : list TMessage).

Definition TMessage_IsEmpty (m : TMessage) : bool :=
  match m with
  | Text s => (s =? "")%string
  | FMTLOAD _ _ => false
  end.

(** The exception classes that the modelled methods raise or pass on; each
    carries the exception it wraps, as the C++ constructors do. *)
Inductive Exception : Type :=
| ETerminal (E : option Exception) (Msg : string)
| ESshFatal (E : option Exception) (Msg : TMessage)
| EAbort
| EScpSkipFile (E : option Exception) (Msg : TMessage)
| ExtException (E : option Exception) (Msg : TMessage)
| ECallbackGuardAbort
| EExternal (Msg : string).

(** ** Outcomes and the execution monad *)

Inductive Outcome (A : Type) : Type :=
| Returns (a : A)
| Throws (E : Exception).
Arguments Returns {A} a.
Arguments Throws {A} E.

Definition Exec (S A : Type) : Type := S -> Outcome A * S.

Section ExecMonad.
Context {S : Type}.

Definition ret {A} (a : A) : Exec S A := fun s => (Returns a, s).

Definition throw {A} (E : Exception) : Exec S A := fun s => (Throws E, s).

Definition bind {A B} (c : Exec S A) (k : A -> Exec S B) : Exec S B :=
  fun s =>
    match c s with
    | (Returns a, s') => k a s'
    | (Throws E, s') => (Throws E, s')
    end.

Definition gets {A} (f : S -> A) : Exec S A := fun s => (Returns (f s), s).

Definition modify (f : S -> S) : Exec S unit := fun s => (Returns tt, f s).

Definition when (b : bool) (c : Exec S unit) : Exec S unit :=
  if b then c else ret tt.

(** [TRY_FINALLY (body, finally)]: the second block runs on every exit
    path of the first; an exception of the first block is raised again
    afterwards unless the second block raises one itself. *)
Definition TRY_FINALLY {A} (body : Exec S A) (finally : Exec S unit)
  : Exec S A :=
  fun s =>
    let '(r, s1) := body s in
    match finally s1 with
    | (Returns _, s2) => (r, s2)
    | (Throws E, s2) => (Throws E, s2)
    end.

End ExecMonad.

Declare Scope exec_scope.
Delimit Scope exec_scope with exec.
Notation "x <- c ;; k" := (bind c (fun x => k))
  (at level 61, c at next level, right associativity) : exec_scope.
Notation "c ;; k" := (bind c (fun _ => k))
  (at level 61, right associativity) : exec_scope.
Local Open Scope exec_scope.

(** ** The terminal object *)

(** Flags of [TQueryParams]. *)
Inductive TQueryParamFlag : Type :=
| qpFatalAbort | qpNeverAskAgainCheck | qpAllowContinueOnError.

Record TQueryParams : Type := {
  qpParams : list TQueryParamFlag;
  Aliases : list (TQueryAnswer * TMessage)
}.

(** What [QueryUser] hands to the [FOnQueryUser] callback. *)
Record TQuery : Type := {
  Query : TMessage;
  MoreMessages : list TMessage;
  Answers : list TQueryAnswer;
  QueryParams : option TQueryParams
}.

(** What a terminal asks of its surroundings.  Each entry is one call, in
    the order the calls are made. *)
Inductive TEvent : Type :=
| EvReadCurrentDirectory
| EvReadDirectory (ReloadOnly ForceCache : bool)
| EvQueryUser (Q : TQuery)
| EvDeleteFile (FileName : string) (Params : list TDeleteFlag)
| EvRenameFile (FileName NewName : string).

(** The file-system backend behind [FFileSystem]: whether it is connected,
    and for each request whether it fails, given the requests so far. *)
Record TCustomFileSystem : Type := {
  fsActive : bool;
  fsCurrentDirectoryName : list TEvent -> string;
  fsRequest : list TEvent -> TEvent -> option Exception
}.

Record TConfiguration : Type := {
  ConfirmOverwriting : bool;
  AutoReadDirectoryAfterOp : bool;
  TunnelLocalPortNumberLow : Z;
  TunnelLocalPortNumberHigh : Z
}.

(** [SetConfirmOverwriting]. *)
Definition SetConfirmOverwriting (c : TConfiguration) (value : bool)
  : TConfiguration :=
  {| ConfirmOverwriting := value;
     AutoReadDirectoryAfterOp := AutoReadDirectoryAfterOp c;
     TunnelLocalPortNumberLow := TunnelLocalPortNumberLow c;
     TunnelLocalPortNumberHigh := TunnelLocalPortNumberHigh c |}.

(** The enumerations of SessionData.h that the proxy settings use. *)
Inductive TProxyMethod : Type :=
| pmNone | pmSocks4 | pmSocks5 | pmHTTP | pmTelnet | pmCmd | pmSystemOld
| pmSystem.

Inductive TAutoSwitch : Type := asOn | asOff | asAuto.

Record TProxySettings : Type := {
  ProxyMethod : TProxyMethod;
  ProxyHost : string;
  ProxyPort : Z;
  ProxyUsername : string;
  ProxyPassword : string;
  ProxyTelnetCommand : string;
  ProxyLocalCommand : string;
  ProxyDNS : TAutoSwitch;
  ProxyLocalhost : bool
}.

(** The members of [TSessionData] that the modelled methods read or write;
    the nine proxy members are kept together. *)
Record TSessionData : Type := {
  Name : TMessage;
  HostName : string;
  PortNumber : Z;
  UserName : string;
  Password : string;
  PublicKeyFile : string;
  Proxy : TProxySettings;
  Tunnel : bool;
  TunnelHostName : string;
  TunnelPortNumber : Z;
  TunnelUserName : string;
  TunnelPassword : string;
  TunnelPublicKeyFile : string;
  TunnelLocalPortNumber : Z;
  TunnelPortFwd : string;
  DeleteToRecycleBin : bool;
  RecycleBinPath : string;
  LockInHome : bool
}.

Record TFileOperationProgressType : Type := {
  Operation : TFileOperation;
  Cancel : TCancelStatus;
  SkipToAll : bool;
  BatchOverwrite : TBatchOverwrite;
  AsciiTransfer : bool;
  ProgressFileName : string
}.

(** The type of the [FOnQueryUser] callback: the answer it leaves in
    [Answer], or the exception that [Guard.Verify()] raises after it. *)
Definition TQueryUserEvent : Type :=
  list TEvent -> TQuery -> Outcome TQueryAnswer.

(** The members of [TTerminal] that the modelled methods read or write.
    [FLog] is the record of the calls made to the surroundings. *)
Record TTerminalState : Type := mkTerminalState {
  FConfiguration : TConfiguration;
  FSessionData : TSessionData;
  FFileSystem : option TCustomFileSystem;
  FOperationProgress : option TFileOperationProgressType;
  FOnQueryUser : option TQueryUserEvent;
  FInTransaction : Z;
  FSuspendTransaction : bool;
  FReadCurrentDirectoryPending : bool;
  FReadDirectoryPending : bool;
  FAutoReadDirectory : bool;
  FCurrentDirectory : string;
  FLockDirectory : string;
  FLog : list TEvent
}.

(** A terminal owns an optional secondary terminal, [FCommandSession]. *)
Inductive TTerminal : Type :=
  mkTerminal { Own : TTerminalState; FCommandSession : option TTerminal }.

Section Setters.
Variable t : TTerminalState.

Definition set_FConfiguration (v : TConfiguration) : TTerminalState :=
  mkTerminalState
    v (FSessionData t) (FFileSystem t) (FOperationProgress t)
    (FOnQueryUser t) (FInTransaction t) (FSuspendTransaction t)
    (FReadCurrentDirectoryPending t) (FReadDirectoryPending t)
    (FAutoReadDirectory t) (FCurrentDirectory t) (FLockDirectory t) (FLog t).

Definition set_FOperationProgress (v : option TFileOperationProgressType) : TTerminalState :=
  mkTerminalState
    (FConfiguration t) (FSessionData t) (FFileSystem t) v (FOnQueryUser t)
    (FInTransaction t) (FSuspendTransaction t)
    (FReadCurrentDirectoryPending t) (FReadDirectoryPending t)
    (FAutoReadDirectory t) (FCurrentDirectory t) (FLockDirectory t) (FLog t).

Definition set_FInTransaction (v : Z) : TTerminalState :=
  mkTerminalState
    (FConfiguration t) (FSessionData t) (FFileSystem t)
    (FOperationProgress t) (FOnQueryUser t) v (FSuspendTransaction t)
    (FReadCurrentDirectoryPending t) (FReadDirectoryPending t)
    (FAutoReadDirectory t) (FCurrentDirectory t) (FLockDirectory t) (FLog t).

Definition set_FReadCurrentDirectoryPending (v : bool) : TTerminalState :=
  mkTerminalState
    (FConfiguration t) (FSessionData t) (FFileSystem t)
    (FOperationProgress t) (FOnQueryUser t) (FInTransaction t)
    (FSuspendTransaction t) v (FReadDirectoryPending t)
    (FAutoReadDirectory t) (FCurrentDirectory t) (FLockDirectory t) (FLog t).

Definition set_FReadDirectoryPending (v : bool) : TTerminalState :=
  mkTerminalState
    (FConfiguration t) (FSessionData t) (FFileSystem t)
    (FOperationProgress t) (FOnQueryUser t) (FInTransaction t)
    (FSuspendTransaction t) (FReadCurrentDirectoryPending t) v
    (FAutoReadDirectory t) (FCurrentDirectory t) (FLockDirectory t) (FLog t).

Definition set_FCurrentDirectory (v : string) : TTerminalState :=
  mkTerminalState
    (FConfiguration t) (FSessionData t) (FFileSystem t)
    (FOperationProgress t) (FOnQueryUser t) (FInTransaction t)
    (FSuspendTransaction t) (FReadCurrentDirectoryPending t)
    (FReadDirectoryPending t) (FAutoReadDirectory t) v (FLockDirectory t)
    (FLog t).

Definition set_FLog (v : list TEvent) : TTerminalState :=
  mkTerminalState
    (FConfiguration t) (FSessionData t) (FFileSystem t)
    (FOperationProgress t) (FOnQueryUser t) (FInTransaction t)
    (FSuspendTransaction t) (FReadCurrentDirectoryPending t)
    (FReadDirectoryPending t) (FAutoReadDirectory t) (FCurrentDirectory t)
    (FLockDirectory t) v.

End Setters.

(** [GetActive]: [(FFileSystem != NULL) && FFileSystem->GetActive()]. *)
Definition GetActive (t : TTerminalState) : bool :=
  match FFileSystem t with
  | Some fs => fsActive fs
  | None => false
  end.

(** One request to the backend: it is recorded, and the backend decides
    whether it fails.  A request through a null [FFileSystem] is the access
    violation it is in C++. *)
Definition Request (ev : TEvent) : Exec TTerminalState unit :=
  fun t =>
    match FFileSystem t with
    | None => (Throws (EExternal "access violation"), t)
    | Some fs =>
        let t' := set_FLog t (FLog t ++ [ev]) in
        match fsRequest fs (FLog t) ev with
        | None => (Returns tt, t')
        | Some E => (Throws E, t')
        end
    end.

(** ** Transactions and deferred reloads *)

(** [InTransaction]. *)
Definition InTransaction (t : TTerminalState) : bool :=
  (0 <? FInTransaction t) && negb (FSuspendTransaction t).

(** [ReadCurrentDirectory]: the pending flag is cleared first; the round
    trip to the server, the bookkeeping of the change cache and the error
    handling of the catch block are the backend's request, which either
    returns or raises. *)
Definition ReadCurrentDirectory : Exec TTerminalState unit :=
  modify (fun t => set_FReadCurrentDirectoryPending t false) ;;
  Request EvReadCurrentDirectory.

(** [ReadDirectory(ReloadOnly, ForceCache)]: it writes neither pending flag;
    the listing (from the cache or the server) is the backend's request. *)
Definition ReadDirectory (ReloadOnly : bool) (ForceCache : bool)
  : Exec TTerminalState unit :=
  Request (EvReadDirectory ReloadOnly ForceCache).

(** [ReactOnCommand]. *)
Definition ReactOnCommand (Cmd : TFSCommand) : Exec TTerminalState unit :=
  let '(ChangesDirectory, ModifiesFiles) :=
    match Cmd with
    | fsChangeDirectory | fsHomeDirectory => (true, false)
    | fsCopyToRemote | fsDeleteFile | fsRenameFile | fsMoveFile | fsCopyFile
    | fsCreateDirectory | fsChangeMode | fsChangeGroup | fsChangeOwner
    | fsChangeProperties => (false, true)
    | fsAnyCommand => (true, true)
    | _ => (false, false)
    end in
  InTrans <- gets InTransaction ;;
  AutoRead <- gets FAutoReadDirectory ;;
  AfterOp <- gets (fun t => AutoReadDirectoryAfterOp (FConfiguration t)) ;;
  if ChangesDirectory then
    if negb InTrans then
      ReadCurrentDirectory ;;
      when AutoRead (ReadDirectory false false)
    else
      modify (fun t => set_FReadCurrentDirectoryPending t true) ;;
      when AutoRead (modify (fun t => set_FReadDirectoryPending t true))
  else if ModifiesFiles && AutoRead && AfterOp then
    if negb InTrans then
      ReadDirectory true false
    else
      modify (fun t => set_FReadDirectoryPending t true)
  else ret tt.

(** [BeginTransaction], for the terminal itself. *)
Definition BeginOwnTransaction (t : TTerminalState) : TTerminalState :=
  let t1 :=
    if FInTransaction t =? 0
    then set_FReadDirectoryPending (set_FReadCurrentDirectoryPending t false) false
    else t in
  set_FInTransaction t1 (FInTransaction t1 + 1).

(** [BeginTransaction]. *)
Fixpoint BeginTransaction (T : TTerminal) : TTerminal :=
  match T with
  | mkTerminal own cs =>
      mkTerminal (BeginOwnTransaction own)
        match cs with
        | Some c => Some (BeginTransaction c)
        | None => None
        end
  end.

(** The body of [EndTransaction] between the decrement and the call on the
    command session. *)
Definition FlushPendingReloads : Exec TTerminalState unit :=
  Active <- gets GetActive ;;
  Count <- gets FInTransaction ;;
  if Active then
    if Count =? 0 then
      TRY_FINALLY
        (RCD <- gets FReadCurrentDirectoryPending ;;
         when RCD ReadCurrentDirectory ;;
         RD <- gets FReadDirectoryPending ;;
         RCD' <- gets FReadCurrentDirectoryPending ;;
         when RD (ReadDirectory (negb RCD') false))
        (modify (fun t => set_FReadCurrentDirectoryPending t false) ;;
         modify (fun t => set_FReadDirectoryPending t false))
    else ret tt
  else ret tt.

(** [EndTransaction]. *)
Fixpoint EndTransaction (T : TTerminal) : Outcome unit * TTerminal :=
  match T with
  | mkTerminal own cs =>
      if FInTransaction own =? 0 then
        (Throws (ETerminal None "Can't end transaction, not in transaction"), T)
      else
        let own1 := set_FInTransaction own (FInTransaction own - 1) in
        match FlushPendingReloads own1 with
        | (Throws E, own2) => (Throws E, mkTerminal own2 cs)
        | (Returns _, own2) =>
            match cs with
            | None => (Returns tt, mkTerminal own2 None)
            | Some c =>
                let '(r, c') := EndTransaction c in
                (r, mkTerminal own2 (Some c'))
            end
        end
  end.

(** A method of the terminal itself, run on a terminal with its command
    session. *)
Definition OnOwn {A} (c : Exec TTerminalState A) : Exec TTerminal A :=
  fun T =>
    let '(r, own') := c (Own T) in
    (r, mkTerminal own' (FCommandSession T)).

(** ** Declarations of the absent headers

    Terminal.cpp calls helpers of Common.h, RemoteFiles.h, Interface.h and
    the VCL whose definitions are not among the sources at hand.  They are
    the operations of this interface, and what follows holds for every
    implementation of it.  [Now] is the clock, read after the given calls;
    [DecodeDate] and [DecodeTime] yield [unsigned short] fields;
    [DateTimeOfZero] is [TDateTime(0)]; [SameText] is the comparison of a
    [TStringList] that is not case sensitive; [ListSort] is [TList::Sort]. *)
Class Externals : Type := {
  TDateTime : Type;
  TModificationFmt : Type;
  mfFull : TModificationFmt;
  Now : list TEvent -> TDateTime;
  DecodeDate : TDateTime -> Z * Z * Z;
  DecodeTime : TDateTime -> Z * Z * Z * Z;
  ReduceDateTimePrecision : TDateTime -> TModificationFmt -> TDateTime;
  LessDateTimePrecision :
    TModificationFmt -> TModificationFmt -> TModificationFmt;
  CompareFileTime : TDateTime -> TDateTime -> Z;
  UserModificationStr : TDateTime -> TModificationFmt -> string;
  AbortAnswer : list TQueryAnswer -> TQueryAnswer;
  UnixExtractFilePath : string -> string;
  UnixExtractFileName : string -> string;
  UnixIncludeTrailingBackslash : string -> string;
  UnixExcludeTrailingBackslash : string -> string;
  IncludeTrailingBackslash : string -> string;
  UnixComparePaths : string -> string -> bool;
  MaskFileName : string -> string -> string;
  FILETIME : Type;
  FileTimeToDateTime : FILETIME -> TDateTime;
  DateTimeOfZero : TDateTime;
  SameText : string -> string -> bool;
  AnsiCompareText : string -> string -> Z;
  ListSort : forall A : Type, (A -> A -> Z) -> list A -> list A
}.

(** [IntToStr], [Int64ToStr] and the [%d] conversion of [FORMAT]. *)
Definition IntToStr (n : Z) : string := NilZero.string_of_int (Z.to_int n).

Fixpoint Zeros (n : nat) : string :=
  match n with
  | O => ""
  | S k => String "0" (Zeros k)
  end.

(** The [%0<Width>d] conversion of [FORMAT], for the non-negative values it
    is applied to here. *)
Definition FormatZeroPadded (Width : nat) (n : Z) : string :=
  (Zeros (Width - String.length (IntToStr n)) ++ IntToStr n)%string.

Section ProgressSetters.
Variable p : TFileOperationProgressType.

Definition set_Cancel (v : TCancelStatus) : TFileOperationProgressType :=
  {| Operation := Operation p; Cancel := v; SkipToAll := SkipToAll p;
     BatchOverwrite := BatchOverwrite p; AsciiTransfer := AsciiTransfer p;
     ProgressFileName := ProgressFileName p |}.

Definition set_SkipToAll (v : bool) : TFileOperationProgressType :=
  {| Operation := Operation p; Cancel := Cancel p; SkipToAll := v;
     BatchOverwrite := BatchOverwrite p; AsciiTransfer := AsciiTransfer p;
     ProgressFileName := ProgressFileName p |}.

Definition set_BatchOverwrite (v : TBatchOverwrite)
  : TFileOperationProgressType :=
  {| Operation := Operation p; Cancel := Cancel p; SkipToAll := SkipToAll p;
     BatchOverwrite := v; AsciiTransfer := AsciiTransfer p;
     ProgressFileName := ProgressFileName p |}.

(** [SetFile], as far as the modelled members go. *)
Definition SetFile (v : string) : TFileOperationProgressType :=
  {| Operation := Operation p; Cancel := Cancel p; SkipToAll := SkipToAll p;
     BatchOverwrite := BatchOverwrite p; AsciiTransfer := AsciiTransfer p;
     ProgressFileName := v |}.

End ProgressSetters.

(** ** Asking the user *)

Definition ExceptionMessage (E : Exception) : TMessage :=
  match E with
  | ETerminal _ Msg => Text Msg
  | ESshFatal _ Msg => Msg
  | EAbort => Text ""
  | EScpSkipFile _ Msg => Msg
  | ExtException _ Msg => Msg
  | ECallbackGuardAbort => Text "callback abort"
  | EExternal Msg => Text Msg
  end.

Section UserQueries.
Context `{Externals}.

(** [QueryUser]: without a callback the answer is [AbortAnswer(Answers)];
    with one, the call is recorded and the callback decides. *)
Definition QueryUser (Query : TMessage) (MoreMessages : list TMessage)
  (Answers : list TQueryAnswer) (Params : option TQueryParams)
  : Exec TTerminalState TQueryAnswer :=
  fun t =>
    let Answer := AbortAnswer Answers in
    match FOnQueryUser t with
    | None => (Returns Answer, t)
    | Some OnQueryUser =>
        let Q := {| Query := Query; MoreMessages := MoreMessages;
                    Answers := Answers; QueryParams := Params |} in
        (OnQueryUser (FLog t) Q, set_FLog t (FLog t ++ [EvQueryUser Q]))
    end.

(** [QueryUserException].  The further messages of an [ExtException] are
    not carried by [Exception] here. *)
Definition QueryUserException (Query : TMessage) (E : option Exception)
  (Answers : list TQueryAnswer) (Params : option TQueryParams)
  : Exec TTerminalState TQueryAnswer :=
  let MoreMessages :=
    match E with
    | Some e =>
        if negb (TMessage_IsEmpty (ExceptionMessage e)) &&
           negb (TMessage_IsEmpty Query)
        then [ExceptionMessage e] else []
    | None => []
    end in
  QueryUser
    (if negb (TMessage_IsEmpty Query) then Query
     else match E with Some e => ExceptionMessage e | None => Text "" end)
    MoreMessages Answers Params.

(** *** The query of the file-operation loop *)

(** [FileOperationLoopQuery] works on the progress object it is handed and
    on the terminal. *)
Definition TLoopState : Type := TFileOperationProgressType * TTerminalState.

Definition OnTerminal {A} (c : Exec TTerminalState A) : Exec TLoopState A :=
  fun s =>
    let '(r, t') := c (snd s) in
    (r, (fst s, t')).

Definition OnProgress
  (f : TFileOperationProgressType -> TFileOperationProgressType)
  : Exec TLoopState unit :=
  modify (fun s => (f (fst s), snd s)).

(** [FileOperationLoopQuery] down to [if (Answer != qaRetry)]: the values
    of [Answer] and [Result] at that point. *)
Definition FileOperationLoopAnswer (E : Exception) (Message : TMessage)
  (AllowSkip : bool) (SpecialRetry : string)
  : Exec TLoopState (TQueryAnswer * bool) :=
  Skip <- gets (fun s => SkipToAll (fst s)) ;;
  if AllowSkip && Skip then ret (qaSkip, false)
  else
    let Answers :=
      [qaRetry] ++ [qaAbort] ++
      FLAGMASK AllowSkip ([qaSkip] ++ [qaAll]) ++
      FLAGMASK (negb (SpecialRetry =? "")%string) [qaYes] in
    let Aliases :=
      (if FLAGSET Answers qaAll
       then [(qaAll, FMTLOAD SKIP_ALL_BUTTON [])] else []) ++
      (if FLAGSET Answers qaYes then [(qaYes, Text SpecialRetry)] else []) in
    let Params :=
      {| qpParams :=
           [qpAllowContinueOnError] ++ FLAGMASK (negb AllowSkip) [qpFatalAbort];
         Aliases := Aliases |} in
    Answer <- OnTerminal
                (QueryUserException Message (Some E) Answers (Some Params)) ;;
    Answer <- (if TQueryAnswer_beq Answer qaAll
               then OnProgress (fun p => set_SkipToAll p true) ;; ret qaSkip
               else ret Answer) ;;
    if TQueryAnswer_beq Answer qaYes then ret (qaRetry, true)
    else ret (Answer, false).

(** [FileOperationLoopQuery]. *)
Definition FileOperationLoopQuery (E : Exception) (Message : TMessage)
  (AllowSkip : bool) (SpecialRetry : string) : Exec TLoopState bool :=
  AR <- FileOperationLoopAnswer E Message AllowSkip SpecialRetry ;;
  let '(Answer, Result) := AR in
  if negb (TQueryAnswer_beq Answer qaRetry) then
    when (TQueryAnswer_beq Answer qaAbort)
      (OnProgress (fun p => set_Cancel p csCancel)) ;;
    if AllowSkip
    then throw (EScpSkipFile (Some E) Message)
    else throw (ExtException (Some E) Message)
  else ret Result.

(** *** Overwrite confirmation *)

Record TOverwriteFileParams : Type := {
  SourceSize : Z;
  DestSize : Z;
  SourceTimestamp : TDateTime;
  DestTimestamp : TDateTime;
  SourcePrecision : TModificationFmt;
  DestPrecision : TModificationFmt
}.

(** [EffectiveBatchOverwrite]. *)
Definition EffectiveBatchOverwrite (Config : TConfiguration)
  (Params : list TCopyFlag) (OperationProgress : TFileOperationProgressType)
  (Special : bool) : TBatchOverwrite :=
  if Special && FLAGSET Params cpResume then boResume
  else if FLAGSET Params cpAppend then boAppend
  else if FLAGSET Params cpNewerOnly then boOlder
  else if FLAGSET Params cpNoConfirmation || negb (ConfirmOverwriting Config)
  then boAll
  else
    let Result := BatchOverwrite OperationProgress in
    if negb Special &&
       (TBatchOverwrite_beq Result boOlder ||
        TBatchOverwrite_beq Result boAlternateResume ||
        TBatchOverwrite_beq Result boResume)
    then boNo else Result.

Definition CanAlternateResume (FileParams : option TOverwriteFileParams)
  (OperationProgress : TFileOperationProgressType) : bool :=
  match FileParams with
  | Some fp => (DestSize fp <? SourceSize fp) && negb (AsciiTransfer OperationProgress)
  | None => false
  end.

(** The batch mode of [ConfirmFileOverwrite] at [if (BatchOverwrite ==
    boNo)]: the effective mode, replaced by the non-special one where it
    does not apply to this file. *)
Definition ApplicableBatchOverwrite (Config : TConfiguration)
  (FileParams : option TOverwriteFileParams) (Params : list TCopyFlag)
  (OperationProgress : TFileOperationProgressType) : TBatchOverwrite :=
  let BatchOverwrite := EffectiveBatchOverwrite Config Params OperationProgress true in
  let Applicable :=
    match BatchOverwrite with
    | boOlder => match FileParams with Some _ => true | None => false end
    | boAlternateResume => CanAlternateResume FileParams OperationProgress
    | boResume => CanAlternateResume FileParams OperationProgress
    | _ => true
    end in
  if negb Applicable
  then EffectiveBatchOverwrite Config Params OperationProgress false
  else BatchOverwrite.

(** The text that [ConfirmFileOverwrite] shows. *)
Definition OverwriteMessage (FileName : string)
  (FileParams : option TOverwriteFileParams) (Side : TOperationSide)
  (Message : TMessage) : TMessage :=
  let Message :=
    if TMessage_IsEmpty Message
    then FMTLOAD (match Side with
                  | osLocal => LOCAL_FILE_OVERWRITE
                  | osRemote => REMOTE_FILE_OVERWRITE
                  end) [Text FileName]
    else Message in
  match FileParams with
  | Some fp =>
      FMTLOAD FILE_OVERWRITE_DETAILS
        [Message;
         Text (IntToStr (SourceSize fp));
         Text (UserModificationStr (SourceTimestamp fp) (SourcePrecision fp));
         Text (IntToStr (DestSize fp));
         Text (UserModificationStr (DestTimestamp fp) (DestPrecision fp))]
  | None => Message
  end.

(** [GetOperationProgress()->BatchOverwrite = BatchOverwrite]. *)
Definition StoreBatchOverwrite (BatchOverwrite : TBatchOverwrite)
  : Exec TTerminalState unit :=
  fun t =>
    match FOperationProgress t with
    | Some p =>
        (Returns tt,
         set_FOperationProgress t (Some (set_BatchOverwrite p BatchOverwrite)))
    | None => (Throws (EExternal "access violation"), t)
    end.

(** [ConfirmFileOverwrite].  The parameter [OperationProgress] is only
    read, and only before the write through [GetOperationProgress()], so
    passing its value covers both the aliased and the distinct object. *)
Definition ConfirmFileOverwrite (FileName : string)
  (FileParams : option TOverwriteFileParams) (Answers : list TQueryAnswer)
  (QueryParams : option TQueryParams) (Side : TOperationSide)
  (Params : list TCopyFlag) (OperationProgress : TFileOperationProgressType)
  (Message : TMessage) : Exec TTerminalState TQueryAnswer :=
  Config <- gets FConfiguration ;;
  let BatchOverwrite :=
    ApplicableBatchOverwrite Config FileParams Params OperationProgress in
  RB <- (if TBatchOverwrite_beq BatchOverwrite boNo then
           Result <- QueryUser
                       (OverwriteMessage FileName FileParams Side Message)
                       [] Answers QueryParams ;;
           RB <- match Result with
                 | qaNeverAskAgain =>
                     modify (fun t =>
                       set_FConfiguration t
                         (SetConfirmOverwriting (FConfiguration t) false)) ;;
                     ret (qaYes, BatchOverwrite)
                 | qaYesToAll => ret (Result, boAll)
                 | qaAll => ret (Result, boOlder)
                 | qaNoToAll => ret (Result, boNone)
                 | _ => ret (Result, BatchOverwrite)
                 end ;;
           when (negb (TBatchOverwrite_beq (snd RB) boNo))
             (StoreBatchOverwrite (snd RB)) ;;
           ret RB
         else ret (qaNone, BatchOverwrite)) ;;
  let '(Result, BatchOverwrite) := RB in
  ret match BatchOverwrite with
      | boNo => Result
      | boAll => qaYes
      | boNone => qaNo
      | boOlder =>
          match FileParams with
          | Some fp =>
              let Precision :=
                LessDateTimePrecision (SourcePrecision fp) (DestPrecision fp) in
              if 0 <? CompareFileTime
                        (ReduceDateTimePrecision (SourceTimestamp fp) Precision)
                        (ReduceDateTimePrecision (DestTimestamp fp) Precision)
              then qaYes else qaNo
          | None => qaNo
          end
      | boAlternateResume => qaSkip
      | boAppend => qaRetry
      | boResume => qaRetry
      end.

End UserQueries.

(** ** Deleting files and the remote recycle bin *)

Section RecycleBin.
Context `{Externals}.

(** What the modelled methods read of a [TRemoteFile]. *)
Record TRemoteFile : Type := {
  GetFileName : string;
  GetFullFileName : string;
  GetIsDirectory : bool;
  GetIsParentDirectory : bool;
  GetIsThisDirectory : bool;
  GetSize : Z;
  GetModification : TDateTime;
  GetModificationFmt : TModificationFmt;
  GetIconIndex : Z
}.

Record TMoveFileParams : Type := {
  Target : string;
  FileMask : string
}.

(** [TranslateLockedPath]. *)
Definition TranslateLockedPath (t : TTerminalState) (Path : string)
  (Lock : bool) : string :=
  let FirstIsSlash :=
    match Path with
    | String c _ => (c =? "/")%char
    | EmptyString => false
    end in
  if negb (LockInHome (FSessionData t)) || (Path =? "")%string
     || negb FirstIsSlash
  then Path
  else if Lock then
    let n := String.length (FLockDirectory t) in
    if (substring 0 n Path =? FLockDirectory t)%string then
      let Path := substring n (String.length Path - n) Path in
      if (Path =? "")%string then "/" else Path
    else Path
  else UnixExcludeTrailingBackslash (FLockDirectory t ++ Path)%string.

(** [GetCurrentDirectory]. *)
Definition GetCurrentDirectory : Exec TTerminalState string :=
  fs <- gets FFileSystem ;;
  match fs with
  | Some fs =>
      log <- gets FLog ;;
      let currentDirectory := fsCurrentDirectoryName fs log in
      Current <- gets FCurrentDirectory ;;
      if negb (Current =? currentDirectory)%string then
        modify (fun t => set_FCurrentDirectory t currentDirectory) ;;
        when (currentDirectory =? "")%string ReadCurrentDirectory
      else ret tt
  | None => ret tt
  end ;;
  gets (fun t => TranslateLockedPath t (FCurrentDirectory t) true).

(** [IsRecycledFile]. *)
Definition IsRecycledFile (FileName : string) : Exec TTerminalState bool :=
  Bin <- gets (fun t => RecycleBinPath (FSessionData t)) ;;
  if negb (Bin =? "")%string then
    let Path := UnixExtractFilePath FileName in
    Path <- (if (Path =? "")%string then GetCurrentDirectory else ret Path) ;;
    ret (UnixComparePaths Path Bin)
  else ret false.

(** The guard that opens [DeleteFile] and [MoveFile]: inside a bulk
    operation of one of the given kinds a cancelled operation aborts, and
    otherwise the progress object is told the file. *)
Definition CheckProgress (Kinds : list TFileOperation) (FileName : string)
  : Exec TTerminalState unit :=
  Progress <- gets FOperationProgress ;;
  match Progress with
  | Some p =>
      if existsb (TFileOperation_beq (Operation p)) Kinds then
        if negb (TCancelStatus_beq (Cancel p) csContinue) then throw EAbort
        else modify (fun t =>
               set_FOperationProgress t (Some (SetFile p FileName)))
      else ret tt
  | None => ret tt
  end.

(** [MoveFile].  [FileModified] works on the directory caches, which are
    not among the modelled members; [DoRenameFile], with the retries of
    its error handler, is one request to the backend. *)
Definition MoveFile (FileName : string) (File : option TRemoteFile)
  (Params : TMoveFileParams) : Exec TTerminalState unit :=
  CheckProgress [foRemoteMove; foDelete] FileName ;;
  let NewName :=
    (UnixIncludeTrailingBackslash (Target Params) ++
     MaskFileName (UnixExtractFileName FileName) (FileMask Params))%string in
  Request (EvRenameFile FileName NewName) ;;
  ReactOnCommand fsMoveFile.

(** The mask that [RecycleFile] builds from a time of day. *)
Definition RecycleMask (DateTime : TDateTime) : string :=
  let '(Y, M, D) := DecodeDate DateTime in
  let '(Hr, Mi, Sec, MSec) := DecodeTime DateTime in
  let dt :=
    (FormatZeroPadded 4 Y ++ FormatZeroPadded 2 M ++ FormatZeroPadded 2 D ++
     "-" ++
     FormatZeroPadded 2 Hr ++ FormatZeroPadded 2 Mi ++
     FormatZeroPadded 2 Sec)%string in
  ("*-" ++ dt ++ ".*")%string.

(** [RecycleFile]. *)
Definition RecycleFile (FileName : string) (File : option TRemoteFile)
  : Exec TTerminalState unit :=
  FileName <- (if (FileName =? "")%string then
                 match File with
                 | Some f => ret (GetFileName f)
                 | None => throw (EExternal "access violation")
                 end
               else ret FileName) ;;
  Recycled <- IsRecycledFile FileName ;;
  if negb Recycled then
    Bin <- gets (fun t => RecycleBinPath (FSessionData t)) ;;
    log <- gets FLog ;;
    MoveFile FileName File
      {| Target := Bin; FileMask := RecycleMask (Now log) |}
  else ret tt.

(** [DeleteFile].  [AParams] is the optional pointer to the flags;
    [DoDeleteFile], with the retries of its error handler, is one request
    to the backend. *)
Definition DeleteFile (FileName : string) (File : option TRemoteFile)
  (AParams : option (list TDeleteFlag)) : Exec TTerminalState unit :=
  let LocalFileName :=
    match File with
    | Some f => if (FileName =? "")%string then GetFileName f else FileName
    | None => FileName
    end in
  CheckProgress [foDelete] LocalFileName ;;
  let Params := match AParams with Some p => p | None => [] end in
  sd <- gets FSessionData ;;
  let Recycle :=
    FLAGCLEAR Params dfForceDelete &&
    negb (Bool.eqb (DeleteToRecycleBin sd) (FLAGSET Params dfAlternative)) &&
    negb (RecycleBinPath sd =? "")%string in
  DoRecycle <- (if Recycle
                then Recycled <- IsRecycledFile LocalFileName ;;
                     ret (negb Recycled)
                else ret false) ;;
  if DoRecycle then RecycleFile LocalFileName File
  else
    Request (EvDeleteFile LocalFileName Params) ;;
    ReactOnCommand fsDeleteFile.

End RecycleBin.

(** ** Tunnel bring-up *)

(** [TRY { body } CATCH (...) { handler; throw; }]. *)
Definition TRY_CATCH_RETHROW {S A : Type} (body : Exec S A)
  (handler : Exec S unit) : Exec S A :=
  fun s =>
    match body s with
    | (Returns a, s1) => (Returns a, s1)
    | (Throws E, s1) =>
        match handler s1 with
        | (Returns _, s2) => (Throws E, s2)
        | (Throws E', s2) => (Throws E', s2)
        end
    end.

(** What the tunnel code asks of the machine it runs on: whether a socket
    can be had, whether a loopback listener binds to a 16-bit port, whether
    the secure shell of the tunnel opens for a descriptor, and the last
    error that shell reports. *)
Record TTunnelHost : Type := {
  SocketCreated : bool;
  BindLoopback : Z -> bool;
  TunnelOpens : TSessionData -> option Exception;
  LastTunnelError : string;
  DefaultSettings : TSessionData
}.

(** The secure shells opened for tunnels, each with its descriptor. *)
Inductive TTunnelEvent : Type :=
| EvTunnelOpen (Data : TSessionData).

(** [TCallbackGuard], as far as [FatalError] goes. *)
Record TCallbackGuard : Type := {
  FFatalError : option Exception
}.

(** The members of [TTerminal] that [OpenTunnel] and [CloseTunnel] read or
    write.  [FTunnel] stands for the secure shell together with its log and
    user interface, [FTunnelThread] for the started thread. *)
Record TTunnelMembers : Type := mkTunnelMembers {
  tnConfiguration : TConfiguration;
  tnSessionData : TSessionData;
  FTunnelLocalPortNumber : Z;
  FTunnelData : option TSessionData;
  FTunnel : bool;
  FTunnelOpening : bool;
  FTunnelThread : bool;
  FTunnelError : string;
  FCallbackGuard : option TCallbackGuard;
  FTunnelLog : list TTunnelEvent
}.

Section TunnelSetters.
Variable t : TTunnelMembers.

Definition set_FTunnelLocalPortNumber (v : Z) : TTunnelMembers :=
  mkTunnelMembers (tnConfiguration t) (tnSessionData t) v (FTunnelData t)
    (FTunnel t) (FTunnelOpening t) (FTunnelThread t) (FTunnelError t)
    (FCallbackGuard t) (FTunnelLog t).

Definition set_FTunnelData (v : option TSessionData) : TTunnelMembers :=
  mkTunnelMembers (tnConfiguration t) (tnSessionData t)
    (FTunnelLocalPortNumber t) v (FTunnel t) (FTunnelOpening t)
    (FTunnelThread t) (FTunnelError t) (FCallbackGuard t) (FTunnelLog t).

Definition set_FTunnel (v : bool) : TTunnelMembers :=
  mkTunnelMembers (tnConfiguration t) (tnSessionData t)
    (FTunnelLocalPortNumber t) (FTunnelData t) v (FTunnelOpening t)
    (FTunnelThread t) (FTunnelError t) (FCallbackGuard t) (FTunnelLog t).

Definition set_FTunnelOpening (v : bool) : TTunnelMembers :=
  mkTunnelMembers (tnConfiguration t) (tnSessionData t)
    (FTunnelLocalPortNumber t) (FTunnelData t) (FTunnel t) v
    (FTunnelThread t) (FTunnelError t) (FCallbackGuard t) (FTunnelLog t).

Definition set_FTunnelThread (v : bool) : TTunnelMembers :=
  mkTunnelMembers (tnConfiguration t) (tnSessionData t)
    (FTunnelLocalPortNumber t) (FTunnelData t) (FTunnel t) (FTunnelOpening t)
    v (FTunnelError t) (FCallbackGuard t) (FTunnelLog t).

Definition set_FTunnelError (v : string) : TTunnelMembers :=
  mkTunnelMembers (tnConfiguration t) (tnSessionData t)
    (FTunnelLocalPortNumber t) (FTunnelData t) (FTunnel t) (FTunnelOpening t)
    (FTunnelThread t) v (FCallbackGuard t) (FTunnelLog t).

Definition set_FCallbackGuard (v : option TCallbackGuard) : TTunnelMembers :=
  mkTunnelMembers (tnConfiguration t) (tnSessionData t)
    (FTunnelLocalPortNumber t) (FTunnelData t) (FTunnel t) (FTunnelOpening t)
    (FTunnelThread t) (FTunnelError t) v (FTunnelLog t).

Definition set_FTunnelLog (v : list TTunnelEvent) : TTunnelMembers :=
  mkTunnelMembers (tnConfiguration t) (tnSessionData t)
    (FTunnelLocalPortNumber t) (FTunnelData t) (FTunnel t) (FTunnelOpening t)
    (FTunnelThread t) (FTunnelError t) (FCallbackGuard t) v.

End TunnelSetters.

(** [IsListenerFree]: the port goes through [static_cast<short>] and
    [htons], which keep its low 16 bits. *)
Definition IsListenerFree (Host : TTunnelHost) (PortNumber : Z) : bool :=
  SocketCreated Host && BindLoopback Host (PortNumber mod 65536).

(** [FatalError], on the tunnel members: it always raises, through the
    callback guard when one is active.  Closing a connection that is still
    active works on members that are not modelled here. *)
Definition FatalError (E : option Exception) (Msg : TMessage)
  : Exec TTunnelMembers unit :=
  fun t =>
    match FCallbackGuard t with
    | Some g =>
        let g' :=
          match E with
          | Some ECallbackGuardAbort => g
          | _ => {| FFatalError := Some (ExtException E Msg) |}
          end in
        (Throws ECallbackGuardAbort, set_FCallbackGuard t (Some g'))
    | None => (Throws (ESshFatal E Msg), t)
    end.

(** The loop of [OpenTunnel] from a given port on: the port it leaves with,
    or [None] where it runs past [High] and reports the fatal error.  The
    port numbers are [intptr_t] and stay far from its bounds. *)
Equations? ScanTunnelPort (Free : Z -> bool) (High : Z) (Port : Z)
  : option Z by wf (Z.to_nat (High + 1 - Port)) lt :=
  ScanTunnelPort Free High Port with Free Port := {
    | true => Some Port
    | false with Z_gt_dec (Port + 1) High := {
        | left _ => None
        | right _ => ScanTunnelPort Free High (Port + 1) } }.
Proof. lia. Qed.

(** The port-forward directive of [OpenTunnel]:
    [FORMAT(L"L%d\t%s:%d", ...)]. *)
Definition TunnelPortForward (LocalPort : Z) (RealHost : string)
  (RealPort : Z) : string :=
  ("L" ++ IntToStr LocalPort ++ String "009" (RealHost ++ ":" ++ IntToStr RealPort))%string.

(** The descriptor that [OpenTunnel] builds for the tunnel. *)
Definition MakeTunnelData (Host : TTunnelHost) (sd : TSessionData)
  (LocalPort : Z) : TSessionData :=
  let d := DefaultSettings Host in
  {| Name := FMTLOAD TUNNEL_SESSION_NAME [Name sd];
     HostName := TunnelHostName sd;
     PortNumber := TunnelPortNumber sd;
     UserName := TunnelUserName sd;
     Password := TunnelPassword sd;
     PublicKeyFile := TunnelPublicKeyFile sd;
     Proxy := Proxy sd;
     Tunnel := false;
     TunnelHostName := TunnelHostName d;
     TunnelPortNumber := TunnelPortNumber d;
     TunnelUserName := TunnelUserName d;
     TunnelPassword := TunnelPassword d;
     TunnelPublicKeyFile := TunnelPublicKeyFile d;
     TunnelLocalPortNumber := TunnelLocalPortNumber d;
     TunnelPortFwd := TunnelPortForward LocalPort (HostName sd) (PortNumber sd);
     DeleteToRecycleBin := DeleteToRecycleBin d;
     RecycleBinPath := RecycleBinPath d;
     LockInHome := LockInHome d |}.

(** [CloseTunnel]. *)
Definition CloseTunnel (Host : TTunnelHost) : Exec TTunnelMembers unit :=
  modify (fun t => set_FTunnelThread t false) ;;
  modify (fun t => set_FTunnelError t (LastTunnelError Host)) ;;
  modify (fun t => set_FTunnel t false) ;;
  modify (fun t => set_FTunnelData t None) ;;
  modify (fun t => set_FTunnelLocalPortNumber t 0).

(** The first half of [OpenTunnel]: the choice of the local port. *)
Definition SelectTunnelPort (Host : TTunnelHost) : Exec TTunnelMembers unit :=
  modify (fun t =>
    set_FTunnelLocalPortNumber t (TunnelLocalPortNumber (tnSessionData t))) ;;
  Port <- gets FTunnelLocalPortNumber ;;
  if Port =? 0 then
    Low <- gets (fun t => TunnelLocalPortNumberLow (tnConfiguration t)) ;;
    High <- gets (fun t => TunnelLocalPortNumberHigh (tnConfiguration t)) ;;
    match ScanTunnelPort (IsListenerFree Host) High Low with
    | Some Port => modify (fun t => set_FTunnelLocalPortNumber t Port)
    | None =>
        modify (fun t => set_FTunnelLocalPortNumber t 0) ;;
        FatalError None
          (FMTLOAD TUNNEL_NO_FREE_PORT [Text (IntToStr Low); Text (IntToStr High)])
    end
  else ret tt.

(** [FTunnel->Open()]. *)
Definition OpenTunnelShell (Host : TTunnelHost) : Exec TTunnelMembers unit :=
  fun t =>
    match FTunnelData t with
    | Some Data =>
        (match TunnelOpens Host Data with
         | None => Returns tt
         | Some E => Throws E
         end,
         set_FTunnelLog t (FTunnelLog t ++ [EvTunnelOpen Data]))
    | None => (Throws (EExternal "access violation"), t)
    end.

(** [OpenTunnel]. *)
Definition OpenTunnel (Host : TTunnelHost) : Exec TTunnelMembers unit :=
  SelectTunnelPort Host ;;
  TRY_CATCH_RETHROW
    (modify (fun t =>
       set_FTunnelData t
         (Some (MakeTunnelData Host (tnSessionData t)
                  (FTunnelLocalPortNumber t)))) ;;
     modify (fun t => set_FTunnel t true) ;;
     modify (fun t => set_FTunnelOpening t true) ;;
     TRY_FINALLY (OpenTunnelShell Host)
       (modify (fun t => set_FTunnelOpening t false)) ;;
     modify (fun t => set_FTunnelThread t true))
    (CloseTunnel Host).

(** The port that [OpenTunnel] is to use, by the rule of the spec: the
    override of the descriptor, or else the first port of the configured
    range to which a loopback listener binds. *)
Definition ChosenTunnelPort (Host : TTunnelHost) (t : TTunnelMembers)
  (Port : Z) : Prop :=
  let Override := TunnelLocalPortNumber (tnSessionData t) in
  (Override <> 0 /\ Port = Override) \/
  (Override = 0 /\
   TunnelLocalPortNumberLow (tnConfiguration t) <= Port <=
     TunnelLocalPortNumberHigh (tnConfiguration t) /\
   IsListenerFree Host Port = true /\
   forall q, TunnelLocalPortNumberLow (tnConfiguration t) <= q < Port ->
     IsListenerFree Host q = false).

(** No override, and no port of the configured range is free. *)
Definition TunnelRangeExhausted (Host : TTunnelHost) (t : TTunnelMembers)
  : Prop :=
  TunnelLocalPortNumber (tnSessionData t) = 0 /\
  forall q, TunnelLocalPortNumberLow (tnConfiguration t) <= q <=
            TunnelLocalPortNumberHigh (tnConfiguration t) ->
    IsListenerFree Host q = false.

(** The fatal error reaches the caller: as [ESshFatal], or, under an active
    callback guard, as the guard's silent abort with the error kept in the
    guard for [Verify] to raise. *)
Definition FatalRaised (Msg : TMessage) (before : TTunnelMembers)
  (run : Outcome unit * TTunnelMembers) : Prop :=
  match FCallbackGuard before with
  | None => fst run = Throws (ESshFatal None Msg)
  | Some _ =>
      fst run = Throws ECallbackGuardAbort /\
      FCallbackGuard (snd run) =
        Some {| FFatalError := Some (ExtException None Msg) |}
  end.

(** ** Synchronization: the collect phase *)

Inductive TSynchronizeMode : Type := smRemote | smLocal | smBoth.

Scheme Equality for TSynchronizeMode.

(** The flags of the synchronization [Params]. *)
Inductive TSynchronizeParam : Type :=
| spDelete | spNoConfirmation | spExistingOnly | spNoRecurse | spUseCache
| spDelayProgress | spPreviewChanges | spSubDirs | spTimestamp | spNotByTime
| spBySize | spMirror.

Scheme Equality for TSynchronizeParam.
#[global] Instance TSynchronizeParam_Tag : Tag TSynchronizeParam :=
  TSynchronizeParam_beq.

(** [const int sfFirstLevel = 0x01], the one flag of [TSynchronizeData]. *)
Inductive TSynchronizeFlag : Type := sfFirstLevel.

Scheme Equality for TSynchronizeFlag.
#[global] Instance TSynchronizeFlag_Tag : Tag TSynchronizeFlag :=
  TSynchronizeFlag_beq.

(** [TSynchronizeChecklist::TAction]. *)
Inductive TChecklistAction : Type :=
| saNone | saUploadNew | saDownloadNew | saUploadUpdate | saDownloadUpdate
| saDeleteRemote | saDeleteLocal.

Scheme Equality for TChecklistAction.

(** How the listing of a remote directory ends in [ProcessDirectory]: with
    the files, with a null list after the user skipped the failure, or with
    an exception. *)
Inductive TListing (A : Type) : Type :=
| Listed (Files : list A)
| Skipped
| Failed (E : Exception).
Arguments Listed {A} Files.
Arguments Skipped {A}.
Arguments Failed {A} E.

Section SynchronizeCollect.
Context `{Externals}.

(** What [FindFirst] and [FindNext] report of a local file. *)
Record TSearchRec : Type := {
  srName : string;
  srIsDirectory : bool;
  srSize : Z;
  ftLastWriteTime : FILETIME
}.

(** The local tree: a file as the search reports it and, for a directory,
    what a search in it enumerates (nothing where [FindFirst] fails). *)
Inductive TLocalEntry : Type :=
| LocalEntry (SearchRec : TSearchRec) (Entries : list TLocalEntry).

(** The remote tree: a file and, for a directory, how its listing ends. *)
Inductive TRemoteEntry : Type :=
| RemoteEntry (File : TRemoteFile) (Listing : TListing TRemoteEntry).

Record TMaskParams : Type := {
  mpSize : Z;
  mpModification : TDateTime
}.

(** The methods of [TCopyParamType] that the synchronization calls. *)
Record TCopyParamType : Type := {
  ChangeFileName : string -> TOperationSide -> bool -> string;
  AllowTransfer : string -> TOperationSide -> bool -> TMaskParams -> bool;
  PreserveTime : bool
}.

Record TSynchronizeOptions : Type := {
  Filter : option (list string)
}.

(** [TSynchronizeOptions::MatchesFilter]. *)
Definition MatchesFilter (Options : TSynchronizeOptions) (FileName : string)
  : bool :=
  match Filter Options with
  | None => true
  | Some Names => existsb (SameText FileName) Names
  end.

(** [TSynchronizeChecklist::TItem::TFileInfo]. *)
Record TFileInfo : Type := {
  FileName : string;
  Directory : string;
  Modification : TDateTime;
  ModificationFmt : TModificationFmt;
  Size : Z
}.

(** [TSynchronizeChecklist::TItem].  [FLocalLastWriteTime] is not set by
    the constructor; [None] is the unset member. *)
Record TItem : Type := {
  Action : TChecklistAction;
  IsDirectory : bool;
  Local : TFileInfo;
  Remote : TFileInfo;
  ImageIndex : Z;
  Checked : bool;
  RemoteFile : option TRemoteFile;
  FLocalLastWriteTime : option FILETIME
}.

(** [TSynchronizeChecklist::TItem::TItem()]. *)
Definition NewItem : TItem :=
  {| Action := saNone;
     IsDirectory := false;
     Local := {| FileName := ""; Directory := "";
                 Modification := DateTimeOfZero; ModificationFmt := mfFull;
                 Size := 0 |};
     Remote := {| FileName := ""; Directory := "";
                  Modification := DateTimeOfZero; ModificationFmt := mfFull;
                  Size := 0 |};
     ImageIndex := -1;
     Checked := true;
     RemoteFile := None;
     FLocalLastWriteTime := None |}.

(** [TSynchronizeChecklist::TItem::GetFileName]. *)
Definition ItemFileName (Item : TItem) : string :=
  if negb (FileName (Remote Item) =? "")%string
  then FileName (Remote Item) else FileName (Local Item).

(** [TSynchronizeChecklist::Compare]. *)
Definition Compare (Item1 Item2 : TItem) : Z :=
  let Result :=
    if negb (Directory (Local Item1) =? "")%string
    then AnsiCompareText (Directory (Local Item1)) (Directory (Local Item2))
    else AnsiCompareText (Directory (Remote Item1)) (Directory (Remote Item2)) in
  if Result =? 0
  then AnsiCompareText (ItemFileName Item1) (ItemFileName Item2)
  else Result.

(** The three members of [TSynchronizeFileData] that are assigned together
    with [Modified = true], and only then. *)
Record TMatchingRemoteFile : Type := {
  MatchingRemoteFile : TFileInfo;
  MatchingRemoteFileImageIndex : Z;
  MatchingRemoteFileFile : TRemoteFile
}.

(** [TSynchronizeFileData].  [Modified] is set exactly when the matching
    remote file has been recorded, so the two are one optional member;
    [LocalEntries] is what a search in this local directory enumerates. *)
Record TSynchronizeFileData : Type := {
  Matching : option TMatchingRemoteFile;
  New : bool;
  FileIsDirectory : bool;
  Info : TFileInfo;
  LocalLastWriteTime : FILETIME;
  LocalEntries : list TLocalEntry
}.

Definition Modified (FileData : TSynchronizeFileData) : bool :=
  match Matching FileData with Some _ => true | None => false end.

(** [Data.LocalFileList]: the names with their file data.  The source keeps
    the list sorted; here it is in the order of the search, which only
    permutes the checklist before [SynchronizeCollect] sorts it. *)
Definition TLocalFileList : Type := list (string * TSynchronizeFileData).

(** [LocalFileList->IndexOf] followed by [Objects[LocalIndex]]. *)
Fixpoint LookupLocal (LocalFileName : string) (List : TLocalFileList)
  : option TSynchronizeFileData :=
  match List with
  | [] => None
  | (Name, FileData) :: rest =>
      if SameText LocalFileName Name then Some FileData
      else LookupLocal LocalFileName rest
  end.

(** An assignment through [Objects[LocalIndex]]. *)
Fixpoint UpdateLocal (LocalFileName : string)
  (f : TSynchronizeFileData -> TSynchronizeFileData) (List : TLocalFileList)
  : TLocalFileList :=
  match List with
  | [] => []
  | (Name, FileData) :: rest =>
      if SameText LocalFileName Name then (Name, f FileData) :: rest
      else (Name, FileData) :: UpdateLocal LocalFileName f rest
  end.

Definition ClearNew (d : TSynchronizeFileData) : TSynchronizeFileData :=
  {| Matching := Matching d; New := false;
     FileIsDirectory := FileIsDirectory d; Info := Info d;
     LocalLastWriteTime := LocalLastWriteTime d;
     LocalEntries := LocalEntries d |}.

Definition SetMatching (m : TMatchingRemoteFile) (d : TSynchronizeFileData)
  : TSynchronizeFileData :=
  {| Matching := Some m; New := New d;
     FileIsDirectory := FileIsDirectory d; Info := Info d;
     LocalLastWriteTime := LocalLastWriteTime d;
     LocalEntries := LocalEntries d |}.

(** What the collect phase asks of the backend and of the directory
    cache. *)
Record TCollectHost : Type := {
  TemporaryTransferFile : string -> bool;
  HasCachedFileList : string -> bool
}.

(** [TSynchronizeDirectoryEvent]: the value it leaves in [Continue]. *)
Definition TSynchronizeDirectoryEvent : Type :=
  string -> string -> bool -> bool.

(** [TSynchronizeData], without the list of local files and the checklist,
    which are passed along. *)
Record TSynchronizeData : Type := {
  LocalDirectory : string;
  RemoteDirectory : string;
  Mode : TSynchronizeMode;
  Params : list TSynchronizeParam;
  OnSynchronizeDirectory : option TSynchronizeDirectoryEvent;
  Options : option TSynchronizeOptions;
  Flags : list TSynchronizeFlag;
  CopyParam : TCopyParamType
}.

(** [DoSynchronizeProgress]. *)
Definition DoSynchronizeProgress {S : Type} (Data : TSynchronizeData)
  (Collect : bool) : Exec S unit :=
  match OnSynchronizeDirectory Data with
  | Some Event =>
      if Event (LocalDirectory Data) (RemoteDirectory Data) Collect
      then ret tt else throw EAbort
  | None => ret tt
  end.

(** The filter that both sides apply at the first level. *)
Definition PassesFilter (Data : TSynchronizeData) (Name1 Name2 : string)
  : bool :=
  FLAGCLEAR (Flags Data) sfFirstLevel ||
  match Options Data with
  | None => true
  | Some Options => MatchesFilter Options Name1 || MatchesFilter Options Name2
  end.

(** The [Checked] value of an item that stands for a transfer or for a
    deletion. *)
Definition CheckedUnless (Params : list TSynchronizeParam) (Wanted : bool)
  (ItemIsDirectory : bool) : bool :=
  Wanted &&
  (negb ItemIsDirectory || FLAGCLEAR Params spNoRecurse ||
   FLAGSET Params spSubDirs).

Definition WithAction (Item : TItem) (A : TChecklistAction) (C : bool)
  : TItem :=
  {| Action := A; IsDirectory := IsDirectory Item; Local := Local Item;
     Remote := Remote Item; ImageIndex := ImageIndex Item; Checked := C;
     RemoteFile := RemoteFile Item;
     FLocalLastWriteTime := FLocalLastWriteTime Item |}.

Definition WithRemoteFile (Item : TItem) (File : TRemoteFile) : TItem :=
  {| Action := Action Item; IsDirectory := IsDirectory Item;
     Local := Local Item; Remote := Remote Item;
     ImageIndex := ImageIndex Item; Checked := Checked Item;
     RemoteFile := Some File;
     FLocalLastWriteTime := FLocalLastWriteTime Item |}.

Definition WithLocal (Item : TItem) (L : TFileInfo) : TItem :=
  {| Action := Action Item; IsDirectory := IsDirectory Item; Local := L;
     Remote := Remote Item; ImageIndex := ImageIndex Item;
     Checked := Checked Item; RemoteFile := RemoteFile Item;
     FLocalLastWriteTime := FLocalLastWriteTime Item |}.

(** The comparison of a local file with the remote file of its name in
    [SynchronizeCollectFile]: the values of [Modified] and
    [LocalModified]. *)
Definition CompareSides (Data : TSynchronizeData) (LocalItem RemoteItem : TFileInfo)
  : bool * bool :=
  let TimeCompare :=
    if FLAGCLEAR (Params Data) spNotByTime &&
       (FLAGCLEAR (Params Data) spTimestamp ||
        FLAGCLEAR (Params Data) spBySize ||
        (Size LocalItem =? Size RemoteItem))
    then CompareFileTime (Modification LocalItem) (Modification RemoteItem)
    else 0 in
  if TimeCompare <? 0 then
    if (FLAGCLEAR (Params Data) spTimestamp && FLAGCLEAR (Params Data) spMirror)
       || TSynchronizeMode_beq (Mode Data) smBoth
       || TSynchronizeMode_beq (Mode Data) smLocal
    then (true, false) else (false, true)
  else if 0 <? TimeCompare then
    if (FLAGCLEAR (Params Data) spTimestamp && FLAGCLEAR (Params Data) spMirror)
       || TSynchronizeMode_beq (Mode Data) smBoth
       || TSynchronizeMode_beq (Mode Data) smRemote
    then (false, true) else (true, false)
  else if FLAGSET (Params Data) spBySize &&
          negb (Size LocalItem =? Size RemoteItem) &&
          FLAGCLEAR (Params Data) spTimestamp
  then (true, true)
  else (false, false).

(** The end of [SynchronizeCollectFile]: the action of the item of a remote
    file that is new or modified, and its addition to the checklist. *)
Definition AddRemoteItem (Data : TSynchronizeData) (File : TRemoteFile)
  (Item : TItem) (IsNew IsModified : bool) : Exec (list TItem) unit :=
  if IsNew || IsModified then
    let Item :=
      if TSynchronizeMode_beq (Mode Data) smBoth ||
         TSynchronizeMode_beq (Mode Data) smLocal
      then
        if FLAGCLEAR (Params Data) spTimestamp || IsModified then
          WithAction Item
            (if IsModified then saDownloadUpdate else saDownloadNew)
            (CheckedUnless (Params Data)
               (IsModified || FLAGCLEAR (Params Data) spExistingOnly)
               (IsDirectory Item))
        else Item
      else if TSynchronizeMode_beq (Mode Data) smRemote && IsNew then
        if FLAGCLEAR (Params Data) spTimestamp then
          WithAction Item saDeleteRemote
            (CheckedUnless (Params Data) (FLAGSET (Params Data) spDelete)
               (IsDirectory Item))
        else Item
      else Item in
    if negb (TChecklistAction_beq (Action Item) saNone)
    then modify (fun Checklist => Checklist ++ [WithRemoteFile Item File])
    else ret tt
  else ret tt.

(** The item that the second pass of [DoSynchronizeCollectDirectory] makes
    of a local file, if any. *)
Definition LocalItem (Data : TSynchronizeData) (FileData : TSynchronizeFileData)
  : option TItem :=
  let ToRemote :=
    TSynchronizeMode_beq (Mode Data) smBoth ||
    TSynchronizeMode_beq (Mode Data) smRemote in
  let IsModified := Modified FileData && ToRemote in
  let IsNew :=
    New FileData &&
    (TSynchronizeMode_beq (Mode Data) smLocal ||
     (ToRemote && FLAGCLEAR (Params Data) spTimestamp)) in
  if IsModified || IsNew then
    let Item :=
      {| Action := saNone;
         IsDirectory := FileIsDirectory FileData;
         Local := Info FileData;
         Remote :=
           match Matching FileData with
           | Some m => if IsModified then MatchingRemoteFile m
                       else {| FileName := ""; Directory := RemoteDirectory Data;
                               Modification := DateTimeOfZero;
                               ModificationFmt := mfFull; Size := 0 |}
           | None => {| FileName := ""; Directory := RemoteDirectory Data;
                        Modification := DateTimeOfZero;
                        ModificationFmt := mfFull; Size := 0 |}
           end;
         ImageIndex :=
           match Matching FileData with
           | Some m => if IsModified then MatchingRemoteFileImageIndex m else -1
           | None => -1
           end;
         Checked := true;
         RemoteFile :=
           match Matching FileData with
           | Some m => if IsModified then Some (MatchingRemoteFileFile m)
                       else None
           | None => None
           end;
         FLocalLastWriteTime := Some (LocalLastWriteTime FileData) |} in
    let Item :=
      if ToRemote then
        WithAction Item (if IsModified then saUploadUpdate else saUploadNew)
          (CheckedUnless (Params Data)
             (IsModified || FLAGCLEAR (Params Data) spExistingOnly)
             (IsDirectory Item))
      else if TSynchronizeMode_beq (Mode Data) smLocal &&
              FLAGCLEAR (Params Data) spTimestamp then
        WithAction Item saDeleteLocal
          (CheckedUnless (Params Data) (FLAGSET (Params Data) spDelete)
             (IsDirectory Item))
      else Item in
    if negb (TChecklistAction_beq (Action Item) saNone)
    then Some Item else None
  else None.

(** The condition under which the first loop of
    [DoSynchronizeCollectDirectory] includes a local file. *)
Definition LocalFileTakesPart (Host : TCollectHost) (Data : TSynchronizeData)
  (SearchRec : TSearchRec) : bool :=
  let FileName := srName SearchRec in
  let MaskParams :=
    {| mpSize := srSize SearchRec;
       mpModification := FileTimeToDateTime (ftLastWriteTime SearchRec) |} in
  let RemoteFileName :=
    ChangeFileName (CopyParam Data) FileName osLocal false in
  let FullLocalFileName := (LocalDirectory Data ++ FileName)%string in
  negb (FileName =? ".")%string && negb (FileName =? "..")%string &&
  AllowTransfer (CopyParam Data) FullLocalFileName osLocal
    (srIsDirectory SearchRec) MaskParams &&
  negb (TemporaryTransferFile Host FileName) &&
  PassesFilter Data FileName RemoteFileName.

(** The condition under which [SynchronizeCollectFile] includes a remote
    file. *)
Definition RemoteFileTakesPart (Host : TCollectHost) (Data : TSynchronizeData)
  (File : TRemoteFile) : bool :=
  let MaskParams :=
    {| mpSize := GetSize File; mpModification := GetModification File |} in
  let LocalFileName :=
    ChangeFileName (CopyParam Data) (GetFileName File) osRemote false in
  let FullRemoteFileName :=
    UnixExcludeTrailingBackslash (GetFullFileName File) in
  AllowTransfer (CopyParam Data) FullRemoteFileName osRemote
    (GetIsDirectory File) MaskParams &&
  negb (TemporaryTransferFile Host (GetFileName File)) &&
  PassesFilter Data (GetFileName File) LocalFileName.

(** The first loop of [DoSynchronizeCollectDirectory]: the local files that
    take part. *)
Fixpoint CollectLocalFiles (Host : TCollectHost) (Data : TSynchronizeData)
  (Found : list TLocalEntry) : TLocalFileList :=
  match Found with
  | [] => []
  | LocalEntry SearchRec Entries :: rest =>
      let FileName := srName SearchRec in
      let Size := srSize SearchRec in
      let Modification := FileTimeToDateTime (ftLastWriteTime SearchRec) in
      if LocalFileTakesPart Host Data SearchRec
      then
        (FileName,
         {| Matching := None; New := true;
            FileIsDirectory := srIsDirectory SearchRec;
            Info := {| FileName := FileName;
                       Directory := LocalDirectory Data;
                       Modification := Modification;
                       ModificationFmt := mfFull;
                       Size := Size |};
            LocalLastWriteTime := ftLastWriteTime SearchRec;
            LocalEntries := Entries |})
        :: CollectLocalFiles Host Data rest
      else CollectLocalFiles Host Data rest
  end.

(** The second loop of [DoSynchronizeCollectDirectory]. *)
Fixpoint AddLocalItems (Data : TSynchronizeData) (List : TLocalFileList)
  : list TItem :=
  match List with
  | [] => []
  | (_, FileData) :: rest =>
      match LocalItem Data FileData with
      | Some Item => Item :: AddLocalItems Data rest
      | None => AddLocalItems Data rest
      end
  end.

(** The type of [SynchronizeCollectFile] as a callback on the entries of
    the remote tree. *)
Definition TCollectFile : Type :=
  TRemoteEntry -> TSynchronizeData -> TLocalFileList ->
  Exec (list TItem) TLocalFileList.

Section CollectDirectory.
Variable Host : TCollectHost.
Variable CollectFile : TCollectFile.

(** The loop of [ProcessDirectory]. *)
Fixpoint ProcessListedFiles (Data : TSynchronizeData)
  (Files : list TRemoteEntry) (List : TLocalFileList)
  : Exec (list TItem) TLocalFileList :=
  match Files with
  | [] => ret List
  | Entry :: rest =>
      let File := match Entry with RemoteEntry File _ => File end in
      if negb (GetIsParentDirectory File) && negb (GetIsThisDirectory File)
      then
        List <- CollectFile Entry Data List ;;
        ProcessListedFiles Data rest List
      else ProcessListedFiles Data rest List
  end.

(** [DoSynchronizeCollectDirectory], given what a search of the local
    directory finds and how the listing of the remote directory ends. *)
Definition DoSynchronizeCollectDirectoryWith (ALocalDirectory : string)
  (ARemoteDirectory : string) (AMode : TSynchronizeMode)
  (ACopyParam : TCopyParamType) (AParams : list TSynchronizeParam)
  (AOnSynchronizeDirectory : option TSynchronizeDirectoryEvent)
  (AOptions : option TSynchronizeOptions) (AFlags : list TSynchronizeFlag)
  (Found : list TLocalEntry) (Listing : TListing TRemoteEntry)
  : Exec (list TItem) unit :=
  let Data :=
    {| LocalDirectory := IncludeTrailingBackslash ALocalDirectory;
       RemoteDirectory := UnixIncludeTrailingBackslash ARemoteDirectory;
       Mode := AMode; Params := AParams;
       OnSynchronizeDirectory := AOnSynchronizeDirectory;
       Options := AOptions; Flags := AFlags; CopyParam := ACopyParam |} in
  when (FLAGCLEAR AParams spDelayProgress) (DoSynchronizeProgress Data true) ;;
  match Found with
  | [] => ret tt
  | _ :: _ =>
      let List := CollectLocalFiles Host Data Found in
      let Cached :=
        FLAGSET AParams spUseCache && HasCachedFileList Host ARemoteDirectory in
      when (negb Cached && FLAGSET AParams spDelayProgress)
        (DoSynchronizeProgress Data true) ;;
      List <- match Listing with
              | Listed Files => ProcessListedFiles Data Files List
              | Skipped => ret List
              | Failed E => throw E
              end ;;
      modify (fun Checklist => Checklist ++ AddLocalItems Data List)
  end.

End CollectDirectory.

(** [SynchronizeCollectFile], for a file of the remote tree. *)
Fixpoint SynchronizeCollectFile (Host : TCollectHost) (Entry : TRemoteEntry)
  (Data : TSynchronizeData) (List : TLocalFileList) {struct Entry}
  : Exec (list TItem) TLocalFileList :=
  match Entry with
  | RemoteEntry File Listing =>
      let LocalFileName :=
        ChangeFileName (CopyParam Data) (GetFileName File) osRemote false in
      if RemoteFileTakesPart Host Data File
      then
        let Item :=
          {| Action := saNone;
             IsDirectory := GetIsDirectory File;
             Local := Local NewItem;
             Remote := {| FileName := GetFileName File;
                          Directory := RemoteDirectory Data;
                          Modification := GetModification File;
                          ModificationFmt := GetModificationFmt File;
                          Size := GetSize File |};
             ImageIndex := GetIconIndex File;
             Checked := true;
             RemoteFile := None;
             FLocalLastWriteTime := None |} in
        match LookupLocal LocalFileName List with
        | Some LocalData =>
            let List := UpdateLocal LocalFileName ClearNew List in
            if negb (Bool.eqb (GetIsDirectory File) (FileIsDirectory LocalData))
            then ret List
            else if negb (GetIsDirectory File) then
              let Item :=
                WithLocal Item
                  {| FileName := FileName (Info LocalData);
                     Directory := Directory (Info LocalData);
                     Modification :=
                       ReduceDateTimePrecision (Modification (Info LocalData))
                         (GetModificationFmt File);
                     ModificationFmt := ModificationFmt (Info LocalData);
                     Size := Size (Info LocalData) |} in
              let '(IsModified, LocalModified) :=
                CompareSides Data (Local Item) (Remote Item) in
              let List :=
                if LocalModified then
                  UpdateLocal LocalFileName
                    (SetMatching
                       {| MatchingRemoteFile := Remote Item;
                          MatchingRemoteFileImageIndex := ImageIndex Item;
                          MatchingRemoteFileFile := File |}) List
                else List in
              AddRemoteItem Data File Item false IsModified ;;
              ret List
            else if FLAGCLEAR (Params Data) spNoRecurse then
              DoSynchronizeCollectDirectoryWith Host
                (SynchronizeCollectFile Host)
                (LocalDirectory Data ++ FileName (Info LocalData))%string
                (RemoteDirectory Data ++ GetFileName File)%string
                (Mode Data) (CopyParam Data) (Params Data)
                (OnSynchronizeDirectory Data) (Options Data)
                (filter (fun f => negb (tag_eqb sfFirstLevel f)) (Flags Data))
                (LocalEntries LocalData) Listing ;;
              ret List
            else ret List
        | None =>
            let Item :=
              WithLocal Item
                {| FileName := ""; Directory := LocalDirectory Data;
                   Modification := DateTimeOfZero; ModificationFmt := mfFull;
                   Size := 0 |} in
            AddRemoteItem Data File Item true false ;;
            ret List
        end
      else ret List
  end.

(** [DoSynchronizeCollectDirectory]. *)
Definition DoSynchronizeCollectDirectory (Host : TCollectHost) :=
  DoSynchronizeCollectDirectoryWith Host (SynchronizeCollectFile Host).

(** [SynchronizeCollect]: the checklist, or the exception after which the
    partial checklist is deleted. *)
Definition SynchronizeCollect (Host : TCollectHost) (LocalDirectory : string)
  (RemoteDirectory : string) (Mode : TSynchronizeMode)
  (CopyParam : TCopyParamType) (Params : list TSynchronizeParam)
  (OnSynchronizeDirectory : option TSynchronizeDirectoryEvent)
  (Options : option TSynchronizeOptions)
  (Found : list TLocalEntry) (Listing : TListing TRemoteEntry)
  : Outcome (list TItem) :=
  match DoSynchronizeCollectDirectory Host LocalDirectory RemoteDirectory Mode
          CopyParam Params OnSynchronizeDirectory Options [sfFirstLevel]
          Found Listing [] with
  | (Returns _, Checklist) => Returns (ListSort TItem Compare Checklist)
  | (Throws E, _) => Throws E
  end.

End SynchronizeCollect.

(** ** Synchronization: the apply phase *)

(** The bulk operations that [SynchronizeApply] starts. *)
Inductive TBulkKind : Type :=
| bkCopyToLocal | bkDeleteFiles | bkCopyToRemote | bkDeleteLocalFiles
| bkLocalTimestamps | bkRemoteTimestamps.

Scheme Equality for TBulkKind.

Section SynchronizeApplying.
Context `{Externals}.

(** The object that goes with a name in one of the four string lists. *)
Inductive TListObject : Type :=
| NoObject
| RemoteFileObject (File : option TRemoteFile)
| ItemObject (Item : TItem).

Definition TStringList : Type := list (string * TListObject).

(** One call of a bulk operation: [CopyToLocal], [DeleteFiles],
    [CopyToRemote], [DeleteLocalFiles], or [ProcessFiles] with one of the
    two timestamp callbacks. *)
Record TBulkCall : Type := {
  Kind : TBulkKind;
  FileList : TStringList;
  TargetDir : string;
  BulkCopyParam : option TCopyParamType;
  BulkParams : list TCopyFlag
}.

(** A call as the log of an apply keeps it: with the index of the first
    item of the group it is made for, and with what it returned or
    raised. *)
Record TBulkEntry : Type := {
  Group : nat;
  Call : TBulkCall;
  Answer : Outcome bool
}.

Record TApplyState : Type := {
  Terminal : TTerminal;
  ApplyLog : list TBulkEntry
}.

(** The bulk operations are the terminal's own, and far larger than what
    is modelled of it: here each is an answer and a new state of the
    terminal, chosen by the surroundings from the call, the terminal and
    the calls so far. *)
Definition TBulkOperations : Type :=
  TBulkCall -> TTerminal -> list TBulkEntry -> Outcome bool * TTerminal.

Definition Bulk (Operations : TBulkOperations) (AGroup : nat)
  (ACall : TBulkCall) : Exec TApplyState bool :=
  fun s =>
    let '(r, T) := Operations ACall (Terminal s) (ApplyLog s) in
    (r, {| Terminal := T;
           ApplyLog := ApplyLog s ++
                       [{| Group := AGroup; Call := ACall; Answer := r |}] |}).

(** The four string lists of [SynchronizeApply]. *)
Record TApplyLists : Type := {
  DownloadList : TStringList;
  DeleteRemoteList : TStringList;
  UploadList : TStringList;
  DeleteLocalList : TStringList
}.

Definition ClearedLists : TApplyLists :=
  {| DownloadList := []; DeleteRemoteList := []; UploadList := [];
     DeleteLocalList := [] |}.

Definition AddDownload (L : TApplyLists) (e : string * TListObject)
  : TApplyLists :=
  {| DownloadList := DownloadList L ++ [e];
     DeleteRemoteList := DeleteRemoteList L; UploadList := UploadList L;
     DeleteLocalList := DeleteLocalList L |}.

Definition AddDeleteRemote (L : TApplyLists) (e : string * TListObject)
  : TApplyLists :=
  {| DownloadList := DownloadList L;
     DeleteRemoteList := DeleteRemoteList L ++ [e];
     UploadList := UploadList L; DeleteLocalList := DeleteLocalList L |}.

Definition AddUpload (L : TApplyLists) (e : string * TListObject)
  : TApplyLists :=
  {| DownloadList := DownloadList L; DeleteRemoteList := DeleteRemoteList L;
     UploadList := UploadList L ++ [e];
     DeleteLocalList := DeleteLocalList L |}.

Definition AddDeleteLocal (L : TApplyLists) (e : string * TListObject)
  : TApplyLists :=
  {| DownloadList := DownloadList L; DeleteRemoteList := DeleteRemoteList L;
     UploadList := UploadList L;
     DeleteLocalList := DeleteLocalList L ++ [e] |}.

Definition RemoteName (Item : TItem) : string :=
  (UnixIncludeTrailingBackslash (Directory (Remote Item)) ++
   FileName (Remote Item))%string.

Definition LocalName (Item : TItem) : string :=
  (IncludeTrailingBackslash (Directory (Local Item)) ++
   FileName (Local Item))%string.

(** The two [switch] statements of the inner loop, for a checked item. *)
Definition AddToLists (Params : list TSynchronizeParam) (Item : TItem)
  (L : TApplyLists) : TApplyLists :=
  if FLAGSET Params spTimestamp then
    match Action Item with
    | saDownloadUpdate => AddDownload L (RemoteName Item, ItemObject Item)
    | saUploadUpdate => AddUpload L (LocalName Item, ItemObject Item)
    | _ => L
    end
  else
    match Action Item with
    | saDownloadNew | saDownloadUpdate =>
        AddDownload L (RemoteName Item, RemoteFileObject (RemoteFile Item))
    | saDeleteRemote =>
        AddDeleteRemote L (RemoteName Item, RemoteFileObject (RemoteFile Item))
    | saUploadNew | saUploadUpdate => AddUpload L (LocalName Item, NoObject)
    | saDeleteLocal => AddDeleteLocal L (LocalName Item, NoObject)
    | saNone => L
    end.

(** The condition of the inner loop on the item at [IIndex]. *)
Definition InGroup (CurrentLocalDirectory CurrentRemoteDirectory : string)
  (Item : TItem) : bool :=
  (Directory (Local Item) =? CurrentLocalDirectory)%string &&
  (Directory (Remote Item) =? CurrentRemoteDirectory)%string.

(** The inner loop of [SynchronizeApply] over the items from [IIndex] on:
    the lists, the count of checked items, and the items that are left. *)
Fixpoint GatherGroup (Params : list TSynchronizeParam)
  (CurrentLocalDirectory CurrentRemoteDirectory : string)
  (Items : list TItem) (L : TApplyLists) (Count : nat)
  : TApplyLists * nat * list TItem :=
  match Items with
  | [] => (L, Count, [])
  | Item :: rest =>
      if InGroup CurrentLocalDirectory CurrentRemoteDirectory Item then
        if Checked Item then
          GatherGroup Params CurrentLocalDirectory CurrentRemoteDirectory rest
            (AddToLists Params Item L) (S Count)
        else
          GatherGroup Params CurrentLocalDirectory CurrentRemoteDirectory rest
            L Count
      else (L, Count, Items)
  end.

(** [SetPreserveTime(true)]. *)
Definition SetPreserveTime (CopyParam : TCopyParamType) (value : bool)
  : TCopyParamType :=
  {| ChangeFileName := ChangeFileName CopyParam;
     AllowTransfer := AllowTransfer CopyParam;
     PreserveTime := value |}.

(** A bulk operation whose [false] makes [SynchronizeApply] abort:
    [if ((List->Count > 0) && !Operation(...)) Abort();]. *)
Definition BulkOrAbort (Operations : TBulkOperations) (AGroup : nat)
  (ACall : TBulkCall) : Exec TApplyState unit :=
  match FileList ACall with
  | [] => ret tt
  | _ :: _ =>
      Done <- Bulk Operations AGroup ACall ;;
      if negb Done then throw EAbort else ret tt
  end.

(** A [ProcessFiles] whose result is not looked at. *)
Definition BulkIgnored (Operations : TBulkOperations) (AGroup : nat)
  (ACall : TBulkCall) : Exec TApplyState unit :=
  match FileList ACall with
  | [] => ret tt
  | _ :: _ => Bulk Operations AGroup ACall ;; ret tt
  end.

(** What [SynchronizeApply] does for a group once its lists are filled:
    the body of [if (Count > 0)]. *)
Definition ApplyGroup (Operations : TBulkOperations)
  (OnSynchronizeDirectory : option TSynchronizeDirectoryEvent)
  (SyncCopyParam : TCopyParamType) (Params : list TSynchronizeParam)
  (CopyParams : list TCopyFlag)
  (CurrentLocalDirectory CurrentRemoteDirectory : string) (AGroup : nat)
  (L : TApplyLists) : Exec TApplyState unit :=
  let Data :=
    {| LocalDirectory := IncludeTrailingBackslash CurrentLocalDirectory;
       RemoteDirectory := UnixIncludeTrailingBackslash CurrentRemoteDirectory;
       Mode := smRemote; Params := [];
       OnSynchronizeDirectory := OnSynchronizeDirectory;
       Options := None; Flags := []; CopyParam := SyncCopyParam |} in
  DoSynchronizeProgress Data false ;;
  if FLAGSET Params spTimestamp then
    BulkIgnored Operations AGroup
      {| Kind := bkLocalTimestamps; FileList := DownloadList L;
         TargetDir := ""; BulkCopyParam := None; BulkParams := [] |} ;;
    BulkIgnored Operations AGroup
      {| Kind := bkRemoteTimestamps; FileList := UploadList L;
         TargetDir := ""; BulkCopyParam := None; BulkParams := [] |}
  else
    BulkOrAbort Operations AGroup
      {| Kind := bkCopyToLocal; FileList := DownloadList L;
         TargetDir := LocalDirectory Data;
         BulkCopyParam := Some SyncCopyParam; BulkParams := CopyParams |} ;;
    BulkOrAbort Operations AGroup
      {| Kind := bkDeleteFiles; FileList := DeleteRemoteList L;
         TargetDir := ""; BulkCopyParam := None; BulkParams := [] |} ;;
    BulkOrAbort Operations AGroup
      {| Kind := bkCopyToRemote; FileList := UploadList L;
         TargetDir := RemoteDirectory Data;
         BulkCopyParam := Some SyncCopyParam; BulkParams := CopyParams |} ;;
    BulkOrAbort Operations AGroup
      {| Kind := bkDeleteLocalFiles; FileList := DeleteLocalList L;
         TargetDir := ""; BulkCopyParam := None; BulkParams := [] |}.

(** The outer loop of [SynchronizeApply] over the items from [IIndex]
    on. *)
#[local] Obligation Tactic := idtac.

Equations? ApplyGroups (Operations : TBulkOperations)
  (OnSynchronizeDirectory : option TSynchronizeDirectoryEvent)
  (SyncCopyParam : TCopyParamType) (Params : list TSynchronizeParam)
  (CopyParams : list TCopyFlag) (IIndex : nat) (Items : list TItem)
  : Exec TApplyState unit by wf (List.length Items) lt :=
  ApplyGroups Operations OnSynchronizeDirectory SyncCopyParam Params
    CopyParams IIndex [] := ret tt;
  ApplyGroups Operations OnSynchronizeDirectory SyncCopyParam Params
    CopyParams IIndex (Item :: rest) :=
    let CurrentLocalDirectory := Directory (Local Item) in
    let CurrentRemoteDirectory := Directory (Remote Item) in
    let Gathered :=
      GatherGroup Params CurrentLocalDirectory CurrentRemoteDirectory
        (Item :: rest) ClearedLists 0 in
    let Left := snd Gathered in
    when (0 <? snd (fst Gathered))%nat
      (ApplyGroup Operations OnSynchronizeDirectory SyncCopyParam Params
         CopyParams CurrentLocalDirectory CurrentRemoteDirectory IIndex
         (fst (fst Gathered))) ;;
    ApplyGroups Operations OnSynchronizeDirectory SyncCopyParam Params
      CopyParams (IIndex + (List.length (Item :: rest) - List.length Left))
      Left.
Proof.
  intros. subst Left Gathered.
  cbn. unfold InGroup. rewrite !String.eqb_refl. cbn.
  assert (Hle : forall P l r Items L c,
    (List.length (snd (GatherGroup P l r Items L c)) <=
     List.length Items)%nat).
  { induction Items as [| Next Items IH]; intros L c; cbn; [lia |].
    destruct (InGroup _ _ Next); [| cbn; lia].
    destruct (Checked Next); eapply Nat.le_trans; try apply IH; lia. }
  destruct (Checked Item); apply Nat.lt_succ_r, Hle.
Qed.

(** [SynchronizeApply]. *)
Definition SynchronizeApply (Operations : TBulkOperations)
  (Checklist : list TItem) (LocalDirectory RemoteDirectory : string)
  (CopyParam : TCopyParamType) (Params : list TSynchronizeParam)
  (OnSynchronizeDirectory : option TSynchronizeDirectoryEvent)
  : Exec TApplyState unit :=
  let CopyParams :=
    FLAGMASK (FLAGSET Params spNoConfirmation) [cpNoConfirmation] in
  let SyncCopyParam :=
    if FLAGCLEAR Params spNotByTime then SetPreserveTime CopyParam true
    else CopyParam in
  modify (fun s =>
    {| Terminal := BeginTransaction (Terminal s); ApplyLog := ApplyLog s |}) ;;
  TRY_FINALLY
    (ApplyGroups Operations OnSynchronizeDirectory SyncCopyParam Params
       CopyParams 0 Checklist)
    (fun s =>
       let '(r, T) := EndTransaction (Terminal s) in
       (r, {| Terminal := T; ApplyLog := ApplyLog s |})).

End SynchronizeApplying.

(** ** Bulk operations on lists of files *)

(** [TOnceDoneOperation] of the absent Terminal.h: the idle value that
    Terminal.cpp names, and the operations that are not idle. *)
Inductive TOnceDoneOperation : Type :=
| odoIdle
| odoNotIdle (AOperation : Z).

Definition IsIdle (OnceDoneOperation : TOnceDoneOperation) : bool :=
  match OnceDoneOperation with
  | odoIdle => true
  | odoNotIdle _ => false
  end.

(** A call of [Progress.Finish]. *)
Record TFinished : Type := {
  FinishedFile : string;
  FinishedSuccess : bool
}.

(** [FExceptionOnFail], of the terminal and of its command session if it
    has one. *)
Record TFailMembers : Type := {
  FExceptionOnFail : Z;
  CommandSessionExceptionOnFail : option Z
}.

(** [SetExceptionOnFail]. *)
Definition SetExceptionOnFail (value : bool) : Exec TFailMembers unit :=
  (if value then
     modify (fun s =>
       {| FExceptionOnFail := FExceptionOnFail s + 1;
          CommandSessionExceptionOnFail := CommandSessionExceptionOnFail s |})
   else
     Count <- gets FExceptionOnFail ;;
     if Count =? 0 then throw (EExternal "ExceptionOnFail is already zero.")
     else
       modify (fun s =>
         {| FExceptionOnFail := FExceptionOnFail s - 1;
            CommandSessionExceptionOnFail :=
              CommandSessionExceptionOnFail s |})) ;;
  modify (fun s =>
    {| FExceptionOnFail := FExceptionOnFail s;
       CommandSessionExceptionOnFail :=
         match CommandSessionExceptionOnFail s with
         | Some _ => Some (FExceptionOnFail s)
         | None => None
         end |}).

(** [GetExceptionOnFail]. *)
Definition GetExceptionOnFail (s : TFailMembers) : bool :=
  0 <? FExceptionOnFail s.

Section BulkProcessing.
Context `{Externals}.

(** The members of [TTerminal] that [ProcessFiles] reads or writes, and
    the calls of [Progress.Finish] in their order. *)
Record TProcessMembers : Type := {
  Session : TTerminal;
  OnFail : TFailMembers;
  Finished : list TFinished
}.

(** What [ProcessFiles] takes from code that is not at hand.  [Start] is
    the progress object after its construction and [Progress.Start];
    [Finish] is [Progress.Finish], which reaches the surroundings through
    the callbacks of the object: whether it raises, and what it leaves in
    [OnceDoneOperation] and in the object, given the calls before;
    [Close] is what closing the backends makes of the terminal;
    [ESshTerminate] builds the exception of that class, and
    [DefaultMessage] is the message that the declaration of
    [CloseOnCompletion] gives a call without one. *)
Record TProcessHost : Type := {
  Start : TFileOperation -> TOperationSide -> nat ->
          TFileOperationProgressType;
  Finish : list TFinished -> TFinished -> TOnceDoneOperation ->
           TFileOperationProgressType ->
           option Exception * TOnceDoneOperation * TFileOperationProgressType;
  Close : TTerminal -> TTerminal;
  ESshTerminate : TMessage -> TOnceDoneOperation -> Exception;
  CLOSED_ON_COMPLETION : TMessage;
  DefaultMessage : TMessage
}.

(** [TProcessFileEvent]: a callback reaches the progress object of the
    operation through [FOperationProgress]. *)
Definition TProcessFileEvent : Type :=
  string -> TListObject -> Exec TProcessMembers unit.

Definition set_Session (s : TProcessMembers) (T : TTerminal)
  : TProcessMembers :=
  {| Session := T; OnFail := OnFail s; Finished := Finished s |}.

(** An assignment to [FOperationProgress]. *)
Definition PointProgress (v : option TFileOperationProgressType)
  (s : TProcessMembers) : TProcessMembers :=
  set_Session s
    (mkTerminal (set_FOperationProgress (Own (Session s)) v)
       (FCommandSession (Session s))).

(** The local object [Progress] as the terminal shows it: while
    [FOperationProgress] is set it points to that object, so a write to
    the object is seen through the member and a write through the member
    is one to the object; after a callback has cleared the member the
    object is as it was last. *)
Definition StoreProgress (Progress : TFileOperationProgressType)
  (s : TProcessMembers) : TProcessMembers :=
  match FOperationProgress (Own (Session s)) with
  | Some _ => PointProgress (Some Progress) s
  | None => s
  end.

Definition LoadProgress (Progress : TFileOperationProgressType)
  (s : TProcessMembers) : TFileOperationProgressType :=
  match FOperationProgress (Own (Session s)) with
  | Some p => p
  | None => Progress
  end.

(** [HandleException]. *)
Definition HandleException (E : Exception) : Exec TProcessMembers bool :=
  Raise <- gets (fun s => GetExceptionOnFail (OnFail s)) ;;
  if Raise then ret false else ret true.

(** One turn of the loop of [ProcessFiles], from [FileName = ...] to the
    end of the [catch]: the values of [OnceDoneOperation] and of the object
    afterwards.  [Success] is set after the callback has returned; the
    exception that leaves the inner [TRY_FINALLY] is that of
    [Progress.Finish] if it raises one, and else that of the callback.
    [SUSPEND_OPERATION] is not at hand and suspends the clock of the
    object. *)
Definition ProcessOneFile (Host : TProcessHost)
  (ProcessFile : TProcessFileEvent) (Ex : bool) (FileName : string)
  (Object : TListObject) (OnceDoneOperation : TOnceDoneOperation)
  (Progress : TFileOperationProgressType)
  : Exec TProcessMembers (TOnceDoneOperation * TFileOperationProgressType) :=
  fun s =>
    let '(r, s) :=
      (if negb Ex then ProcessFile FileName Object else ret tt) s in
    let Success := match r with Returns _ => true | Throws _ => false end in
    let Call := {| FinishedFile := FileName; FinishedSuccess := Success |} in
    let '(Raised, OnceDoneOperation, Progress) :=
      Finish Host (Finished s) Call OnceDoneOperation (LoadProgress Progress s)
    in
    let s :=
      StoreProgress Progress
        {| Session := Session s; OnFail := OnFail s;
           Finished := Finished s ++ [Call] |} in
    let Leaving :=
      match Raised, r with
      | Some E, _ => Some E
      | None, Throws E => Some E
      | None, Returns _ => None
      end in
    match Leaving with
    | None => (Returns (OnceDoneOperation, Progress), s)
    | Some (EScpSkipFile E Msg) =>
        (Handled <- HandleException (EScpSkipFile E Msg) ;;
         if negb Handled then throw (EScpSkipFile E Msg)
         else ret (OnceDoneOperation, Progress)) s
    | Some E => (Throws E, s)
    end.

(** The loop of [ProcessFiles] over the files from [Index] on. *)
Fixpoint ProcessFileList (Host : TProcessHost)
  (ProcessFile : TProcessFileEvent) (Ex : bool) (FileList : TStringList)
  (OnceDoneOperation : TOnceDoneOperation)
  (Progress : TFileOperationProgressType)
  : Exec TProcessMembers (TOnceDoneOperation * TFileOperationProgressType) :=
  match FileList with
  | [] => ret (OnceDoneOperation, Progress)
  | (FileName, Object) :: rest =>
      if TCancelStatus_beq (Cancel Progress) csContinue then
        Left <- ProcessOneFile Host ProcessFile Ex FileName Object
                  OnceDoneOperation Progress ;;
        ProcessFileList Host ProcessFile Ex rest (fst Left) (snd Left)
      else ret (OnceDoneOperation, Progress)
  end.

(** [BeginTransaction] and [EndTransaction], on these members. *)
Definition BeginProcessTransaction : Exec TProcessMembers unit :=
  modify (fun s => set_Session s (BeginTransaction (Session s))).

Definition EndProcessTransaction : Exec TProcessMembers unit :=
  fun s =>
    let '(r, T) := EndTransaction (Session s) in
    (r, set_Session s T).

(** [CloseOnCompletion]. *)
Definition CloseOnCompletion {A : Type} (Host : TProcessHost)
  (AOperation : TOnceDoneOperation) (Message : TMessage)
  : Exec TProcessMembers A :=
  modify (fun s => set_Session s (Close Host (Session s))) ;;
  throw (ESshTerminate Host
           (if TMessage_IsEmpty Message then CLOSED_ON_COMPLETION Host
            else Message)
           AOperation).

(** [ProcessFiles].  The exception that ends the loop of a turn leaves
    [OnceDoneOperation] to the outer [catch], which resets it and raises the
    exception again; [Progress.Stop] is not at hand and works on the object
    that ends with the call. *)
Definition ProcessFiles (Host : TProcessHost) (FileList : TStringList)
  (AOperation : TFileOperation) (ProcessFile : TProcessFileEvent)
  (Side : TOperationSide) (Ex : bool) : Exec TProcessMembers bool :=
  let Progress := Start Host AOperation Side (List.length FileList) in
  let Remote := match Side with osRemote => true | osLocal => false end in
  modify (PointProgress (Some Progress)) ;;
  Done <- TRY_FINALLY
            (when Remote BeginProcessTransaction ;;
             Left <- TRY_FINALLY
                       (ProcessFileList Host ProcessFile Ex FileList odoIdle
                          Progress)
                       (when Remote EndProcessTransaction) ;;
             ret (TCancelStatus_beq (Cancel (snd Left)) csContinue, fst Left))
            (modify (PointProgress None)) ;;
  if negb (IsIdle (snd Done))
  then CloseOnCompletion Host (snd Done) (DefaultMessage Host)
  else ret (fst Done).

(** The file that a callback of the terminal is handed with a name. *)
Definition AsRemoteFile (Object : TListObject) : option TRemoteFile :=
  match Object with
  | RemoteFileObject File => File
  | _ => None
  end.

(** A method of the terminal as a callback of [ProcessFiles]. *)
Definition OnSession {A : Type} (c : Exec TTerminalState A)
  : Exec TProcessMembers A :=
  fun s =>
    let '(r, T) := OnOwn c (Session s) in
    (r, set_Session s T).

(** [DeleteFiles]: the callback is [DeleteFile] with the address of
    [Params]; the side and [Ex] are the defaults of the declaration. *)
Definition DeleteFiles (Host : TProcessHost) (FilesToDelete : TStringList)
  (Params : list TDeleteFlag) : Exec TProcessMembers bool :=
  ProcessFiles Host FilesToDelete foDelete
    (fun FileName Object =>
       OnSession (DeleteFile FileName (AsRemoteFile Object) (Some Params)))
    osRemote false.

End BulkProcessing.

(** Client code brackets its work as [BeginTransaction(); TRY_FINALLY
    (body, EndTransaction())] (so do [SynchronizeApply], [DoStartup] and
    [MoveFiles]); a script is such a bracket around commands that end in
    [ReactOnCommand] and around further brackets. *)
Inductive TScript : Type :=
| React (Cmd : TFSCommand)
| Transaction (Body : list TScript).

Section RunScripts.
Variable RunScript : TScript -> Exec TTerminal unit.

Fixpoint RunBodyWith (Body : list TScript) : Exec TTerminal unit :=
  match Body with
  | [] => ret tt
  | s :: rest => RunScript s ;; RunBodyWith rest
  end.
End RunScripts.

Fixpoint RunScript (s : TScript) : Exec TTerminal unit :=
  match s with
  | React Cmd => OnOwn (ReactOnCommand Cmd)
  | Transaction Body =>
      fun T => TRY_FINALLY (RunBodyWith RunScript Body) EndTransaction
                 (BeginTransaction T)
  end.

Definition RunBody : list TScript -> Exec TTerminal unit :=
  RunBodyWith RunScript.

(** The rereads among the calls of a log. *)
Definition IsCwdReread (ev : TEvent) : bool :=
  match ev with EvReadCurrentDirectory => true | _ => false end.

Definition IsDirectoryReread (ev : TEvent) : bool :=
  match ev with EvReadDirectory _ _ => true | _ => false end.

Definition CountEvents (p : TEvent -> bool) (l : list TEvent) : nat :=
  List.length (filter p l).

(** A terminal state that differs from [t] in the two pending flags only. *)
Definition WithPending (t : TTerminalState) (cwd dir : bool) : TTerminalState :=
  set_FReadDirectoryPending (set_FReadCurrentDirectoryPending t cwd) dir.

(** *** Vocabulary for the properties of [DeleteFile] *)

Definition IsRenameRequest (ev : TEvent) : bool :=
  match ev with EvRenameFile _ _ => true | _ => false end.

Definition IsDeleteRequest (ev : TEvent) : bool :=
  match ev with EvDeleteFile _ _ => true | _ => false end.

Definition IsReread (ev : TEvent) : bool :=
  IsCwdReread ev || IsDirectoryReread ev.

(** The bulk operation that a delete or a move runs in has been
    cancelled. *)
Definition Cancelled (t : TTerminalState) : bool :=
  match FOperationProgress t with
  | Some p =>
      existsb (TFileOperation_beq (Operation p)) [foRemoteMove; foDelete] &&
      negb (TCancelStatus_beq (Cancel p) csContinue)
  | None => false
  end.

(** Two terminal states that agree on everything but the cached current
    directory and the progress object. *)
Definition Quiet (t t' : TTerminalState) : Prop :=
  set_FOperationProgress (set_FCurrentDirectory t "") None =
  set_FOperationProgress (set_FCurrentDirectory t' "") None.

Section RecycleVocabulary.
Context `{Externals}.

(** The name [DeleteFile] works with. *)
Definition DeleteTarget (FileName : string) (File : option TRemoteFile)
  : string :=
  match File with
  | Some f => if (FileName =? "")%string then GetFileName f else FileName
  | None => FileName
  end.

(** The directory of a target is known without asking the server: the name
    carries it, or the backend knows its current directory. *)
Definition DirectoryKnown (t : TTerminalState) (FileName : string) : bool :=
  negb (UnixExtractFilePath FileName =? "")%string ||
  match FFileSystem t with
  | Some fs => negb (fsCurrentDirectoryName fs (FLog t) =? "")%string
  | None => negb (FCurrentDirectory t =? "")%string
  end.

(** The directory that [IsRecycledFile] compares with the recycle path. *)
Definition TargetDirectory (t : TTerminalState) (FileName : string) : string :=
  let Path := UnixExtractFilePath FileName in
  if (Path =? "")%string then
    TranslateLockedPath t
      match FFileSystem t with
      | Some fs => fsCurrentDirectoryName fs (FLog t)
      | None => FCurrentDirectory t
      end true
  else Path.

(** The condition under which [DeleteFile] moves the target to the recycle
    bin instead of deleting it. *)
Definition Recycles (t : TTerminalState) (LocalFileName : string)
  (Params : list TDeleteFlag) : bool :=
  FLAGCLEAR Params dfForceDelete &&
  negb (Bool.eqb (DeleteToRecycleBin (FSessionData t))
          (FLAGSET Params dfAlternative)) &&
  negb (RecycleBinPath (FSessionData t) =? "")%string &&
  negb (UnixComparePaths (TargetDirectory t LocalFileName)
          (RecycleBinPath (FSessionData t))).

(** The new name of a file moved to the recycle bin at a given time. *)
Definition RecycledName (t : TTerminalState) (LocalFileName : string)
  (DateTime : TDateTime) : string :=
  (UnixIncludeTrailingBackslash (RecycleBinPath (FSessionData t)) ++
   MaskFileName (UnixExtractFileName LocalFileName) (RecycleMask DateTime))%string.

End RecycleVocabulary.

(** *** Vocabulary for the properties of the collect phase *)

(** An action that changes the remote side when it is applied. *)
Definition PlansRemoteChange (A : TChecklistAction) : bool :=
  match A with
  | saUploadNew | saUploadUpdate | saDeleteRemote => true
  | _ => false
  end.

(** An action that changes the local side when it is applied. *)
Definition PlansLocalChange (A : TChecklistAction) : bool :=
  match A with
  | saDownloadNew | saDownloadUpdate | saDeleteLocal => true
  | _ => false
  end.

(** The actions that a collect in a given mode is to plan. *)
Definition ActionOfMode (Mode : TSynchronizeMode) (A : TChecklistAction)
  : bool :=
  match Mode with
  | smLocal => negb (PlansRemoteChange A)
  | smRemote => negb (PlansLocalChange A)
  | smBoth => true
  end.

Section CollectVocabulary.
Context `{Externals}.

(** A step of the collect keeps the checklist within the actions of a
    mode. *)
Definition KeepsMode {A : Type} (Mode : TSynchronizeMode)
  (c : Exec (list TItem) A) : Prop :=
  forall Checklist,
    Forall (fun Item => ActionOfMode Mode (Action Item) = true) Checklist ->
    Forall (fun Item => ActionOfMode Mode (Action Item) = true)
      (snd (c Checklist)).

End CollectVocabulary.

(** *** The calls of an apply *)

(** The place of a bulk operation in the order that the apply phase keeps
    within a group. *)
Definition BulkRank (K : TBulkKind) : nat :=
  match K with
  | bkCopyToLocal | bkLocalTimestamps => 1%nat
  | bkDeleteFiles => 2%nat
  | bkCopyToRemote | bkRemoteTimestamps => 3%nat
  | bkDeleteLocalFiles => 4%nat
  end.

(** The four bulk operations of an apply that is not one of timestamps. *)
Definition TransfersOrDeletes (K : TBulkKind) : bool :=
  match K with
  | bkCopyToLocal | bkDeleteFiles | bkCopyToRemote | bkDeleteLocalFiles => true
  | bkLocalTimestamps | bkRemoteTimestamps => false
  end.

(** What the apply raises after a bulk operation that did not return
    [true]: the operation's own exception, or [EAbort] for its [false]. *)
Definition Raised (a : Outcome bool) : Exception :=
  match a with
  | Throws E => E
  | Returns _ => EAbort
  end.

Section ApplyVocabulary.
Context `{Externals}.

(** The list that a bulk operation is given. *)
Definition BucketOf (K : TBulkKind) (L : TApplyLists) : TStringList :=
  match K with
  | bkCopyToLocal | bkLocalTimestamps => DownloadList L
  | bkDeleteFiles => DeleteRemoteList L
  | bkCopyToRemote | bkRemoteTimestamps => UploadList L
  | bkDeleteLocalFiles => DeleteLocalList L
  end.

(** The four lists of the group that begins with the first of [Items]. *)
Definition GroupLists (Params : list TSynchronizeParam) (Items : list TItem)
  : TApplyLists :=
  match Items with
  | [] => ClearedLists
  | Item :: _ =>
      fst (fst (GatherGroup Params (Directory (Local Item))
                  (Directory (Remote Item)) Items ClearedLists 0))
  end.

(** The order of the calls of an apply: by group, and within a group by
    the rank of the bulk operation. *)
Definition CallBefore (e1 e2 : TBulkEntry) : Prop :=
  (Group e1 < Group e2)%nat \/
  (Group e1 = Group e2 /\
   (BulkRank (Kind (Call e1)) < BulkRank (Kind (Call e2)))%nat).

(** The bulk operation returned [true]: it was not cancelled. *)
Definition Completed (e : TBulkEntry) : Prop := Answer e = Returns true.

(** The calls of a stretch of an apply that ended with [r]: all were
    completed, or all but the last were and the stretch raised what the
    last one makes it raise. *)
Definition Settled (Calls : list TBulkEntry) (r : Outcome unit) : Prop :=
  Forall Completed Calls \/
  exists before e,
    Calls = before ++ [e] /\ Forall Completed before /\ ~ Completed e /\
    r = Throws (Raised (Answer e)).

(** A call made for the group [AGroup] with the lists [L], of a rank up to
    [Bound]. *)
Definition OfGroup (AGroup : nat) (L : TApplyLists) (Bound : nat)
  (e : TBulkEntry) : Prop :=
  Group e = AGroup /\ TransfersOrDeletes (Kind (Call e)) = true /\
  FileList (Call e) = BucketOf (Kind (Call e)) L /\
  FileList (Call e) <> [] /\
  (BulkRank (Kind (Call e)) <= Bound)%nat.

(** A call of the apply of [Items], whose first item has the index
    [IIndex]: it transfers or deletes the files of one of the four lists,
    not empty, that the inner loop gathers from the item with the call's
    index on. *)
Definition OfApply (Params : list TSynchronizeParam) (IIndex : nat)
  (Items : list TItem) (e : TBulkEntry) : Prop :=
  (IIndex <= Group e)%nat /\
  TransfersOrDeletes (Kind (Call e)) = true /\
  FileList (Call e) =
    BucketOf (Kind (Call e))
      (GroupLists Params (skipn (Group e - IIndex) Items)) /\
  FileList (Call e) <> [].

(** The calls in the log of an apply: group, operation and file names. *)
Definition CallsOf (s : TApplyState) : list (nat * TBulkKind * list string) :=
  map (fun e => (Group e, Kind (Call e), map fst (FileList (Call e))))
    (ApplyLog s).

End ApplyVocabulary.

(** *** Vocabulary for the further properties of transactions *)

(** Nothing is pending on a terminal, or on its command sessions, that is
    outside a transaction; the counters are not negative. *)
Fixpoint NothingPendingOutside (T : TTerminal) : Prop :=
  match T with
  | mkTerminal own cs =>
      0 <= FInTransaction own /\
      (FInTransaction own = 0 ->
       FReadCurrentDirectoryPending own = false /\
       FReadDirectoryPending own = false) /\
      match cs with
      | Some c => NothingPendingOutside c
      | None => True
      end
  end.

(** *** Vocabulary for what the collect phase plans *)

(** An action that brings a file of one side up to date with the other. *)
Definition IsUpdate (A : TChecklistAction) : bool :=
  match A with saDownloadUpdate | saUploadUpdate => true | _ => false end.

(** An action that deletes a file. *)
Definition IsDeletion (A : TChecklistAction) : bool :=
  match A with saDeleteRemote | saDeleteLocal => true | _ => false end.

(** Whether the parameters want an action carried out without being asked:
    a new file unless only existing files are synchronized, an update
    always, a deletion only when deletions are asked for. *)
Definition Wanted (Params : list TSynchronizeParam) (A : TChecklistAction)
  : bool :=
  match A with
  | saDownloadNew | saUploadNew => FLAGCLEAR Params spExistingOnly
  | saDeleteRemote | saDeleteLocal => FLAGSET Params spDelete
  | _ => true
  end.

Section PlanVocabulary.
Context `{Externals}.

(** What the collect phase keeps of every item it adds, for a mode and a
    set of parameters. *)
Record Planned (AMode : TSynchronizeMode) (AParams : list TSynchronizeParam)
  (Item : TItem) : Prop := {
  planned_action : Action Item <> saNone;
  planned_checked :
    Checked Item =
      CheckedUnless AParams (Wanted AParams (Action Item)) (IsDirectory Item);
  planned_timestamp :
    FLAGSET AParams spTimestamp = true -> IsUpdate (Action Item) = true;
  planned_both : AMode = smBoth -> IsDeletion (Action Item) = false;
  planned_directory :
    IsDirectory Item = true -> IsUpdate (Action Item) = false
}.

(** A local file matched with a remote file is not a directory. *)
Definition MatchedIsFile (FileData : TSynchronizeFileData) : Prop :=
  Modified FileData = true -> FileIsDirectory FileData = false.

(** A step of the collect that keeps both: the checklist planned, and the
    list of local files, where it returns one, with files matched only. *)
Definition KeepsPlanned (AMode : TSynchronizeMode)
  (AParams : list TSynchronizeParam)
  (c : Exec (list TItem) TLocalFileList) : Prop :=
  forall Checklist,
    Forall (Planned AMode AParams) Checklist ->
    Forall (Planned AMode AParams) (snd (c Checklist)) /\
    forall List, fst (c Checklist) = Returns List ->
      Forall (fun e => MatchedIsFile (snd e)) List.

(** A step of the collect that keeps the checklist planned. *)
Definition KeepsChecklist (AMode : TSynchronizeMode)
  (AParams : list TSynchronizeParam) (c : Exec (list TItem) unit) : Prop :=
  forall Checklist,
    Forall (Planned AMode AParams) Checklist ->
    Forall (Planned AMode AParams) (snd (c Checklist)).

End PlanVocabulary.

(** *** Vocabulary for the lists of the apply phase *)

(** The bulk operation that carries out an action, outside the mode of
    timestamps. *)
Definition ListedIn (K : TBulkKind) (A : TChecklistAction) : bool :=
  match K, A with
  | bkCopyToLocal, (saDownloadNew | saDownloadUpdate) => true
  | bkDeleteFiles, saDeleteRemote => true
  | bkCopyToRemote, (saUploadNew | saUploadUpdate) => true
  | bkDeleteLocalFiles, saDeleteLocal => true
  | _, _ => false
  end.

Section BucketVocabulary.
Context `{Externals}.

(** What an item puts into the list of a bulk operation. *)
Definition BulkEntryOf (K : TBulkKind) (Item : TItem) : string * TListObject :=
  match K with
  | bkCopyToLocal | bkDeleteFiles =>
      (RemoteName Item, RemoteFileObject (RemoteFile Item))
  | _ => (LocalName Item, NoObject)
  end.

(** The items at the head of a list that the inner loop of
    [SynchronizeApply] takes as one group. *)
Fixpoint SameDirectories (CurrentLocalDirectory CurrentRemoteDirectory : string)
  (Items : list TItem) : list TItem :=
  match Items with
  | [] => []
  | Item :: rest =>
      if InGroup CurrentLocalDirectory CurrentRemoteDirectory Item
      then Item :: SameDirectories CurrentLocalDirectory CurrentRemoteDirectory
                     rest
      else []
  end.

(** The checked items of a list that a bulk operation is to carry out. *)
Definition CheckedFor (K : TBulkKind) (Items : list TItem) : list TItem :=
  filter (fun Item => Checked Item && ListedIn K (Action Item)) Items.

End BucketVocabulary.

(** *** Vocabulary for the properties of the bulk operations *)

(** Between [t] and [t'] the terminal's own transaction is as it was, no
    reload of the current directory has become pending, and the requests
    made are no listings. *)
Definition Steady (t t' : TTerminalState) : Prop :=
  FInTransaction t' = FInTransaction t /\
  FSuspendTransaction t' = FSuspendTransaction t /\
  (FReadCurrentDirectoryPending t = false ->
   FReadCurrentDirectoryPending t' = false) /\
  exists evs,
    FLog t' = FLog t ++ evs /\
    forallb (fun ev => negb (IsDirectoryReread ev)) evs = true.

(** A method that is steady wherever it starts inside a transaction. *)
Definition SteadyInside {A : Type} (c : Exec TTerminalState A) : Prop :=
  forall t, InTransaction t = true -> Steady t (snd (c t)).

Section BulkVocabulary.
Context `{Externals}.

(** [P] holds of the terminal, or held of it before [CloseOnCompletion]
    closed it. *)
Definition UpToClose (Host : TProcessHost) (P : TTerminal -> Prop)
  (T : TTerminal) : Prop :=
  P T \/ exists T0, T = Close Host T0 /\ P T0.

(** The exception of [CloseOnCompletion] as [ProcessFiles] raises it. *)
Definition ClosedOnCompletion (Host : TProcessHost) (E : Exception) : Prop :=
  exists AOperation,
    E = ESshTerminate Host
          (if TMessage_IsEmpty (DefaultMessage Host)
           then CLOSED_ON_COMPLETION Host else DefaultMessage Host)
          AOperation.

(** A callback that leaves the record of the finished files alone. *)
Definition KeepsFinished (ProcessFile : TProcessFileEvent) : Prop :=
  forall FileName Object s,
    Finished (snd (ProcessFile FileName Object s)) = Finished s.

(** A callback that leaves [FExceptionOnFail] alone and fails with
    [EScpSkipFile] only. *)
Definition FailsBySkipping (ProcessFile : TProcessFileEvent) : Prop :=
  forall FileName Object s,
    OnFail (snd (ProcessFile FileName Object s)) = OnFail s /\
    forall E, fst (ProcessFile FileName Object s) = Throws E ->
      exists Inner Msg, E = EScpSkipFile Inner Msg.

End BulkVocabulary.

(** The terminal is inside a transaction that is not suspended. *)
Definition Inside (t : TTerminalState) : Prop :=
  1 <= FInTransaction t /\ FSuspendTransaction t = false.

(** ** Sample objects *)

Definition SampleFileSystem : TCustomFileSystem :=
  {| fsActive := true;
     fsCurrentDirectoryName := fun _ => "/home/user";
     fsRequest := fun _ _ => None |}.

Definition SampleConfiguration : TConfiguration :=
  {| ConfirmOverwriting := true; AutoReadDirectoryAfterOp := true;
     TunnelLocalPortNumberLow := 50000; TunnelLocalPortNumberHigh := 50099 |}.

Definition SampleProxy : TProxySettings :=
  {| ProxyMethod := pmNone; ProxyHost := "proxy"; ProxyPort := 80;
     ProxyUsername := ""; ProxyPassword := ""; ProxyTelnetCommand := "";
     ProxyLocalCommand := ""; ProxyDNS := asAuto; ProxyLocalhost := false |}.

Definition SampleSessionData : TSessionData :=
  {| Name := Text "work"; HostName := "files.example.org"; PortNumber := 22;
     UserName := "user"; Password := "secret"; PublicKeyFile := "";
     Proxy := SampleProxy; Tunnel := true;
     TunnelHostName := "gate.example.org"; TunnelPortNumber := 2222;
     TunnelUserName := "gate"; TunnelPassword := "knock";
     TunnelPublicKeyFile := "gate.ppk"; TunnelLocalPortNumber := 0;
     TunnelPortFwd := "";
     DeleteToRecycleBin := true; RecycleBinPath := "/.trash";
     LockInHome := false |}.

Definition SampleState : TTerminalState :=
  {| FConfiguration := SampleConfiguration;
     FSessionData := SampleSessionData;
     FFileSystem := Some SampleFileSystem;
     FOperationProgress := None;
     FOnQueryUser := None;
     FInTransaction := 0;
     FSuspendTransaction := false;
     FReadCurrentDirectoryPending := false;
     FReadDirectoryPending := false;
     FAutoReadDirectory := true;
     FCurrentDirectory := "/home/user";
     FLockDirectory := "";
     FLog := [] |}.

Definition SampleTerminal : TTerminal :=
  mkTerminal SampleState (Some (mkTerminal SampleState None)).

(** *** A sample implementation of the absent helpers

    Modelled from the spec: timestamps as calendar fields and a precision
    tag "none/minute/hour/full" whose reduction clears the finer fields;
    Unix paths split at the last slash; a file mask whose stars stand for
    the name and the extension.  It serves the examples only. *)
Inductive SampleFmt : Type := fmtNone | fmtMinute | fmtHour | fmtFull.

Record SampleTime : Type := {
  Year : Z; Month : Z; Day : Z; Hour : Z; Minute : Z; Second : Z
}.

Definition SampleTime_ordinal (d : SampleTime) : Z :=
  ((((Year d * 13 + Month d) * 32 + Day d) * 24 + Hour d) * 60 + Minute d) * 60
  + Second d.

Definition SampleFmt_rank (f : SampleFmt) : Z :=
  match f with fmtNone => 0 | fmtMinute => 2 | fmtHour => 1 | fmtFull => 3 end.

Definition SampleReduce (d : SampleTime) (f : SampleFmt) : SampleTime :=
  match f with
  | fmtMinute =>
      {| Year := Year d; Month := Month d; Day := Day d; Hour := Hour d;
         Minute := Minute d; Second := 0 |}
  | fmtHour =>
      {| Year := Year d; Month := Month d; Day := Day d; Hour := Hour d;
         Minute := 0; Second := 0 |}
  | _ => d
  end.

Definition SampleAbortAnswer (Answers : list TQueryAnswer) : TQueryAnswer :=
  if FLAGSET Answers qaAbort then qaAbort
  else if FLAGSET Answers qaCancel then qaCancel
  else qaNo.

(** The position after the last slash of [s], counted from the start. *)
Fixpoint AfterLast (c : ascii) (s : string) : option nat :=
  match s with
  | EmptyString => None
  | String a rest =>
      match AfterLast c rest with
      | Some n => Some (S n)
      | None => if (a =? c)%char then Some 1%nat else None
      end
  end.

Definition SampleExtractFilePath (Path : string) : string :=
  match AfterLast "/" Path with
  | Some n => substring 0 n Path
  | None => ""
  end.

Definition SampleExtractFileName (Path : string) : string :=
  match AfterLast "/" Path with
  | Some n => substring n (String.length Path - n) Path
  | None => Path
  end.

Definition SampleIncludeTrailing (c : ascii) (Path : string) : string :=
  match AfterLast c Path with
  | Some n => if (n =? String.length Path)%nat then Path
              else (Path ++ String c "")%string
  | None => (Path ++ String c "")%string
  end.

Definition SampleExcludeTrailing (c : ascii) (Path : string) : string :=
  match AfterLast c Path with
  | Some n => if (n =? String.length Path)%nat && (1 <? n)%nat
              then substring 0 (n - 1) Path else Path
  | None => Path
  end.

(** Splits at the last dot: the part before it, and the part from it on. *)
Definition SplitExtension (Name : string) : string * string :=
  match AfterLast "." Name with
  | Some n => (substring 0 (n - 1) Name,
               substring (n - 1) (String.length Name - (n - 1)) Name)
  | None => (Name, "")
  end.

Fixpoint ReplaceStar (Mask With : string) : string :=
  match Mask with
  | EmptyString => ""
  | String a rest =>
      if (a =? "*")%char then (With ++ ReplaceStar rest With)%string
      else String a (ReplaceStar rest With)
  end.

Definition SampleMaskFileName (FileName Mask : string) : string :=
  let '(Name, Ext) := SplitExtension FileName in
  let '(MaskName, MaskExt) := SplitExtension Mask in
  (ReplaceStar MaskName Name ++
   ReplaceStar MaskExt (substring 1 (String.length Ext - 1) Ext))%string.

Section InsertionSorting.
Context {A : Type} (Compare : A -> A -> Z).

Fixpoint InsertSorted (x : A) (l : list A) : list A :=
  match l with
  | [] => [x]
  | y :: rest =>
      if Compare x y <=? 0 then x :: l else y :: InsertSorted x rest
  end.

Fixpoint InsertionSortWith (l : list A) : list A :=
  match l with
  | [] => []
  | x :: rest => InsertSorted x (InsertionSortWith rest)
  end.

End InsertionSorting.

Definition InsertionSort (A : Type) (Compare : A -> A -> Z) (l : list A)
  : list A :=
  InsertionSortWith Compare l.

Definition SampleNow : SampleTime :=
  {| Year := 2024; Month := 3; Day := 9; Hour := 7; Minute := 5; Second := 2 |}.

Definition SampleExternals : Externals :=
  {| TDateTime := SampleTime;
     TModificationFmt := SampleFmt;
     mfFull := fmtFull;
     Now := fun _ => SampleNow;
     DecodeDate := fun d => (Year d, Month d, Day d);
     DecodeTime := fun d => (Hour d, Minute d, Second d, 0);
     ReduceDateTimePrecision := SampleReduce;
     LessDateTimePrecision := fun a b =>
       if SampleFmt_rank a <? SampleFmt_rank b then a else b;
     CompareFileTime := fun a b =>
       match SampleTime_ordinal a ?= SampleTime_ordinal b with
       | Lt => -1 | Eq => 0 | Gt => 1
       end;
     UserModificationStr := fun d _ => IntToStr (SampleTime_ordinal d);
     AbortAnswer := SampleAbortAnswer;
     UnixExtractFilePath := SampleExtractFilePath;
     UnixExtractFileName := SampleExtractFileName;
     UnixIncludeTrailingBackslash := SampleIncludeTrailing "/";
     UnixExcludeTrailingBackslash := SampleExcludeTrailing "/";
     IncludeTrailingBackslash := SampleIncludeTrailing "\";
     UnixComparePaths := fun a b =>
       (SampleIncludeTrailing "/" a =? SampleIncludeTrailing "/" b)%string;
     MaskFileName := SampleMaskFileName;
     FILETIME := SampleTime;
     FileTimeToDateTime := fun d => d;
     DateTimeOfZero :=
       {| Year := 0; Month := 0; Day := 0; Hour := 0; Minute := 0;
          Second := 0 |};
     SameText := String.eqb;
     AnsiCompareText := fun a b =>
       match String.compare a b with Lt => -1 | Eq => 0 | Gt => 1 end;
     ListSort := InsertionSort |}.

Definition SampleProgress : TFileOperationProgressType :=
  {| Operation := foDelete; Cancel := csContinue; SkipToAll := true;
     BatchOverwrite := boNo; AsciiTransfer := false; ProgressFileName := "" |}.

(** A host that answers every query with the given answer. *)
Definition AlwaysAnswer (Answer : TQueryAnswer) : TQueryUserEvent :=
  fun _ _ => Returns Answer.

Definition set_FOnQueryUser (t : TTerminalState) (v : option TQueryUserEvent)
  : TTerminalState :=
  mkTerminalState (FConfiguration t) (FSessionData t) (FFileSystem t)
    (FOperationProgress t) v (FInTransaction t) (FSuspendTransaction t)
    (FReadCurrentDirectoryPending t) (FReadDirectoryPending t)
    (FAutoReadDirectory t) (FCurrentDirectory t) (FLockDirectory t) (FLog t).

Definition SampleOverwrite : @TOverwriteFileParams SampleExternals :=
  @Build_TOverwriteFileParams SampleExternals 20 10
    {| Year := 2024; Month := 3; Day := 9; Hour := 7; Minute := 5;
       Second := 40 |}
    {| Year := 2024; Month := 3; Day := 9; Hour := 7; Minute := 5;
       Second := 10 |}
    fmtFull fmtMinute.

(** A machine whose ports 50000 and 50001 are taken. *)
Definition SampleTunnelHost : TTunnelHost :=
  {| SocketCreated := true;
     BindLoopback := fun p => negb ((p =? 50000) || (p =? 50001));
     TunnelOpens := fun _ => None;
     LastTunnelError := "";
     DefaultSettings := SampleSessionData |}.

Definition SampleTunnelMembers : TTunnelMembers :=
  {| tnConfiguration := SampleConfiguration;
     tnSessionData := SampleSessionData;
     FTunnelLocalPortNumber := 0;
     FTunnelData := None;
     FTunnel := false;
     FTunnelOpening := false;
     FTunnelThread := false;
     FTunnelError := "";
     FCallbackGuard := None;
     FTunnelLog := [] |}.

(** The sample terminal with its port range turned around. *)
Definition ReversedRangeMembers : TTunnelMembers :=
  {| tnConfiguration :=
       {| ConfirmOverwriting := true; AutoReadDirectoryAfterOp := true;
          TunnelLocalPortNumberLow := 50099;
          TunnelLocalPortNumberHigh := 50000 |};
     tnSessionData := SampleSessionData;
     FTunnelLocalPortNumber := 0;
     FTunnelData := None;
     FTunnel := false;
     FTunnelOpening := false;
     FTunnelThread := false;
     FTunnelError := "";
     FCallbackGuard := None;
     FTunnelLog := [] |}.

(** *** Sample trees for the synchronization *)

Definition SampleCopyParam : @TCopyParamType SampleExternals :=
  @Build_TCopyParamType SampleExternals (fun Name _ _ => Name)
    (fun _ _ _ _ => true) false.

Definition SampleCollectHost : TCollectHost :=
  {| TemporaryTransferFile := fun _ => false;
     HasCachedFileList := fun _ => false |}.

Definition SampleT : SampleTime :=
  {| Year := 2024; Month := 3; Day := 9; Hour := 7; Minute := 5; Second := 2 |}.

Definition SampleLocalFile (Name : string) (Size : Z) (Time : SampleTime)
  : @TLocalEntry SampleExternals :=
  @LocalEntry SampleExternals
    (@Build_TSearchRec SampleExternals Name false Size Time) [].

Definition SampleRemoteFileOf (Name : string) (Size : Z) (Time : SampleTime)
  : @TRemoteFile SampleExternals :=
  @Build_TRemoteFile SampleExternals Name ("/home/user/" ++ Name) false false
    false Size Time fmtFull 0.

Definition SampleRemoteFile (Name : string) (Size : Z) (Time : SampleTime)
  : @TRemoteEntry SampleExternals :=
  @RemoteEntry SampleExternals (SampleRemoteFileOf Name Size Time) Skipped.

(** What a search of the sample local directory finds beside a file. *)
Definition SampleDots : list (@TLocalEntry SampleExternals) :=
  [@LocalEntry SampleExternals
     (@Build_TSearchRec SampleExternals "." true 0 SampleT) [];
   @LocalEntry SampleExternals
     (@Build_TSearchRec SampleExternals ".." true 0 SampleT) []].

(** Scenario 3 of the spec: [c.txt] on both sides, modified at the same
    time, 10 bytes locally and 20 bytes remotely. *)
Definition SampleBySizeChecklist : Outcome (list (@TItem SampleExternals)) :=
  @SynchronizeCollect SampleExternals SampleCollectHost "C:\work" "/home/user"
    smBoth SampleCopyParam [spBySize] None None
    (SampleDots ++ [SampleLocalFile "c.txt" 10 SampleT])
    (Listed [SampleRemoteFile "c.txt" 20 SampleT]).

(** The actions of the items of a checklist that are about a file name. *)
Definition ActionsFor `{Externals} (Name : string) (Checklist : list TItem)
  : list TChecklistAction :=
  map Action
    (filter (fun Item => (ItemFileName Item =? Name)%string) Checklist).

Definition SampleNewer : SampleTime :=
  {| Year := 2024; Month := 3; Day := 9; Hour := 8; Minute := 0; Second := 0 |}.

(** Bulk operations that all complete, and bulk operations of which the
    one of kind [K] is cancelled; neither touches the terminal. *)
Definition SampleOperations : @TBulkOperations SampleExternals :=
  fun _ T _ => (Returns true, T).

Definition CancelledAt (K : TBulkKind) : @TBulkOperations SampleExternals :=
  fun ACall T _ => (Returns (negb (TBulkKind_beq (Kind ACall) K)), T).

Definition SampleApplyItem (AAction : TChecklistAction) (Name : string)
  (ALocal ARemote : string) (AChecked : bool) : @TItem SampleExternals :=
  @Build_TItem SampleExternals AAction false
    (@Build_TFileInfo SampleExternals Name ALocal SampleT fmtFull 0)
    (@Build_TFileInfo SampleExternals Name ARemote SampleT fmtFull 0)
    (-1) AChecked None None.

(** A checklist of two groups: five items of one pair of directories, the
    last of them not checked, and one item of another pair. *)
Definition SampleApplyChecklist : list (@TItem SampleExternals) :=
  [SampleApplyItem saUploadNew "b.txt" "C:\work" "/home/user" true;
   SampleApplyItem saDeleteLocal "d.txt" "C:\work" "/home/user" true;
   SampleApplyItem saDownloadNew "a.txt" "C:\work" "/home/user" true;
   SampleApplyItem saDeleteRemote "c.txt" "C:\work" "/home/user" true;
   SampleApplyItem saUploadUpdate "u.txt" "C:\work" "/home/user" false;
   SampleApplyItem saUploadNew "e.txt" "C:\work\sub" "/home/user/sub" true].

Definition SampleApplyState : @TApplyState SampleExternals :=
  @Build_TApplyState SampleExternals SampleTerminal [].

(** *** Sample objects for the further properties *)

(** The sample session locked into its home directory. *)
Definition SampleLockedState : TTerminalState :=
  {| FConfiguration := SampleConfiguration;
     FSessionData :=
       {| Name := Text "work"; HostName := "files.example.org";
          PortNumber := 22; UserName := "user"; Password := "secret";
          PublicKeyFile := ""; Proxy := SampleProxy; Tunnel := false;
          TunnelHostName := ""; TunnelPortNumber := 0; TunnelUserName := "";
          TunnelPassword := ""; TunnelPublicKeyFile := "";
          TunnelLocalPortNumber := 0; TunnelPortFwd := "";
          DeleteToRecycleBin := false; RecycleBinPath := "";
          LockInHome := true |};
     FFileSystem := Some SampleFileSystem;
     FOperationProgress := None;
     FOnQueryUser := None;
     FInTransaction := 0;
     FSuspendTransaction := false;
     FReadCurrentDirectoryPending := false;
     FReadDirectoryPending := false;
     FAutoReadDirectory := true;
     FCurrentDirectory := "/home/user";
     FLockDirectory := "/home/user";
     FLog := [] |}.

(** A progress object that has not been told to skip. *)
Definition SampleAsking : TFileOperationProgressType :=
  {| Operation := foCopy; Cancel := csContinue; SkipToAll := false;
     BatchOverwrite := boNo; AsciiTransfer := false; ProgressFileName := "" |}.

(** A backend that fails every listing of the directory. *)
Definition SampleFailingFileSystem : TCustomFileSystem :=
  {| fsActive := true;
     fsCurrentDirectoryName := fun _ => "/home/user";
     fsRequest := fun _ ev =>
       if IsDirectoryReread ev then Some (EExternal "listing failed")
       else None |}.

(** The sample terminal one level inside a transaction with a listing
    pending, over the backend [fs]. *)
Definition SamplePending (fs : option TCustomFileSystem) : TTerminalState :=
  {| FConfiguration := SampleConfiguration;
     FSessionData := SampleSessionData;
     FFileSystem := fs;
     FOperationProgress := None;
     FOnQueryUser := None;
     FInTransaction := 1;
     FSuspendTransaction := false;
     FReadCurrentDirectoryPending := false;
     FReadDirectoryPending := true;
     FAutoReadDirectory := true;
     FCurrentDirectory := "/home/user";
     FLockDirectory := "";
     FLog := [] |}.

(** A local directory that a search finds. *)
Definition SampleLocalDirectory (Name : string)
  : @TLocalEntry SampleExternals :=
  @LocalEntry SampleExternals
    (@Build_TSearchRec SampleExternals Name true 0 SampleT) [].

(** A host of the bulk operations whose [Progress.Finish] neither raises
    nor cancels, and which closes nothing. *)
Definition SampleProcessHost : TProcessHost :=
  {| Start := fun AOperation _ _ =>
       {| Operation := AOperation; Cancel := csContinue; SkipToAll := false;
          BatchOverwrite := boNo; AsciiTransfer := false;
          ProgressFileName := "" |};
     Finish := fun _ _ Once P => (None, Once, P);
     Close := fun T => T;
     ESshTerminate := fun _ _ => EExternal "closed on completion";
     CLOSED_ON_COMPLETION := Text "Session closed";
     DefaultMessage := Text "" |}.

Definition SampleProcessMembers : TProcessMembers :=
  {| Session := SampleTerminal;
     OnFail := {| FExceptionOnFail := 0;
                CommandSessionExceptionOnFail := Some 0 |};
     Finished := [] |}.

Definition SampleFiles : @TStringList SampleExternals :=
  [("a.txt", @NoObject SampleExternals);
   ("b.txt", @NoObject SampleExternals);
   ("c.txt", @NoObject SampleExternals)].

(** A callback that skips [b.txt]. *)
Definition SampleSkipping : @TProcessFileEvent SampleExternals :=
  fun FileName _ =>
    if (FileName =? "b.txt")%string
    then throw (EScpSkipFile None (Text "skipped"))
    else ret tt.

(** A host whose [Progress.Finish] asks for the session to be closed once
    the operation is done. *)
Definition SampleClosingHost : TProcessHost :=
  {| Start := Start SampleProcessHost;
     Finish := fun _ _ _ P => (None, odoNotIdle 1, P);
     Close := fun T => T;
     ESshTerminate := fun _ _ => EExternal "closed on completion";
     CLOSED_ON_COMPLETION := Text "Session closed";
     DefaultMessage := Text "" |}.

(** The sample members with [FExceptionOnFail] set. *)
Definition SampleFailing : TProcessMembers :=
  {| Session := SampleTerminal;
     OnFail := {| FExceptionOnFail := 1;
                CommandSessionExceptionOnFail := Some 1 |};
     Finished := [] |}.

Definition SampleBody : list TScript :=
  [React fsChangeDirectory; Transaction [React fsDeleteFile]; React fsAnyCommand].

(** * Properties *)

(** ** Transactions *)

Lemma WithPending_same (t : TTerminalState) :
  WithPending t (FReadCurrentDirectoryPending t) (FReadDirectoryPending t) = t.
Proof. destruct t; reflexivity. Qed.

Lemma WithPending_twice (t : TTerminalState) (a b c d : bool) :
  WithPending (WithPending t a b) c d = WithPending t c d.
Proof. destruct t; reflexivity. Qed.

(** Inside an open transaction [ReactOnCommand] returns and at most sets
    the pending flags. *)
Lemma ReactOnCommand_in_transaction (Cmd : TFSCommand) (t : TTerminalState) :
  InTransaction t = true ->
  exists cwd dir, ReactOnCommand Cmd t = (Returns tt, WithPending t cwd dir).
Proof.
  intros Hin.
  exists (FReadCurrentDirectoryPending (snd (ReactOnCommand Cmd t))),
         (FReadDirectoryPending (snd (ReactOnCommand Cmd t))).
  unfold ReactOnCommand.
  destruct Cmd; cbn; unfold bind, gets, when, modify, ret; cbn;
    rewrite ?Hin; cbn;
    destruct t as [cfg sd fs op qu n su rc rd ar cd ld lg]; cbn;
    destruct ar; cbn; try reflexivity;
    destruct (AutoReadDirectoryAfterOp cfg); reflexivity.
Qed.

(** C9. [EndTransaction] on a terminal whose nesting counter is zero raises
    the terminal error and leaves the terminal, with its counter and both
    pending-reload flags, exactly as it was. *)
Theorem EndTransaction_not_in_transaction (T : TTerminal) :
  FInTransaction (Own T) = 0 ->
  EndTransaction T =
    (Throws (ETerminal None "Can't end transaction, not in transaction"), T).
Proof.
  intros H. destruct T as [own cs]. cbn in *. rewrite H. reflexivity.
Qed.

Lemma EndTransaction_not_in_transaction_witness :
  FInTransaction (Own SampleTerminal) = 0 /\
  EndTransaction SampleTerminal =
    (Throws (ETerminal None "Can't end transaction, not in transaction"),
     SampleTerminal).
Proof.
  split; [reflexivity | apply EndTransaction_not_in_transaction; reflexivity].
Defined.

(** Induction on scripts that reaches the scripts of a bracket's body. *)
Lemma TScript_nested_ind (P : TScript -> Prop) :
  (forall Cmd, P (React Cmd)) ->
  (forall Body, Forall P Body -> P (Transaction Body)) ->
  forall s, P s.
Proof.
  intros HReact HTrans.
  fix IH 1.
  intros [Cmd | Body].
  - apply HReact.
  - apply HTrans.
    induction Body as [| s rest IHrest]; constructor.
    + apply IH.
    + exact IHrest.
Qed.

Lemma Inside_InTransaction (t : TTerminalState) :
  Inside t -> InTransaction t = true.
Proof.
  intros [Hn Hs]. unfold InTransaction. rewrite Hs.
  destruct (Z.ltb_spec 0 (FInTransaction t)); [reflexivity | lia].
Qed.

Lemma Inside_WithPending (t : TTerminalState) (cwd dir : bool) :
  Inside t -> Inside (WithPending t cwd dir).
Proof. destruct t; exact (fun H => H). Qed.

Lemma Own_BeginTransaction (T : TTerminal) :
  Own (BeginTransaction T) = BeginOwnTransaction (Own T).
Proof. destruct T; reflexivity. Qed.

Lemma BeginOwnTransaction_nested (t : TTerminalState) :
  1 <= FInTransaction t ->
  BeginOwnTransaction t = set_FInTransaction t (FInTransaction t + 1).
Proof.
  intros H. unfold BeginOwnTransaction.
  destruct (Z.eqb_spec (FInTransaction t) 0); [lia | reflexivity].
Qed.

(** An [EndTransaction] that does not bring the counter to zero only
    decrements it, whatever the command session does. *)
Lemma Own_EndTransaction_nested (T : TTerminal) :
  2 <= FInTransaction (Own T) ->
  Own (snd (EndTransaction T)) =
    set_FInTransaction (Own T) (FInTransaction (Own T) - 1).
Proof.
  destruct T as [own cs]; cbn [Own]; intros H.
  cbn [EndTransaction].
  destruct (Z.eqb_spec (FInTransaction own) 0) as [? | _]; [lia |].
  assert (Hflush : FlushPendingReloads
            (set_FInTransaction own (FInTransaction own - 1)) =
          (Returns tt, set_FInTransaction own (FInTransaction own - 1))).
  { unfold FlushPendingReloads, bind, gets, ret. cbn.
    destruct (GetActive _); [| reflexivity].
    destruct (Z.eqb_spec (FInTransaction own - 1) 0); [lia | reflexivity]. }
  rewrite Hflush.
  destruct cs as [c |]; [| reflexivity].
  destruct (EndTransaction c); reflexivity.
Qed.

Lemma RunBody_inside (Body : list TScript) :
  Forall (fun s => forall T, Inside (Own T) ->
            exists cwd dir,
              Own (snd (RunScript s T)) = WithPending (Own T) cwd dir) Body ->
  forall T, Inside (Own T) ->
    exists cwd dir, Own (snd (RunBody Body T)) = WithPending (Own T) cwd dir.
Proof.
  induction 1 as [| s rest Hs _ IH]; intros T HT.
  - exists (FReadCurrentDirectoryPending (Own T)), (FReadDirectoryPending (Own T)).
    cbn. symmetry. apply WithPending_same.
  - unfold RunBody in *. cbn [RunBodyWith]. unfold bind.
    destruct (Hs T HT) as (a & b & Hab).
    destruct (RunScript s T) as [[[] | E] T1]; cbn [snd] in *.
    + destruct (IH T1) as (c & d & Hcd).
      { rewrite Hab. now apply Inside_WithPending. }
      exists c, d. rewrite Hcd, Hab. apply WithPending_twice.
    + exists a, b. exact Hab.
Qed.

(** Inside a transaction a script changes nothing of the terminal but the
    pending flags: no request is made, and the counter is restored. *)
Lemma RunScript_inside (s : TScript) :
  forall T, Inside (Own T) ->
    exists cwd dir, Own (snd (RunScript s T)) = WithPending (Own T) cwd dir.
Proof.
  induction s as [Cmd | Body IH] using TScript_nested_ind; intros T HT.
  - destruct (ReactOnCommand_in_transaction Cmd _ (Inside_InTransaction _ HT))
      as (a & b & Hab).
    exists a, b. cbn. unfold OnOwn. rewrite Hab. reflexivity.
  - cbn [RunScript]. unfold TRY_FINALLY.
    assert (H1 : Inside (Own (BeginTransaction T))).
    { rewrite Own_BeginTransaction, BeginOwnTransaction_nested by apply HT.
      destruct HT as [Hn Hs]. destruct (Own T); split; cbn in *; [lia | exact Hs]. }
    destruct (RunBody_inside Body IH _ H1) as (a & b & Hab).
    fold (RunBody Body).
    destruct (RunBody Body (BeginTransaction T)) as [r T2]; cbn [snd] in Hab.
    assert (H2 : Own (snd (EndTransaction T2)) = WithPending (Own T) a b).
    { rewrite Own_EndTransaction_nested; rewrite Hab, Own_BeginTransaction,
        BeginOwnTransaction_nested by apply HT.
      - destruct HT as [Hn _]. destruct (Own T); cbn in *.
        unfold WithPending, set_FInTransaction, set_FReadDirectoryPending,
          set_FReadCurrentDirectoryPending; cbn. f_equal. lia.
      - destruct HT as [Hn _]. destruct (Own T); cbn in *. lia. }
    exists a, b.
    destruct (EndTransaction T2) as [[[] | E] T3]; exact H2.
Qed.

(** The flush of the outermost [EndTransaction] on an active session. *)
Lemma FlushPendingReloads_outermost (t : TTerminalState) :
  GetActive t = true -> FInTransaction t = 0 ->
  exists evs,
    let t' := snd (FlushPendingReloads t) in
    FLog t' = FLog t ++ evs /\
    (CountEvents IsCwdReread evs <= 1)%nat /\
    (CountEvents IsDirectoryReread evs <= 1)%nat /\
    (forall ev, In ev evs -> IsCwdReread ev = true \/ IsDirectoryReread ev = true) /\
    FReadCurrentDirectoryPending t' = false /\
    FReadDirectoryPending t' = false /\
    FInTransaction t' = 0.
Proof.
  intros Hact Hn.
  destruct t as [cfg sd fs op qu n su rc rd ar cd ld lg]; cbn in *. subst n.
  destruct fs as [fs |]; [| discriminate]. cbn in Hact.
  unfold FlushPendingReloads, bind, gets, TRY_FINALLY, when, modify, ret,
    ReadCurrentDirectory, ReadDirectory, Request, bind, modify; cbn.
  rewrite Hact; cbn.
  destruct rc, rd; cbn;
    repeat match goal with
      | |- context [fsRequest fs ?l ?e] => destruct (fsRequest fs l e); cbn
      end;
    first
      [ exists []; rewrite app_nil_r; cbn; intuition (auto; contradiction)
      | eexists [_]; cbn; intuition (subst; auto; lia)
      | eexists [_; _]; cbn; rewrite <- app_assoc; cbn;
        intuition (subst; auto; lia) ].
Qed.

Lemma Own_EndTransaction (T : TTerminal) :
  FInTransaction (Own T) <> 0 ->
  Own (snd (EndTransaction T)) =
    snd (FlushPendingReloads
           (set_FInTransaction (Own T) (FInTransaction (Own T) - 1))).
Proof.
  destruct T as [own cs]; cbn [Own EndTransaction]; intros H.
  destruct (Z.eqb_spec (FInTransaction own) 0) as [? | _]; [contradiction |].
  destruct (FlushPendingReloads _) as [[[] | E] own2]; [| reflexivity].
  destruct cs as [c |]; [| reflexivity].
  destruct (EndTransaction c); reflexivity.
Qed.

Lemma RunScript_inside_all (Body : list TScript) :
  Forall (fun s => forall T, Inside (Own T) ->
            exists cwd dir,
              Own (snd (RunScript s T)) = WithPending (Own T) cwd dir) Body.
Proof. apply Forall_forall. intros s _. apply RunScript_inside. Qed.



(** The sample bracket rereads the current directory and the listing once,
    after its last command. *)
Example SampleBody_log :
  FLog (Own (snd (RunScript (Transaction SampleBody) SampleTerminal))) =
    [EvReadCurrentDirectory; EvReadDirectory true false].
Proof. reflexivity. Qed.

(** Outside a transaction the same command rereads at once. *)
Example React_outside_transaction :
  FLog (snd (ReactOnCommand fsChangeDirectory SampleState)) =
    [EvReadCurrentDirectory; EvReadDirectory false false].
Proof. reflexivity. Qed.

(** ** The query of the file-operation loop *)

Section RetryLoopProperties.
Context `{Externals}.

(** C4. With skipping allowed: if [SkipToAll] is already set, the loop query
    answers skip and raises the skip-file exception, and neither the
    terminal (so no query is presented) nor the progress object changes; if
    instead the user answers Skip-All, [SkipToAll] is set, the answer
    becomes skip and the same exception is raised.  In both cases the
    operation is not cancelled. *)
Theorem FileOperationLoopQuery_skip_all (E : Exception) (Message : TMessage)
  (SpecialRetry : string) (P : TFileOperationProgressType)
  (t : TTerminalState) :
  SkipToAll P = true \/
  (exists OnQueryUser,
      FOnQueryUser t = Some OnQueryUser /\
      forall Q, OnQueryUser (FLog t) Q = Returns qaAll) ->
  let run := FileOperationLoopQuery E Message true SpecialRetry (P, t) in
  fst (FileOperationLoopAnswer E Message true SpecialRetry (P, t)) =
    Returns (qaSkip, false) /\
  fst run = Throws (EScpSkipFile (Some E) Message) /\
  SkipToAll (fst (snd run)) = true /\
  Cancel (fst (snd run)) = Cancel P /\
  (SkipToAll P = true -> snd run = (P, t)).
Proof.
  intros Hcase run. subst run.
  unfold FileOperationLoopQuery, FileOperationLoopAnswer, bind, gets, ret,
    throw, when, OnProgress, modify. cbn [fst snd andb].
  destruct (SkipToAll P) eqn:Hskip.
  - cbn. repeat split; auto.
  - destruct Hcase as [Habs | (cb & Hcb & Hans)]; [discriminate |].
    unfold OnTerminal, QueryUserException, QueryUser. cbn [fst snd].
    rewrite Hcb, Hans. cbn.
    repeat split; auto. discriminate.
Qed.

End RetryLoopProperties.

Lemma FileOperationLoopQuery_skip_all_witness :
  (SkipToAll SampleProgress = true \/
   (exists OnQueryUser,
       FOnQueryUser SampleState = Some OnQueryUser /\
       forall Q, OnQueryUser (FLog SampleState) Q = Returns qaAll)) /\
  snd (@FileOperationLoopQuery SampleExternals (EExternal "no such file")
         (Text "Error deleting file") true "" (SampleProgress, SampleState)) =
    (SampleProgress, SampleState).
Proof.
  split; [left; reflexivity |].
  apply (@FileOperationLoopQuery_skip_all SampleExternals
           (EExternal "no such file") (Text "Error deleting file") ""
           SampleProgress SampleState (or_introl eq_refl)).
  reflexivity.
Defined.

(** A user who answers Skip-All to the first failure: the query is shown
    once, and the progress object remembers the answer. *)
Example FileOperationLoopQuery_user_answers_all :
  let P := set_SkipToAll SampleProgress false in
  let t := set_FOnQueryUser SampleState (Some (AlwaysAnswer qaAll)) in
  let run := @FileOperationLoopQuery SampleExternals (EExternal "no such file")
               (Text "Error deleting file") true "" (P, t) in
  fst run = Throws (EScpSkipFile (Some (EExternal "no such file"))
                      (Text "Error deleting file")) /\
  fst (snd run) = SampleProgress /\
  List.length (FLog (snd (snd run))) = 1%nat.
Proof. repeat split. Qed.

(** With skipping allowed the user's Abort cancels the operation. *)
Example FileOperationLoopQuery_user_aborts :
  let P := set_SkipToAll SampleProgress false in
  let t := set_FOnQueryUser SampleState (Some (AlwaysAnswer qaAbort)) in
  Cancel (fst (snd (@FileOperationLoopQuery SampleExternals
                      (EExternal "no such file") (Text "Error deleting file")
                      true "" (P, t)))) = csCancel.
Proof. reflexivity. Qed.

(** ** Overwrite confirmation *)

Section OverwriteProperties.
Context `{Externals}.

(** C2. When the effective batch mode is [boOlder] and file parameters are
    given, [ConfirmFileOverwrite] answers without asking and without
    changing the terminal: Yes if the source timestamp, reduced to the
    lesser of the two precisions, compares greater than the destination
    timestamp reduced to the same precision, and No otherwise. *)
Theorem ConfirmFileOverwrite_older (FileName : string)
  (fp : TOverwriteFileParams) (Answers : list TQueryAnswer)
  (QueryParams : option TQueryParams) (Side : TOperationSide)
  (Params : list TCopyFlag) (OperationProgress : TFileOperationProgressType)
  (Message : TMessage) (t : TTerminalState) :
  EffectiveBatchOverwrite (FConfiguration t) Params OperationProgress true =
    boOlder ->
  let Precision :=
    LessDateTimePrecision (SourcePrecision fp) (DestPrecision fp) in
  let SourceNewer :=
    0 <? CompareFileTime
           (ReduceDateTimePrecision (SourceTimestamp fp) Precision)
           (ReduceDateTimePrecision (DestTimestamp fp) Precision) in
  ConfirmFileOverwrite FileName (Some fp) Answers QueryParams Side Params
    OperationProgress Message t =
    (Returns (if SourceNewer then qaYes else qaNo), t).
Proof.
  intros Heff Precision SourceNewer.
  unfold ConfirmFileOverwrite, ApplicableBatchOverwrite, bind, gets, ret.
  rewrite Heff. cbn. reflexivity.
Qed.

(** C10. When the batch mode in force is [boNo], so that the user is asked,
    and the user answers Never-ask-again, [ConfirmFileOverwrite] returns
    Yes, overwrite confirmation is switched off in the configuration, and
    the terminal's progress object is left as it was. *)
Theorem ConfirmFileOverwrite_never_ask_again (FileName : string)
  (FileParams : option TOverwriteFileParams) (Answers : list TQueryAnswer)
  (QueryParams : option TQueryParams) (Side : TOperationSide)
  (Params : list TCopyFlag) (OperationProgress : TFileOperationProgressType)
  (Message : TMessage) (t : TTerminalState) (OnQueryUser : TQueryUserEvent) :
  ApplicableBatchOverwrite (FConfiguration t) FileParams Params
    OperationProgress = boNo ->
  FOnQueryUser t = Some OnQueryUser ->
  OnQueryUser (FLog t)
    {| Query := OverwriteMessage FileName FileParams Side Message;
       MoreMessages := []; Answers := Answers; QueryParams := QueryParams |} =
    Returns qaNeverAskAgain ->
  let run := ConfirmFileOverwrite FileName FileParams Answers QueryParams Side
               Params OperationProgress Message t in
  fst run = Returns qaYes /\
  ConfirmOverwriting (FConfiguration (snd run)) = false /\
  FOperationProgress (snd run) = FOperationProgress t.
Proof.
  intros Hno Hcb Hanswer run. subst run.
  unfold ConfirmFileOverwrite, bind, gets, ret.
  rewrite Hno. cbn [TBatchOverwrite_beq].
  unfold QueryUser. rewrite Hcb, Hanswer.
  unfold when, modify, bind, ret. cbn.
  destruct t; cbn. repeat split.
Qed.

End OverwriteProperties.

Lemma ConfirmFileOverwrite_older_witness :
  EffectiveBatchOverwrite (FConfiguration SampleState) [cpNewerOnly]
    SampleProgress true = boOlder /\
  @ConfirmFileOverwrite SampleExternals "x.txt" (Some SampleOverwrite)
    [qaYes; qaNo] None osRemote [cpNewerOnly] SampleProgress (Text "")
    SampleState = (Returns qaNo, SampleState).
Proof.
  split; [reflexivity |].
  exact (@ConfirmFileOverwrite_older SampleExternals "x.txt" SampleOverwrite
           [qaYes; qaNo] None osRemote [cpNewerOnly] SampleProgress (Text "")
           SampleState eq_refl).
Defined.

(** The sample source is newer by seconds only; at full precision on both
    sides it wins. *)
Example ConfirmFileOverwrite_older_full_precision :
  fst (@ConfirmFileOverwrite SampleExternals "x.txt"
         (Some (@Build_TOverwriteFileParams SampleExternals 20 10
                  (SourceTimestamp SampleOverwrite)
                  (DestTimestamp SampleOverwrite) fmtFull fmtFull))
         [qaYes; qaNo] None osRemote [cpNewerOnly] SampleProgress (Text "")
         SampleState) = Returns qaYes.
Proof. reflexivity. Qed.

Lemma ConfirmFileOverwrite_never_ask_again_witness :
  let t := set_FOnQueryUser SampleState (Some (AlwaysAnswer qaNeverAskAgain)) in
  @ApplicableBatchOverwrite SampleExternals (FConfiguration t)
    (Some SampleOverwrite) [] SampleProgress = boNo /\
  FOnQueryUser t = Some (AlwaysAnswer qaNeverAskAgain) /\
  ConfirmOverwriting
    (FConfiguration
       (snd (@ConfirmFileOverwrite SampleExternals "x.txt"
               (Some SampleOverwrite) [qaYes; qaNo] None osRemote []
               SampleProgress (Text "") t))) = false.
Proof.
  intros t.
  split; [reflexivity |]. split; [reflexivity |].
  exact (proj1 (proj2
    (@ConfirmFileOverwrite_never_ask_again SampleExternals "x.txt"
       (Some SampleOverwrite) [qaYes; qaNo] None osRemote [] SampleProgress
       (Text "") t (AlwaysAnswer qaNeverAskAgain) eq_refl eq_refl eq_refl))).
Defined.

(** ** Deleting files and the remote recycle bin *)

Lemma Quiet_refl (t : TTerminalState) : Quiet t t.
Proof. reflexivity. Qed.

Lemma Quiet_trans (t1 t2 t3 : TTerminalState) :
  Quiet t1 t2 -> Quiet t2 t3 -> Quiet t1 t3.
Proof. unfold Quiet. congruence. Qed.

Lemma Quiet_fields (t t' : TTerminalState) :
  Quiet t t' ->
  FSessionData t' = FSessionData t /\ FFileSystem t' = FFileSystem t /\
  FLockDirectory t' = FLockDirectory t /\ FLog t' = FLog t.
Proof.
  unfold Quiet. destruct t, t'; cbn. intros Heq. inversion Heq. auto.
Qed.

Lemma bind_returns {S A B : Type} (c : Exec S A) (k : A -> Exec S B)
  (s s' : S) (a : A) :
  c s = (Returns a, s') -> bind c k s = k a s'.
Proof. intros Hc. unfold bind. now rewrite Hc. Qed.

(** A request on a terminal with a backend is recorded, whatever its
    outcome. *)
Lemma Request_log (ev : TEvent) (t : TTerminalState) (fs : TCustomFileSystem) :
  FFileSystem t = Some fs ->
  Request ev t =
    (match fsRequest fs (FLog t) ev with
     | None => Returns tt
     | Some E => Throws E
     end, set_FLog t (FLog t ++ [ev])).
Proof.
  intros Hfs. unfold Request. rewrite Hfs.
  destruct (fsRequest fs (FLog t) ev); reflexivity.
Qed.

(** Whatever the command, [ReactOnCommand] adds rereads only to the log. *)
Lemma ReactOnCommand_log (Cmd : TFSCommand) (t : TTerminalState) :
  exists rest,
    FLog (snd (ReactOnCommand Cmd t)) = FLog t ++ rest /\
    forallb IsReread rest = true.
Proof.
  destruct t as [cfg sd fs op qu n su rc rd ar cd ld lg].
  unfold ReactOnCommand, bind, gets, when, modify, ret, ReadCurrentDirectory,
    ReadDirectory, Request, bind, modify, InTransaction.
  destruct Cmd; cbn;
    destruct (0 <? n); destruct su; cbn;
    destruct ar; cbn;
    try destruct (AutoReadDirectoryAfterOp cfg); cbn;
    try destruct fs as [fs |]; cbn;
    repeat match goal with
      | |- context [fsRequest fs ?l ?e] => destruct (fsRequest fs l e); cbn
      end;
    first
      [ exists []; rewrite app_nil_r; split; reflexivity
      | eexists [_]; split; reflexivity
      | eexists [_; _]; rewrite <- app_assoc; split; reflexivity ].
Qed.

Lemma CheckProgress_passes (Kinds : list TFileOperation) (F : string)
  (t : TTerminalState) :
  (forall op, existsb (TFileOperation_beq op) Kinds = true ->
     existsb (TFileOperation_beq op) [foRemoteMove; foDelete] = true) ->
  Cancelled t = false ->
  exists t',
    CheckProgress Kinds F t = (Returns tt, t') /\ Quiet t t' /\
    Cancelled t' = false.
Proof.
  intros Hkinds Hnc.
  unfold CheckProgress, bind, gets, ret, throw, modify.
  unfold Cancelled in Hnc.
  destruct (FOperationProgress t) as [p |] eqn:Hp.
  - destruct (existsb (TFileOperation_beq (Operation p)) Kinds) eqn:Hk.
    + rewrite (Hkinds _ Hk) in Hnc. cbn [andb] in Hnc. rewrite Hnc.
      eexists; split; [reflexivity |]. split.
      * destruct t; reflexivity.
      * unfold Cancelled. destruct t; cbn in *.
        rewrite (Hkinds _ Hk). cbn [andb]. exact Hnc.
    + exists t. repeat split. unfold Cancelled. now rewrite Hp.
  - exists t. repeat split. unfold Cancelled. now rewrite Hp.
Qed.

Section RecycleProperties.
Context `{Externals}.

Lemma TranslateLockedPath_quiet (t t' : TTerminalState) (Path : string)
  (Lock : bool) :
  Quiet t t' -> TranslateLockedPath t' Path Lock = TranslateLockedPath t Path Lock.
Proof.
  intros HQ. destruct (Quiet_fields t t' HQ) as (Hsd & _ & Hld & _).
  unfold TranslateLockedPath. now rewrite Hsd, Hld.
Qed.

Lemma TargetDirectory_quiet (t t' : TTerminalState) (F : string) :
  Quiet t t' -> FFileSystem t <> None ->
  TargetDirectory t' F = TargetDirectory t F.
Proof.
  intros HQ Hfs. destruct (Quiet_fields t t' HQ) as (Hsd & Hfs' & Hld & Hlog).
  unfold TargetDirectory. rewrite (TranslateLockedPath_quiet t t' _ _ HQ).
  rewrite Hfs', Hlog. destruct (FFileSystem t); [reflexivity | contradiction].
Qed.

Lemma DirectoryKnown_quiet (t t' : TTerminalState) (F : string) :
  Quiet t t' -> FFileSystem t <> None ->
  DirectoryKnown t' F = DirectoryKnown t F.
Proof.
  intros HQ Hfs. destruct (Quiet_fields t t' HQ) as (Hsd & Hfs' & Hld & Hlog).
  unfold DirectoryKnown. rewrite Hfs', Hlog.
  destruct (FFileSystem t); [reflexivity | contradiction].
Qed.

(** Where the directory of the target is known, [IsRecycledFile] compares
    it with the recycle path and asks nothing of the backend. *)
Lemma IsRecycledFile_known (F : string) (t : TTerminalState) :
  FFileSystem t <> None ->
  (RecycleBinPath (FSessionData t) =? "")%string = false ->
  DirectoryKnown t F = true ->
  exists t',
    IsRecycledFile F t =
      (Returns (UnixComparePaths (TargetDirectory t F)
                  (RecycleBinPath (FSessionData t))), t') /\
    Quiet t t' /\ Cancelled t' = Cancelled t.
Proof.
  intros Hfs Hbin Hknown.
  unfold IsRecycledFile, TargetDirectory, DirectoryKnown in *.
  unfold bind at 1. unfold gets at 1. rewrite Hbin. cbn [negb].
  destruct (UnixExtractFilePath F =? "")%string eqn:Hpath.
  - cbn [negb orb] in Hknown.
    destruct (FFileSystem t) as [fs |] eqn:Hfs'; [| contradiction].
    unfold GetCurrentDirectory, bind, gets, ret, when, modify.
    rewrite Hfs'.
    destruct (FCurrentDirectory t =? fsCurrentDirectoryName fs (FLog t))%string
      eqn:Hcur.
    + cbn. apply String.eqb_eq in Hcur. rewrite Hcur.
      exists t. repeat split.
    + cbn. apply negb_true_iff in Hknown. rewrite Hknown.
      eexists. split; [| split].
      * f_equal. f_equal. f_equal.
        destruct t; reflexivity.
      * destruct t; reflexivity.
      * destruct t; reflexivity.
  - unfold bind, ret. exists t. repeat split.
Qed.


Lemma Request_then_React (ev : TEvent) (Cmd : TFSCommand) (t : TTerminalState) :
  FFileSystem t <> None ->
  exists rest,
    FLog (snd ((Request ev ;; ReactOnCommand Cmd) t)) = FLog t ++ ev :: rest /\
    forallb IsReread rest = true.
Proof.
  intros Hfs. destruct (FFileSystem t) as [fs |] eqn:Hfs'; [| contradiction].
  unfold bind. rewrite (Request_log ev t fs Hfs').
  destruct (fsRequest fs (FLog t) ev) as [E |].
  - exists []. split; [destruct t; reflexivity | reflexivity].
  - destruct (ReactOnCommand_log Cmd (set_FLog t (FLog t ++ [ev])))
      as (rest & Hlog & Hrest).
    exists rest. split; [| exact Hrest].
    rewrite Hlog. destruct t; cbn. now rewrite <- app_assoc.
Qed.

Lemma DeleteTarget_named (FileName : string) (File : option TRemoteFile) :
  FileName <> "" \/ File <> None ->
  (if (DeleteTarget FileName File =? "")%string then
     match File with
     | Some f => @ret TTerminalState _ (GetFileName f)
     | None => throw (EExternal "access violation")
     end
   else ret (DeleteTarget FileName File)) = ret (DeleteTarget FileName File).
Proof.
  intros Hnamed. unfold DeleteTarget.
  destruct File as [f |].
  - destruct (FileName =? "")%string eqn:HF.
    + destruct (GetFileName f =? "")%string; reflexivity.
    + rewrite HF. reflexivity.
  - destruct (String.eqb_spec FileName ""); [| reflexivity].
    destruct Hnamed; contradiction.
Qed.

(** C3, as the code has it.  Take a [DeleteFile] call that names its
    target, on a terminal with a backend, outside a cancelled bulk
    operation, for a target whose directory is known.  It makes exactly one
    request besides rereads.  The request is the rename of the target into
    the recycle path under the mask made of a star, the current date and
    time as -YYYYMMDD-HHMMSS, a dot and a star, when all of these hold:
    [dfForceDelete] is clear, the session's delete-to-recycle setting
    differs from [dfAlternative], the recycle path is not empty, and the
    directory of the target is not the recycle path.  In every other case,
    so whenever the target lies in the recycle path, it is the deletion of
    the target. *)
Theorem DeleteFile_recycles_or_deletes (FileName : string)
  (File : option TRemoteFile) (AParams : option (list TDeleteFlag))
  (t : TTerminalState) :
  FFileSystem t <> None ->
  Cancelled t = false ->
  FileName <> "" \/ File <> None ->
  DirectoryKnown t (DeleteTarget FileName File) = true ->
  let LocalFileName := DeleteTarget FileName File in
  let Params := match AParams with Some p => p | None => [] end in
  let Made :=
    if Recycles t LocalFileName Params
    then EvRenameFile LocalFileName
           (RecycledName t LocalFileName (Now (FLog t)))
    else EvDeleteFile LocalFileName Params in
  exists rest,
    FLog (snd (DeleteFile FileName File AParams t)) = FLog t ++ Made :: rest /\
    forallb IsReread rest = true.
Proof.
  intros Hfs Hnc Hnamed Hknown LocalFileName Params Made.
  unfold DeleteFile. fold (DeleteTarget FileName File). fold LocalFileName.
  fold Params.
  destruct (CheckProgress_passes [foDelete] LocalFileName t) as
    (t1 & Hc1 & HQ1 & Hnc1); [| exact Hnc |].
  { intros op. cbn. intros Hop. now rewrite Hop, orb_true_r. }
  rewrite (bind_returns _ _ _ _ _ Hc1).
  destruct (Quiet_fields _ _ HQ1) as (Hsd1 & Hfs1 & Hld1 & Hlog1).
  assert (Hfs1' : FFileSystem t1 <> None) by now rewrite Hfs1.
  unfold bind at 1. unfold gets at 1. rewrite Hsd1.
  subst Made. unfold Recycles.
  destruct (FLAGCLEAR Params dfForceDelete &&
            negb (Bool.eqb (DeleteToRecycleBin (FSessionData t))
                    (FLAGSET Params dfAlternative)) &&
            negb (RecycleBinPath (FSessionData t) =? "")%string) eqn:Hrec.
  - assert (Hbin : (RecycleBinPath (FSessionData t) =? "")%string = false).
    { apply andb_true_iff in Hrec. destruct Hrec as [_ Hb].
      now apply negb_true_iff in Hb. }
    destruct (IsRecycledFile_known LocalFileName t1) as (t2 & Hr2 & HQ2 & Hnc2).
    { exact Hfs1'. }
    { now rewrite Hsd1. }
    { now rewrite (DirectoryKnown_quiet t t1 _ HQ1 Hfs). }
    rewrite (TargetDirectory_quiet t t1 _ HQ1 Hfs), Hsd1 in Hr2.
    destruct (Quiet_fields _ _ HQ2) as (Hsd2 & Hfs2 & Hld2 & Hlog2).
    assert (Hfs2' : FFileSystem t2 <> None) by now rewrite Hfs2.
    assert (HQ12 : Quiet t t2) by (eapply Quiet_trans; eassumption).
    unfold bind at 1. unfold bind at 1. rewrite Hr2. unfold ret at 1.
    cbn [andb].
    destruct (UnixComparePaths (TargetDirectory t LocalFileName)
                (RecycleBinPath (FSessionData t))) eqn:Hin; cbn [negb].
    + destruct (Request_then_React (EvDeleteFile LocalFileName Params)
                  fsDeleteFile t2 Hfs2') as (rest & Hlog & Hrest).
      exists rest. split; [| exact Hrest].
      rewrite Hlog, Hlog2, Hlog1. reflexivity.
    + unfold RecycleFile. subst LocalFileName.
      rewrite (DeleteTarget_named FileName File Hnamed).
      set (LocalFileName := DeleteTarget FileName File) in *.
      unfold bind at 1. unfold ret at 1.
      destruct (IsRecycledFile_known LocalFileName t2) as
        (t3 & Hr3 & HQ3 & Hnc3).
      { exact Hfs2'. }
      { now rewrite Hsd2, Hsd1. }
      { now rewrite (DirectoryKnown_quiet t t2 _ HQ12 Hfs). }
      rewrite (TargetDirectory_quiet t t2 _ HQ12 Hfs), Hsd2, Hsd1, Hin in Hr3.
      destruct (Quiet_fields _ _ HQ3) as (Hsd3 & Hfs3 & Hld3 & Hlog3).
      rewrite (bind_returns _ _ _ _ _ Hr3). cbn [negb].
      unfold bind at 1. unfold gets at 1.
      unfold bind at 1. unfold gets at 1.
      unfold MoveFile.
      destruct (CheckProgress_passes [foRemoteMove; foDelete] LocalFileName t3)
        as (t4 & Hc4 & HQ4 & Hnc4).
      { auto. }
      { now rewrite Hnc3, Hnc2. }
      rewrite (bind_returns _ _ _ _ _ Hc4).
      destruct (Quiet_fields _ _ HQ4) as (Hsd4 & Hfs4 & Hld4 & Hlog4).
      assert (Hfs4' : FFileSystem t4 <> None)
        by now rewrite Hfs4, Hfs3.
      match goal with
      | |- context [Request ?ev] =>
          destruct (Request_then_React ev fsMoveFile t4 Hfs4')
            as (rest & Hlog & Hrest)
      end.
      exists rest. split; [| exact Hrest].
      rewrite Hlog, Hlog4, Hlog3, Hlog2, Hlog1, Hsd3, Hsd2, Hsd1.
      reflexivity.
  - cbn [andb]. unfold bind at 1. unfold ret at 1.
    destruct (Request_then_React (EvDeleteFile LocalFileName Params)
                fsDeleteFile t1 Hfs1') as (rest & Hlog & Hrest).
    exists rest. split; [| exact Hrest].
    rewrite Hlog, Hlog1. reflexivity.
Qed.

End RecycleProperties.

Lemma DeleteFile_recycles_or_deletes_witness :
  FFileSystem SampleState <> None /\
  Cancelled SampleState = false /\
  ("/work/x.txt" <> "" \/ @None (@TRemoteFile SampleExternals) <> None) /\
  @DirectoryKnown SampleExternals SampleState
    (@DeleteTarget SampleExternals "/work/x.txt" None) = true /\
  exists rest,
    FLog (snd (@DeleteFile SampleExternals "/work/x.txt" None None SampleState)) =
      EvRenameFile "/work/x.txt" "/.trash/x-20240309-070502.txt" :: rest /\
    forallb IsReread rest = true.
Proof.
  assert (Hfs : FFileSystem SampleState <> None) by discriminate.
  assert (Hnamed : "/work/x.txt" <> "" \/
                   @None (@TRemoteFile SampleExternals) <> None)
    by (left; discriminate).
  repeat split; try assumption.
  exact (@DeleteFile_recycles_or_deletes SampleExternals "/work/x.txt" None
           None SampleState Hfs eq_refl Hnamed eq_refl).
Defined.

(** With delete-to-recycle on, a recycle path configured and the target
    outside it, [dfForceDelete] still makes [DeleteFile] delete the file:
    no rename is requested. *)
Lemma DeleteFile_force_delete_counterexample :
  DeleteToRecycleBin (FSessionData SampleState) = true /\
  RecycleBinPath (FSessionData SampleState) = "/.trash" /\
  fst (@IsRecycledFile SampleExternals "/work/x.txt" SampleState) =
    Returns false /\
  let log := FLog (snd (@DeleteFile SampleExternals "/work/x.txt" None
                          (Some [dfForceDelete]) SampleState)) in
  log = [EvDeleteFile "/work/x.txt" [dfForceDelete]; EvReadDirectory true false]
  /\ existsb IsRenameRequest log = false.
Proof. repeat split. Qed.

(** Scenario 4 of the spec: the file goes to the recycle path under its
    name, the time stamp and its extension. *)
Example DeleteFile_scenario_recycle :
  FLog (snd (@DeleteFile SampleExternals "/work/x.txt" None None SampleState)) =
    [EvRenameFile "/work/x.txt" "/.trash/x-20240309-070502.txt";
     EvReadDirectory true false].
Proof. reflexivity. Qed.

(** [dfAlternative] inverts the session's setting. *)
Example DeleteFile_alternative :
  FLog (snd (@DeleteFile SampleExternals "/work/x.txt" None
               (Some [dfAlternative]) SampleState)) =
    [EvDeleteFile "/work/x.txt" [dfAlternative]; EvReadDirectory true false].
Proof. reflexivity. Qed.

(** A file of the recycle path itself is deleted; a file of a directory
    below the recycle path is moved up into it. *)
Example DeleteFile_inside_recycle_path :
  FLog (snd (@DeleteFile SampleExternals "/.trash/x.txt" None None SampleState)) =
    [EvDeleteFile "/.trash/x.txt" []; EvReadDirectory true false] /\
  FLog (snd (@DeleteFile SampleExternals "/.trash/sub/x.txt" None None
               SampleState)) =
    [EvRenameFile "/.trash/sub/x.txt" "/.trash/x-20240309-070502.txt";
     EvReadDirectory true false].
Proof. split; reflexivity. Qed.

(** Inside a cancelled bulk delete nothing is requested. *)
Example DeleteFile_cancelled :
  let t := set_FOperationProgress SampleState
             (Some (set_Cancel SampleProgress csCancel)) in
  @DeleteFile SampleExternals "/work/x.txt" None None t = (Throws EAbort, t).
Proof. reflexivity. Qed.

(** ** Tunnel bring-up *)

(** The scan started inside the range ends at the first free port of the
    rest of the range, or finds none there. *)
Lemma ScanTunnelPort_spec (Free : Z -> bool) (High Port : Z) :
  Port <= High ->
  match ScanTunnelPort Free High Port with
  | Some p =>
      Port <= p <= High /\ Free p = true /\
      forall q, Port <= q < p -> Free q = false
  | None => forall q, Port <= q <= High -> Free q = false
  end.
Proof.
  funelim (ScanTunnelPort Free High Port); intros Hle.
  - split; [lia |]. split; [assumption |]. intros q Hq. lia.
  - intros q Hq. assert (q = Port) by lia. now subst.
  - specialize (H ltac:(lia)).
    destruct (ScanTunnelPort Free High (Port + 1)) as [p |].
    + destruct H as (Hp & Hfree & Hbefore).
      split; [lia |]. split; [assumption |].
      intros q Hq. destruct (Z.eq_dec q Port) as [-> | Hne];
        [assumption | apply Hbefore; lia].
    + intros q Hq. destruct (Z.eq_dec q Port) as [-> | Hne];
        [assumption | apply H; lia].
Qed.

Lemma SelectTunnelPort_chosen (Host : TTunnelHost) (t : TTunnelMembers)
  (Port : Z) :
  ChosenTunnelPort Host t Port ->
  SelectTunnelPort Host t = (Returns tt, set_FTunnelLocalPortNumber t Port).
Proof.
  intros [[Hover ->] | (Hover & Hrange & Hfree & Hbefore)];
    unfold SelectTunnelPort, bind, gets, modify, ret; cbn.
  - destruct (Z.eqb_spec (TunnelLocalPortNumber (tnSessionData t)) 0);
      [contradiction |].
    reflexivity.
  - rewrite Hover. cbn.
    pose proof (ScanTunnelPort_spec (IsListenerFree Host)
                  (TunnelLocalPortNumberHigh (tnConfiguration t))
                  (TunnelLocalPortNumberLow (tnConfiguration t))
                  ltac:(lia)) as Hscan.
    destruct (ScanTunnelPort _ _ _) as [p |].
    + destruct Hscan as (Hp & Hpfree & Hpbefore).
      assert (p = Port).
      { destruct (Z.lt_trichotomy p Port) as [Hlt | [Heq | Hgt]];
          [| assumption |].
        - rewrite (Hbefore p) in Hpfree by lia. discriminate.
        - rewrite (Hpbefore Port) in Hfree by lia. discriminate. }
      subst p. destruct t; reflexivity.
    + rewrite (Hscan Port Hrange) in Hfree. discriminate.
Qed.

Lemma SelectTunnelPort_exhausted (Host : TTunnelHost) (t : TTunnelMembers) :
  TunnelLocalPortNumberLow (tnConfiguration t) <=
    TunnelLocalPortNumberHigh (tnConfiguration t) ->
  TunnelRangeExhausted Host t ->
  SelectTunnelPort Host t =
    FatalError None
      (FMTLOAD TUNNEL_NO_FREE_PORT
         [Text (IntToStr (TunnelLocalPortNumberLow (tnConfiguration t)));
          Text (IntToStr (TunnelLocalPortNumberHigh (tnConfiguration t)))])
      (set_FTunnelLocalPortNumber t 0).
Proof.
  intros Hle [Hover Hnone].
  unfold SelectTunnelPort, bind, gets, modify, ret; cbn.
  rewrite Hover. cbn.
  pose proof (ScanTunnelPort_spec (IsListenerFree Host) _ _ Hle) as Hscan.
  destruct (ScanTunnelPort _ _ _) as [p |].
  - destruct Hscan as (Hp & Hpfree & _).
    rewrite (Hnone p Hp) in Hpfree. discriminate.
  - destruct t; reflexivity.
Qed.

(** Either rule of the spec applies: a port is chosen or the range is
    exhausted. *)
Lemma TunnelPort_decided (Host : TTunnelHost) (t : TTunnelMembers) :
  TunnelLocalPortNumber (tnSessionData t) <> 0 \/
  TunnelLocalPortNumberLow (tnConfiguration t) <=
    TunnelLocalPortNumberHigh (tnConfiguration t) ->
  (exists Port, ChosenTunnelPort Host t Port) \/ TunnelRangeExhausted Host t.
Proof.
  intros Hcase.
  destruct (Z.eq_dec (TunnelLocalPortNumber (tnSessionData t)) 0)
    as [Hover | Hover].
  - destruct Hcase as [? | Hle]; [contradiction |].
    pose proof (ScanTunnelPort_spec (IsListenerFree Host) _ _ Hle) as Hscan.
    destruct (ScanTunnelPort _ _ _) as [p |].
    + left. exists p. right. tauto.
    + right. split; assumption.
  - left. eexists. left. split; [exact Hover | reflexivity].
Qed.



(** Scenario 6 of the spec, with the first two ports of the range taken. *)
Example OpenTunnel_scenario :
  let run := OpenTunnel SampleTunnelHost SampleTunnelMembers in
  fst run = Returns tt /\
  FTunnelLocalPortNumber (snd run) = 50002 /\
  option_map TunnelPortFwd (FTunnelData (snd run)) =
    Some ("L50002" ++ String "009" "files.example.org:22")%string.
Proof. repeat split. Qed.

(** A range turned around is not empty to the loop: its low end is tried
    before the comparison with the high end. *)
Example OpenTunnel_reversed_range :
  FTunnelLocalPortNumber
    (snd (OpenTunnel SampleTunnelHost ReversedRangeMembers)) = 50099.
Proof. reflexivity. Qed.

(** ** Synchronization: the collect phase *)

Section CollectProperties.
Context `{Externals}.

(** Induction on the remote tree that reaches the files of a listing. *)
Lemma TRemoteEntry_cases_ind (P : TRemoteEntry -> Prop) :
  (forall File Files, Forall P Files -> P (RemoteEntry File (Listed Files))) ->
  (forall File, P (RemoteEntry File Skipped)) ->
  (forall File E, P (RemoteEntry File (Failed E))) ->
  forall Entry, P Entry.
Proof.
  intros HListed HSkipped HFailed.
  fix IH 1.
  intros [File [Files | | E]].
  - apply HListed.
    induction Files as [| Entry rest IHrest]; constructor.
    + apply IH.
    + exact IHrest.
  - apply HSkipped.
  - apply HFailed.
Qed.

Lemma TRemoteEntry_nested_ind (P : TRemoteEntry -> Prop) :
  (forall File Listing,
      (forall Files, Listing = Listed Files -> Forall P Files) ->
      P (RemoteEntry File Listing)) ->
  forall Entry, P Entry.
Proof.
  intros Step Entry.
  induction Entry as [File Files IH | File | File E]
    using TRemoteEntry_cases_ind;
    apply Step; intros Files' Heq; inversion Heq; subst; assumption.
Qed.

Lemma KeepsMode_ret {A : Type} (Mode : TSynchronizeMode) (a : A) :
  KeepsMode Mode (ret a).
Proof. intros Checklist HC. exact HC. Qed.

Lemma KeepsMode_throw {A : Type} (Mode : TSynchronizeMode) (E : Exception) :
  KeepsMode Mode (@throw _ A E).
Proof. intros Checklist HC. exact HC. Qed.

Lemma KeepsMode_bind {A B : Type} (Mode : TSynchronizeMode)
  (c : Exec (list TItem) A) (k : A -> Exec (list TItem) B) :
  KeepsMode Mode c -> (forall a, KeepsMode Mode (k a)) ->
  KeepsMode Mode (bind c k).
Proof.
  intros Hc Hk Checklist HC. unfold bind.
  specialize (Hc Checklist HC).
  destruct (c Checklist) as [[a | E] Checklist1]; cbn in *.
  - apply Hk. exact Hc.
  - exact Hc.
Qed.

Lemma KeepsMode_when (Mode : TSynchronizeMode) (b : bool)
  (c : Exec (list TItem) unit) :
  KeepsMode Mode c -> KeepsMode Mode (when b c).
Proof. destruct b; [auto | intros _; apply KeepsMode_ret]. Qed.

Lemma KeepsMode_append (Mode : TSynchronizeMode) (Items : list TItem) :
  Forall (fun Item => ActionOfMode Mode (Action Item) = true) Items ->
  KeepsMode Mode (modify (fun Checklist => Checklist ++ Items)).
Proof.
  intros HI Checklist HC. cbn. apply Forall_app. split; assumption.
Qed.

Lemma KeepsMode_progress (Mode : TSynchronizeMode) (Data : TSynchronizeData)
  (Collect : bool) :
  KeepsMode Mode (DoSynchronizeProgress Data Collect).
Proof.
  unfold DoSynchronizeProgress.
  destruct (OnSynchronizeDirectory Data) as [Event |];
    [destruct (Event _ _ _) |];
    auto using KeepsMode_ret, KeepsMode_throw.
Qed.

(** The item of a remote file carries an action of the mode. *)
Lemma AddRemoteItem_mode (Data : TSynchronizeData) (File : TRemoteFile)
  (Item : TItem) (IsNew IsModified : bool) :
  Action Item = saNone ->
  KeepsMode (Mode Data) (AddRemoteItem Data File Item IsNew IsModified).
Proof.
  intros Hnone. unfold AddRemoteItem.
  destruct (IsNew || IsModified); [| apply KeepsMode_ret].
  destruct (Mode Data); cbn [TSynchronizeMode_beq orb andb];
    repeat match goal with
      | |- context [if ?b then _ else _] => destruct b eqn:?
      end;
    try apply KeepsMode_ret;
    try (apply KeepsMode_append; repeat constructor);
    cbn in *; rewrite ?Hnone in *; try discriminate; reflexivity.
Qed.

(** So does the item of a local file. *)
Lemma LocalItem_mode (Data : TSynchronizeData)
  (FileData : TSynchronizeFileData) (Item : TItem) :
  LocalItem Data FileData = Some Item ->
  ActionOfMode (Mode Data) (Action Item) = true.
Proof.
  unfold LocalItem.
  destruct (Mode Data); cbn [TSynchronizeMode_beq orb andb];
    repeat match goal with
      | |- context [if ?b then _ else _] => destruct b eqn:?
      end;
    intros Heq; inversion Heq; subst; cbn in *; try discriminate;
    reflexivity.
Qed.

Lemma AddLocalItems_mode (Data : TSynchronizeData) (List : TLocalFileList) :
  Forall (fun Item => ActionOfMode (Mode Data) (Action Item) = true)
    (AddLocalItems Data List).
Proof.
  induction List as [| [Name FileData] rest IH]; cbn; [constructor |].
  destruct (LocalItem Data FileData) as [Item |] eqn:HItem; [| exact IH].
  constructor; [eapply LocalItem_mode; eassumption | exact IH].
Qed.

Lemma ProcessListedFiles_mode (CollectFile : TCollectFile)
  (Data : TSynchronizeData) (Files : list TRemoteEntry) :
  Forall (fun Entry => forall Data' List,
            Mode Data' = Mode Data ->
            KeepsMode (Mode Data) (CollectFile Entry Data' List)) Files ->
  forall List,
    KeepsMode (Mode Data) (ProcessListedFiles CollectFile Data Files List).
Proof.
  induction 1 as [| Entry rest HEntry _ IH]; intros List; cbn.
  - apply KeepsMode_ret.
  - destruct (negb _ && negb _); [| apply IH].
    apply KeepsMode_bind; [apply HEntry; reflexivity | intros; apply IH].
Qed.

Lemma DoSynchronizeCollectDirectoryWith_mode (Host : TCollectHost)
  (CollectFile : TCollectFile) (LocalDirectory RemoteDirectory : string)
  (AMode : TSynchronizeMode) (CopyParam : TCopyParamType)
  (Params : list TSynchronizeParam)
  (OnSynchronizeDirectory : option TSynchronizeDirectoryEvent)
  (Options : option TSynchronizeOptions) (Flags : list TSynchronizeFlag)
  (Found : list TLocalEntry) (Listing : TListing TRemoteEntry) :
  (forall Files, Listing = Listed Files ->
     Forall (fun Entry => forall Data' List,
               Mode Data' = AMode ->
               KeepsMode AMode (CollectFile Entry Data' List)) Files) ->
  KeepsMode AMode
    (DoSynchronizeCollectDirectoryWith Host CollectFile LocalDirectory
       RemoteDirectory AMode CopyParam Params OnSynchronizeDirectory Options
       Flags Found Listing).
Proof.
  intros HFiles. unfold DoSynchronizeCollectDirectoryWith.
  apply KeepsMode_bind; [apply KeepsMode_when, KeepsMode_progress |].
  intros _. destruct Found as [| Entry Found]; [apply KeepsMode_ret |].
  apply KeepsMode_bind; [apply KeepsMode_when, KeepsMode_progress |].
  intros _. apply KeepsMode_bind.
  - destruct Listing as [Files | | E].
    + match goal with
      | |- KeepsMode _ (ProcessListedFiles _ ?D _ _) =>
          apply (ProcessListedFiles_mode CollectFile D Files)
      end.
      cbn. apply HFiles. reflexivity.
    + apply KeepsMode_ret.
    + apply KeepsMode_throw.
  - intros List.
    match goal with
    | |- KeepsMode _ (modify (fun _ => _ ++ AddLocalItems ?D _)) =>
        apply (KeepsMode_append _ _ (AddLocalItems_mode D List))
    end.
Qed.

(** Whatever the trees, [SynchronizeCollectFile] adds actions of the mode
    only. *)
Lemma SynchronizeCollectFile_mode (Host : TCollectHost) (Entry : TRemoteEntry) :
  forall Data List,
    KeepsMode (Mode Data) (SynchronizeCollectFile Host Entry Data List).
Proof.
  induction Entry as [File Listing IH] using TRemoteEntry_nested_ind.
  intros Data List. cbn [SynchronizeCollectFile].
  destruct (RemoteFileTakesPart Host Data File); [| apply KeepsMode_ret].
  destruct (LookupLocal _ List) as [LocalData |].
  - destruct (negb (Bool.eqb _ _)); [apply KeepsMode_ret |].
    destruct (negb (GetIsDirectory File)).
    + destruct (CompareSides _ _ _) as [IsModified LocalModified].
      apply KeepsMode_bind; [| intros; apply KeepsMode_ret].
      apply AddRemoteItem_mode. reflexivity.
    + destruct (FLAGCLEAR (Params Data) spNoRecurse); [| apply KeepsMode_ret].
      apply KeepsMode_bind; [| intros; apply KeepsMode_ret].
      apply DoSynchronizeCollectDirectoryWith_mode.
      intros Files HFiles. specialize (IH Files HFiles).
      eapply Forall_impl; [| exact IH].
      cbn. intros Entry HEntry Data' List' HMode. rewrite <- HMode.
      apply HEntry.
  - apply KeepsMode_bind; [| intros; apply KeepsMode_ret].
    apply AddRemoteItem_mode. reflexivity.
Qed.



End CollectProperties.

Lemma InsertSorted_permutation {A : Type} (Cmp : A -> A -> Z) (x : A)
  (l : list A) : Permutation (x :: l) (InsertSorted Cmp x l).
Proof.
  induction l as [| y rest IH]; cbn; [reflexivity |].
  destruct (Cmp x y <=? 0); [reflexivity |].
  rewrite perm_swap. now apply perm_skip.
Qed.

Lemma InsertionSort_permutation (A : Type) (Cmp : A -> A -> Z) (l : list A) :
  Permutation l (InsertionSort A Cmp l).
Proof.
  unfold InsertionSort. induction l as [| x rest IH]; cbn; [reflexivity |].
  rewrite <- InsertSorted_permutation. now apply perm_skip.
Qed.


(** In mode local a file that is new on the remote side is downloaded and
    a file that is only local is deleted. *)
Example SynchronizeCollect_local_mode :
  option_map (map Action)
    (match @SynchronizeCollect SampleExternals SampleCollectHost "C:\work"
             "/home/user" smLocal SampleCopyParam [spDelete] None None
             (SampleDots ++ [SampleLocalFile "old.txt" 10 SampleT])
             (Listed [SampleRemoteFile "new.txt" 20 SampleT]) with
     | Returns l => Some l
     | Throws _ => None
     end) = Some [saDownloadNew; saDeleteLocal].
Proof. reflexivity. Qed.

(** In mode remote the same trees plan the opposite. *)
Example SynchronizeCollect_remote_mode :
  option_map (map Action)
    (match @SynchronizeCollect SampleExternals SampleCollectHost "C:\work"
             "/home/user" smRemote SampleCopyParam [spDelete] None None
             (SampleDots ++ [SampleLocalFile "old.txt" 10 SampleT])
             (Listed [SampleRemoteFile "new.txt" 20 SampleT]) with
     | Returns l => Some l
     | Throws _ => None
     end) = Some [saDeleteRemote; saUploadNew].
Proof. reflexivity. Qed.

Section BySizeProperties.
Context `{Externals}.

Lemma CollectLocalFiles_app (Host : TCollectHost) (Data : TSynchronizeData)
  (Found1 Found2 : list TLocalEntry) :
  CollectLocalFiles Host Data (Found1 ++ Found2) =
    CollectLocalFiles Host Data Found1 ++ CollectLocalFiles Host Data Found2.
Proof.
  induction Found1 as [| [SearchRec Entries] rest IH]; cbn; [reflexivity |].
  destruct (LocalFileTakesPart Host Data SearchRec); cbn; now rewrite IH.
Qed.

Lemma CollectLocalFiles_none (Host : TCollectHost) (Data : TSynchronizeData)
  (Found : list TLocalEntry) :
  Forall (fun Entry =>
            match Entry with
            | LocalEntry SearchRec _ =>
                LocalFileTakesPart Host Data SearchRec = false
            end) Found ->
  CollectLocalFiles Host Data Found = [].
Proof.
  induction 1 as [| [SearchRec Entries] rest HEntry _ IH]; cbn;
    [reflexivity |].
  now rewrite HEntry.
Qed.


End BySizeProperties.



(** Scenarios 1 and 2 of the spec. *)
Example SynchronizeCollect_new_remote_file :
  option_map (map (fun Item => (Action Item, Checked Item)))
    (match @SynchronizeCollect SampleExternals SampleCollectHost "C:\work"
             "/home/user" smBoth SampleCopyParam [] None None SampleDots
             (Listed [SampleRemoteFile "a.txt" 100 SampleT]) with
     | Returns l => Some l
     | Throws _ => None
     end) = Some [(saDownloadNew, true)].
Proof. reflexivity. Qed.

Example SynchronizeCollect_remote_newer :
  option_map (map (fun Item => (Action Item, Checked Item)))
    (match @SynchronizeCollect SampleExternals SampleCollectHost "C:\work"
             "/home/user" smBoth SampleCopyParam [] None None
             (SampleDots ++ [SampleLocalFile "b.txt" 10 SampleT])
             (Listed [SampleRemoteFile "b.txt" 10 SampleNewer]) with
     | Returns l => Some l
     | Throws _ => None
     end) = Some [(saDownloadUpdate, true)].
Proof. reflexivity. Qed.

(** ** The order of the bulk operations of an apply *)

Section ApplyProperties.
Context `{Externals}.
Variable Operations : TBulkOperations.
Variable OnSync : option TSynchronizeDirectoryEvent.
Variable SyncCopyParam : TCopyParamType.
Variable AParams : list TSynchronizeParam.
Variable CopyParams : list TCopyFlag.
Hypothesis HParams : FLAGSET AParams spTimestamp = false.

Lemma Settled_returns Calls a : Settled Calls (Returns a) -> Forall Completed Calls.
Proof.
  intros [HAll | (before & e & _ & _ & _ & Hr)]; [exact HAll | discriminate].
Qed.

Lemma Settled_app Calls1 Calls2 r :
  Forall Completed Calls1 -> Settled Calls2 r -> Settled (Calls1 ++ Calls2) r.
Proof.
  intros H1 [HAll | (before & e & -> & HBefore & He & Hr)].
  - left. apply Forall_app. now split.
  - right. exists (Calls1 ++ before), e. rewrite app_assoc.
    repeat split; try assumption. apply Forall_app. now split.
Qed.

Lemma Settled_nil r : Settled [] r.
Proof. left. constructor. Qed.

Lemma BulkOrAbort_log (AGroup : nat) (ACall : TBulkCall) s r s' :
  BulkOrAbort Operations AGroup ACall s = (r, s') ->
  (FileList ACall = [] /\ r = Returns tt /\ s' = s) \/
  (FileList ACall <> [] /\
   exists a,
     ApplyLog s' =
       ApplyLog s ++ [{| Group := AGroup; Call := ACall; Answer := a |}] /\
     ((a = Returns true /\ r = Returns tt) \/
      (a <> Returns true /\ r = Throws (Raised a)))).
Proof.
  unfold BulkOrAbort. destruct (FileList ACall) as [| f fs] eqn:HList.
  - intros [= <- <-]. now left.
  - intros HRun. right. split; [discriminate |].
    unfold bind, Bulk in HRun.
    destruct (Operations ACall (Terminal s) (ApplyLog s)) as [a T] eqn:HOp.
    destruct a as [[|] | E]; cbn in HRun; injection HRun as <- <-; cbn;
      eexists; (split; [reflexivity |]);
      [left; now split | right; split; [discriminate | reflexivity] ..].
Qed.

(** One more step for a group: the calls so far went well and are of kinds
    before [ACall]'s. *)
Lemma BulkOrAbort_step (AGroup : nat) (L : TApplyLists) (ACall : TBulkCall)
  (Bound : nat) s0 Calls s r s' :
  ApplyLog s = ApplyLog s0 ++ Calls ->
  Forall Completed Calls ->
  StronglySorted CallBefore Calls ->
  Forall (OfGroup AGroup L Bound) Calls ->
  (Bound < BulkRank (Kind ACall))%nat ->
  TransfersOrDeletes (Kind ACall) = true ->
  FileList ACall = BucketOf (Kind ACall) L ->
  BulkOrAbort Operations AGroup ACall s = (r, s') ->
  exists Calls',
    ApplyLog s' = ApplyLog s0 ++ Calls' /\
    Settled Calls' r /\
    StronglySorted CallBefore Calls' /\
    Forall (OfGroup AGroup L (BulkRank (Kind ACall))) Calls'.
Proof.
  intros HLog HCompleted HSorted HGroup HBound HKind HBucket HRun.
  assert (HWiden : Forall (OfGroup AGroup L (BulkRank (Kind ACall))) Calls).
  { eapply Forall_impl; [| exact HGroup].
    intros e (? & ? & ? & ? & ?). repeat split; try assumption. lia. }
  apply BulkOrAbort_log in HRun as [(_ & -> & ->) | (HNonEmpty & a & HLog' & Ha)].
  - exists Calls. repeat split; try assumption. now left.
  - set (e := {| Group := AGroup; Call := ACall; Answer := a |}) in *.
    exists (Calls ++ [e]). split; [rewrite HLog', HLog; now rewrite app_assoc |].
    split; [| split].
    + destruct Ha as [(-> & ->) | (Ha & ->)].
      * left. apply Forall_app. split; [exact HCompleted |].
        constructor; [reflexivity | constructor].
      * right. exists Calls, e. repeat split; assumption.
    + clear HWiden HCompleted HLog. induction HSorted as [| x l HS IH HAll].
      * cbn. constructor; constructor.
      * cbn. inversion HGroup as [| ? ? Hx Hl]; subst.
        constructor; [apply IH; assumption |].
        apply Forall_app. split; [exact HAll |].
        constructor; [| constructor].
        destruct Hx as (Hg & _ & _ & _ & Hr). right. cbn. split; [exact Hg | lia].
    + apply Forall_app. split; [exact HWiden |].
      constructor; [| constructor].
      repeat split; cbn; try assumption. lia.
Qed.


Lemma bind_cases {S A B : Type} (c : Exec S A) (k : A -> Exec S B)
  (s s' : S) (r : Outcome B) :
  bind c k s = (r, s') ->
  (exists a s1, c s = (Returns a, s1) /\ k a s1 = (r, s')) \/
  (exists E, c s = (Throws E, s') /\ r = Throws E).
Proof.
  unfold bind. destruct (c s) as [[a | E] s1].
  - intros Hk. left. now exists a, s1.
  - intros [= <- <-]. right. now exists E.
Qed.

Lemma ApplyGroup_log (CurrentLocalDirectory CurrentRemoteDirectory : string)
  (AGroup : nat) (L : TApplyLists) s r s' :
  ApplyGroup Operations OnSync SyncCopyParam AParams CopyParams
    CurrentLocalDirectory CurrentRemoteDirectory AGroup L s = (r, s') ->
  exists Calls,
    ApplyLog s' = ApplyLog s ++ Calls /\
    Settled Calls r /\
    StronglySorted CallBefore Calls /\
    Forall (OfGroup AGroup L 4%nat) Calls.
Proof.
  unfold ApplyGroup. rewrite HParams. cbn [LocalDirectory RemoteDirectory].
  intros HRun.
  apply bind_cases in HRun as [([] & s1 & HProgress & HRun) | (E & HProgress & ->)].
  2: { exists []. rewrite app_nil_r.
       assert (s' = s) as ->.
       { unfold DoSynchronizeProgress in HProgress. cbn in HProgress.
         destruct OnSync as [Event |]; [| discriminate].
         destruct (Event _ _ _); [discriminate |]. now injection HProgress. }
       repeat split; try constructor. constructor. }
  assert (s1 = s) as ->.
  { unfold DoSynchronizeProgress in HProgress. cbn in HProgress.
    destruct OnSync as [Event |]; [| now injection HProgress].
    destruct (Event _ _ _); [now injection HProgress | discriminate]. }
  clear HProgress.
  assert (H0 : ApplyLog s = ApplyLog s ++ []) by now rewrite app_nil_r.
  apply bind_cases in HRun as [([] & s1 & H1 & HRun) | (E & H1 & ->)];
    apply (BulkOrAbort_step AGroup L _ 0%nat s [] s _ _ H0 (Forall_nil _)
             (SSorted_nil _) (Forall_nil _)) in H1
      as (Calls1 & HLog1 & HSet1 & HSort1 & HG1);
    try reflexivity; try (cbn; lia).
  2: { exists Calls1. repeat split; try assumption.
       eapply Forall_impl; [| exact HG1].
       intros e (? & ? & ? & ? & Hr). repeat split; try assumption.
       cbn in Hr. lia. }
  apply Settled_returns in HSet1.
  apply bind_cases in HRun as [([] & s2 & H2 & HRun) | (E & H2 & ->)].
  2: { eapply BulkOrAbort_step in H2 as (Calls & ? & ? & ? & HG);
         try eassumption; try reflexivity; [| cbn; lia].
       exists Calls. repeat split; try assumption.
       eapply Forall_impl; [| exact HG].
       intros e (? & ? & ? & ? & Hr). repeat split; try assumption.
       cbn in Hr. lia. }
  eapply BulkOrAbort_step in H2 as (Calls2 & HLog2 & HSet2 & HSort2 & HG2);
    try eassumption; try reflexivity; [| cbn; lia].
  apply Settled_returns in HSet2.
  apply bind_cases in HRun as [([] & s3 & H3 & HRun) | (E & H3 & ->)].
  2: { eapply BulkOrAbort_step in H3 as (Calls & ? & ? & ? & HG);
         try eassumption; try reflexivity; [| cbn; lia].
       exists Calls. repeat split; try assumption.
       eapply Forall_impl; [| exact HG].
       intros e (? & ? & ? & ? & Hr). repeat split; try assumption.
       cbn in Hr. lia. }
  eapply BulkOrAbort_step in H3 as (Calls3 & HLog3 & HSet3 & HSort3 & HG3);
    try eassumption; try reflexivity; [| cbn; lia].
  apply Settled_returns in HSet3.
  eapply BulkOrAbort_step in HRun as (Calls & ? & ? & ? & HG);
    try eassumption; try reflexivity; [| cbn; lia].
  exists Calls. repeat split; assumption.
Qed.


Lemma GatherGroup_length (P : list TSynchronizeParam) (l r : string)
  (Items : list TItem) (L : TApplyLists) (c : nat) :
  (List.length (snd (GatherGroup P l r Items L c)) <= List.length Items)%nat.
Proof.
  revert L c. induction Items as [| Next Items IH]; intros L c; cbn; [lia |].
  destruct (InGroup _ _ Next); [| cbn; lia].
  destruct (Checked Next); eapply Nat.le_trans; try apply IH; lia.
Qed.

(** What the inner loop leaves is the list from some index on. *)
Lemma GatherGroup_left (P : list TSynchronizeParam) (l r : string)
  (Items : list TItem) (L : TApplyLists) (c : nat) :
  snd (GatherGroup P l r Items L c) =
  skipn (List.length Items -
         List.length (snd (GatherGroup P l r Items L c))) Items.
Proof.
  revert L c. induction Items as [| Next Items IH]; intros L c; cbn - [skipn Nat.sub];
    [reflexivity |].
  destruct (InGroup _ _ Next).
  - assert (HStep : forall L' c',
      snd (GatherGroup P l r Items L' c') =
      skipn (S (List.length Items) -
             List.length (snd (GatherGroup P l r Items L' c'))) (Next :: Items)).
    { intros L' c'. pose proof (GatherGroup_length P l r Items L' c') as Hle.
      replace (S (List.length Items) - _)%nat
        with (S (List.length Items -
                 List.length (snd (GatherGroup P l r Items L' c')))) by lia.
      cbn [skipn]. apply IH. }
    destruct (Checked Next); apply HStep.
  - cbn - [skipn Nat.sub]. now rewrite Nat.sub_diag.
Qed.

(** The first item of a group passes the test of the inner loop. *)
Lemma GatherGroup_first (P : list TSynchronizeParam) (Item : TItem)
  (rest : list TItem) (L : TApplyLists) (c : nat) :
  (List.length (snd (GatherGroup P (Directory (Local Item))
                      (Directory (Remote Item)) (Item :: rest) L c))
   <= List.length rest)%nat.
Proof.
  cbn. unfold InGroup. rewrite !String.eqb_refl. cbn.
  destruct (Checked Item); apply GatherGroup_length.
Qed.

Lemma StronglySorted_app {A : Type} (R : A -> A -> Prop) (l1 l2 : list A) :
  StronglySorted R l1 -> StronglySorted R l2 ->
  (forall x y, In x l1 -> In y l2 -> R x y) ->
  StronglySorted R (l1 ++ l2).
Proof.
  intros H1 H2 HR. induction H1 as [| x l HS IH HAll]; cbn; [exact H2 |].
  constructor.
  - apply IH. intros a b Ha. apply HR. now right.
  - apply Forall_app. split; [exact HAll |].
    apply Forall_forall. intros y Hy. apply HR; [now left | exact Hy].
Qed.

Lemma ApplyGroups_log (n : nat) :
  forall Items, (List.length Items <= n)%nat ->
  forall IIndex s r s',
  ApplyGroups Operations OnSync SyncCopyParam AParams CopyParams IIndex Items s
    = (r, s') ->
  exists Calls,
    ApplyLog s' = ApplyLog s ++ Calls /\
    Settled Calls r /\
    StronglySorted CallBefore Calls /\
    Forall (OfApply AParams IIndex Items) Calls.
Proof.
  induction n as [| n IH]; intros [| Item rest] Hn IIndex s r s' HRun;
    try (cbn in Hn; lia).
  1, 2: rewrite ApplyGroups_equation_1 in HRun; injection HRun as <- <-;
    exists []; rewrite app_nil_r; repeat split; try constructor; constructor.
  rewrite ApplyGroups_equation_2 in HRun. cbv zeta in HRun.
  pose proof (GatherGroup_first AParams Item rest ClearedLists 0) as HShort.
  pose proof (GatherGroup_left AParams (Directory (Local Item))
                (Directory (Remote Item)) (Item :: rest) ClearedLists 0)
    as HLeft.
  set (Gathered := GatherGroup AParams (Directory (Local Item))
                     (Directory (Remote Item)) (Item :: rest) ClearedLists 0)
    in *.
  set (k := (List.length (Item :: rest) - List.length (snd Gathered))%nat) in *.
  assert (Hk : (1 <= k)%nat) by (unfold k; cbn [List.length]; lia).
  assert (HGroup : forall r1 s1,
    when (0 <? snd (fst Gathered))%nat
      (ApplyGroup Operations OnSync SyncCopyParam AParams CopyParams
         (Directory (Local Item)) (Directory (Remote Item)) IIndex
         (fst (fst Gathered))) s = (r1, s1) ->
    exists Calls,
      ApplyLog s1 = ApplyLog s ++ Calls /\
      Settled Calls r1 /\
      StronglySorted CallBefore Calls /\
      Forall (fun e => Group e = IIndex /\ OfApply AParams IIndex (Item :: rest) e)
        Calls).
  { intros r1 s1. unfold when. destruct (0 <? snd (fst Gathered))%nat.
    - intros HG. apply ApplyGroup_log in HG as (Calls & ? & ? & ? & HOf).
      exists Calls. repeat split; try assumption.
      eapply Forall_impl; [| exact HOf].
      intros e (Hg & HKind & HList & HNonEmpty & _).
      split; [exact Hg |]. repeat split; try assumption; [lia |].
      rewrite Hg, Nat.sub_diag. exact HList.
    - intros [= <- <-]. exists []. rewrite app_nil_r.
      repeat split; try constructor. constructor. }
  apply bind_cases in HRun as [([] & s1 & H1 & HRun) | (E & H1 & ->)];
    apply HGroup in H1 as (Calls1 & HLog1 & HSet1 & HSort1 & HOf1).
  2: { exists Calls1. repeat split; try assumption.
       eapply Forall_impl; [| exact HOf1]. now intros e [_ He]. }
  apply IH in HRun as (Calls2 & HLog2 & HSet2 & HSort2 & HOf2);
    [| cbn in Hn; lia].
  exists (Calls1 ++ Calls2).
  split; [rewrite HLog2, HLog1; now rewrite app_assoc |].
  split; [apply Settled_app; [eapply Settled_returns; exact HSet1 | exact HSet2] |].
  split.
  - apply StronglySorted_app; try assumption.
    intros x y Hx Hy. left.
    rewrite Forall_forall in HOf1, HOf2.
    destruct (HOf1 x Hx) as [-> _]. destruct (HOf2 y Hy) as [Hle _]. lia.
  - apply Forall_app. split.
    + eapply Forall_impl; [| exact HOf1]. now intros e [_ He].
    + eapply Forall_impl; [| exact HOf2].
      intros e (Hle & HKind & HList & HNonEmpty).
      repeat split; try assumption; [lia |].
      rewrite HList. do 2 f_equal. rewrite HLeft. fold k.
      rewrite skipn_skipn. f_equal. lia.
Qed.

End ApplyProperties.

Lemma Forall_removelast {A : Type} (P : A -> Prop) (l : list A) :
  Forall P l -> Forall P (removelast l).
Proof.
  induction 1 as [| x l Hx Hl IH]; cbn; [constructor |].
  destruct l; [constructor | now constructor].
Qed.

Section ApplyOrder.
Context `{Externals}.

(** C6.  Take an apply whose parameters do not ask for timestamps only.
    The bulk operations it calls, in the order of the calls, are sorted by
    group and, within a group, by download, remote delete, upload, local
    delete: for one group each of the four is called at most once and in
    that order.  Each call is one of these four, is made for the group that
    begins at the call's index, and is given the list, not empty, that the
    inner loop gathers for that group from the checked items.  All calls but
    the last returned [true]; after a call that did not, and so after one
    that returned [false], no other call is made and the apply raises:
    [EAbort] for a [false], the operation's exception otherwise, unless
    closing the transaction raises an exception of its own. *)
Theorem SynchronizeApply_order (Operations : TBulkOperations)
  (Checklist : list TItem) (ALocalDirectory ARemoteDirectory : string)
  (ACopyParam : TCopyParamType) (AParams : list TSynchronizeParam)
  (OnSync : option TSynchronizeDirectoryEvent) (s s' : TApplyState)
  (r : Outcome unit) :
  FLAGSET AParams spTimestamp = false ->
  SynchronizeApply Operations Checklist ALocalDirectory ARemoteDirectory
    ACopyParam AParams OnSync s = (r, s') ->
  exists Calls,
    ApplyLog s' = ApplyLog s ++ Calls /\
    StronglySorted CallBefore Calls /\
    Forall (OfApply AParams 0%nat Checklist) Calls /\
    Forall Completed (removelast Calls) /\
    forall e, In e Calls -> ~ Completed e ->
      Calls = removelast Calls ++ [e] /\
      exists E, r = Throws E /\
        (E = Raised (Answer e) \/
         exists T, fst (EndTransaction T) = Throws E).
Proof.
  intros HParams HRun. unfold SynchronizeApply in HRun.
  apply bind_cases in HRun as [([] & s1 & HBegin & HRun) | (E & HBegin & _)];
    [| discriminate HBegin].
  injection HBegin as <-. unfold TRY_FINALLY in HRun.
  match type of HRun with
  | context [ApplyGroups ?O ?S ?C ?P ?F ?i ?l ?st] =>
      destruct (ApplyGroups O S C P F i l st) as [rb sb] eqn:HBody
  end.
  apply (ApplyGroups_log _ _ _ _ _ HParams _ _ (Nat.le_refl _)) in HBody
    as (Calls & HLog & HSet & HSort & HOf).
  cbn [ApplyLog] in HLog.
  destruct (EndTransaction (Terminal sb)) as [re T] eqn:HEnd.
  assert (HLog' : ApplyLog s' = ApplyLog s ++ Calls).
  { destruct re; injection HRun as <- <-; exact HLog. }
  exists Calls. split; [exact HLog' |]. split; [exact HSort |].
  split; [exact HOf |]. split.
  - destruct HSet as [HAll | (before & e & -> & HBefore & _)].
    + now apply Forall_removelast.
    + now rewrite removelast_last.
  - intros e HIn He.
    destruct HSet as [HAll | (before & e0 & -> & HBefore & _ & ->)].
    + rewrite Forall_forall in HAll. now destruct He; apply HAll.
    + apply in_app_or in HIn as [HIn | [<- | []]].
      * rewrite Forall_forall in HBefore. now destruct He; apply HBefore.
      * rewrite removelast_last. split; [reflexivity |].
        destruct re as [[] | E]; injection HRun as <- <-.
        -- eexists. split; [reflexivity | now left].
        -- exists E. split; [reflexivity |]. right. exists (Terminal sb).
           now rewrite HEnd.
Qed.

End ApplyOrder.


Example SynchronizeApply_scenario :
  let run :=
    @SynchronizeApply SampleExternals SampleOperations SampleApplyChecklist
      "C:\work" "/home/user" SampleCopyParam [spDelete] None SampleApplyState in
  fst run = Returns tt /\
  CallsOf (snd run) =
    [(0%nat, bkCopyToLocal, ["/home/user/a.txt"]);
     (0%nat, bkDeleteFiles, ["/home/user/c.txt"]);
     (0%nat, bkCopyToRemote, ["C:\work\b.txt"]);
     (0%nat, bkDeleteLocalFiles, ["C:\work\d.txt"]);
     (5%nat, bkCopyToRemote, ["C:\work\sub\e.txt"])] /\
  FInTransaction (Own (Terminal (snd run))) = 0.
Proof. cbv zeta. repeat split. Qed.

Example SynchronizeApply_cancelled :
  let run :=
    @SynchronizeApply SampleExternals (CancelledAt bkDeleteFiles)
      SampleApplyChecklist "C:\work" "/home/user" SampleCopyParam [spDelete]
      None SampleApplyState in
  fst run = Throws EAbort /\
  CallsOf (snd run) =
    [(0%nat, bkCopyToLocal, ["/home/user/a.txt"]);
     (0%nat, bkDeleteFiles, ["/home/user/c.txt"])] /\
  FInTransaction (Own (Terminal (snd run))) = 0.
Proof. cbv zeta. repeat split. Qed.

Example SynchronizeApply_timestamps :
  let run :=
    @SynchronizeApply SampleExternals (CancelledAt bkLocalTimestamps)
      [SampleApplyItem saDownloadUpdate "a.txt" "C:\work" "/home/user" true;
       SampleApplyItem saUploadUpdate "b.txt" "C:\work" "/home/user" true]
      "C:\work" "/home/user" SampleCopyParam [spTimestamp] None
      SampleApplyState in
  fst run = Returns tt /\
  CallsOf (snd run) =
    [(0%nat, bkLocalTimestamps, ["/home/user/a.txt"]);
     (0%nat, bkRemoteTimestamps, ["C:\work\b.txt"])].
Proof. cbv zeta. repeat split. Qed.

Lemma SynchronizeApply_order_witness :
  let run :=
    @SynchronizeApply SampleExternals (CancelledAt bkCopyToRemote)
      SampleApplyChecklist "C:\work" "/home/user" SampleCopyParam [spDelete]
      None SampleApplyState in
  FLAGSET [spDelete] spTimestamp = false /\
  fst run = Throws EAbort /\
  exists Calls,
    ApplyLog (snd run) = [] ++ Calls /\
    StronglySorted CallBefore Calls /\
    Forall Completed (removelast Calls).
Proof.
  intros run. split; [reflexivity |]. split; [reflexivity |].
  destruct (@SynchronizeApply_order SampleExternals (CancelledAt bkCopyToRemote)
              SampleApplyChecklist "C:\work" "/home/user" SampleCopyParam
              [spDelete] None SampleApplyState (snd run) (Throws EAbort))
    as (Calls & HLog & HSort & _ & HDone & _).
  - reflexivity.
  - reflexivity.
  - exists Calls. repeat split; assumption.
Defined.

(** ** Paths of a session locked to its home directory *)

Lemma substring_append_left (a b : string) :
  substring 0 (String.length a) (a ++ b)%string = a.
Proof.
  induction a as [| c a IH]; cbn.
  - destruct b; reflexivity.
  - now rewrite IH.
Qed.

Lemma substring_all (b : string) : substring 0 (String.length b) b = b.
Proof. induction b as [| c b IH]; cbn; [reflexivity | now rewrite IH]. Qed.

Lemma substring_append_right (a b : string) :
  substring (String.length a)
    (String.length (a ++ b)%string - String.length a) (a ++ b)%string = b.
Proof.
  induction a as [| c a IH].
  - cbn [String.length append]. rewrite Nat.sub_0_r. apply substring_all.
  - cbn [String.length append substring]. exact IH.
Qed.

Lemma substring_nothing (n : nat) (s : string) : substring n 0 s = "".
Proof.
  revert n. induction s as [| c s IH]; intros [| n]; cbn; try reflexivity.
  apply IH.
Qed.

Section LockedPathProperties.
Context `{Externals}.

(** X1. Locking a path and unlocking it again gives the path back: in a
    session locked to its home directory, for an absolute path and a lock
    directory that is empty or absolute, [TranslateLockedPath] with
    [Lock = true] undoes [TranslateLockedPath] with [Lock = false], where
    [UnixExcludeTrailingBackslash] leaves the joined path as it is, or the
    path is the root and it takes the slash off the lock directory. *)
Theorem TranslateLockedPath_round_trip (t : TTerminalState) (Path : string) :
  LockInHome (FSessionData t) = true ->
  (exists rest, Path = String "/" rest) ->
  FLockDirectory t = "" \/ (exists rest, FLockDirectory t = String "/" rest) ->
  UnixExcludeTrailingBackslash (FLockDirectory t ++ Path)%string =
    (FLockDirectory t ++ Path)%string \/
  (Path = "/" /\ FLockDirectory t <> "" /\
   UnixExcludeTrailingBackslash (FLockDirectory t ++ Path)%string =
     FLockDirectory t) ->
  TranslateLockedPath t (TranslateLockedPath t Path false) true = Path.
Proof.
  intros HLock [rest ->] HDir HExclude.
  unfold TranslateLockedPath at 2. rewrite HLock. cbn [negb orb].
  cbn [String.eqb]. rewrite Ascii.eqb_refl. cbn [negb orb].
  cbn [String.eqb].
  set (L := FLockDirectory t) in *.
  destruct HExclude as [-> | (HRoot & HNonEmpty & ->)].
  - unfold TranslateLockedPath. rewrite HLock. cbn [negb orb]. fold L.
    assert (HFirst : exists c r, (L ++ String "/" rest)%string = String c r /\
                                 (c =? "/")%char = true).
    { destruct HDir as [-> | [r ->]]; cbn; eexists _, _; split;
        try reflexivity; apply Ascii.eqb_refl. }
    destruct HFirst as (c & r & HEq & Hc).
    rewrite HEq at 1 2. cbn [String.eqb]. rewrite Hc. cbn [negb orb].
    rewrite substring_append_left, String.eqb_refl.
    rewrite substring_append_right. cbn [String.eqb]. reflexivity.
  - injection HRoot as ->.
    unfold TranslateLockedPath. rewrite HLock. cbn [negb orb]. fold L.
    destruct HDir as [HEmpty | [r Hr]]; [contradiction |].
    rewrite Hr at 1 2. cbn [String.eqb]. rewrite Ascii.eqb_refl. cbn [negb orb].
    rewrite substring_all, String.eqb_refl, Nat.sub_diag.
    now rewrite substring_nothing.
Qed.

End LockedPathProperties.

Lemma TranslateLockedPath_round_trip_witness :
  LockInHome (FSessionData SampleLockedState) = true /\
  (exists rest, "/docs/a.txt" = String "/" rest) /\
  @TranslateLockedPath SampleExternals SampleLockedState "/docs/a.txt" false =
    "/home/user/docs/a.txt" /\
  @TranslateLockedPath SampleExternals SampleLockedState
    "/home/user/docs/a.txt" true = "/docs/a.txt".
Proof.
  split; [reflexivity |]. split; [eexists; reflexivity |].
  split; [reflexivity |].
  exact (@TranslateLockedPath_round_trip SampleExternals SampleLockedState
           "/docs/a.txt" eq_refl (ex_intro _ _ eq_refl)
           (or_intror (ex_intro _ _ eq_refl)) (or_introl eq_refl)).
Defined.

(** The root of the locked session is its lock directory. *)
Example TranslateLockedPath_root :
  @TranslateLockedPath SampleExternals SampleLockedState "/" false =
    "/home/user" /\
  @TranslateLockedPath SampleExternals SampleLockedState "/home/user" true =
    "/".
Proof. split; reflexivity. Qed.

(** ** Overwrite confirmations without a prompt *)

Section OverwriteBatchProperties.
Context `{Externals}.

(** With confirmations off the batch mode is never [boNo]. *)
Lemma ApplicableBatchOverwrite_unattended (Config : TConfiguration)
  (FileParams : option TOverwriteFileParams) (Params : list TCopyFlag)
  (P : TFileOperationProgressType) :
  FLAGSET Params cpNoConfirmation || negb (ConfirmOverwriting Config) = true ->
  let B := ApplicableBatchOverwrite Config FileParams Params P in
  B = boAll \/ B = boOlder \/ B = boAppend \/ B = boResume.
Proof.
  intros HOff. unfold ApplicableBatchOverwrite, EffectiveBatchOverwrite.
  rewrite HOff.
  destruct (FLAGSET Params cpResume), (FLAGSET Params cpAppend),
    (FLAGSET Params cpNewerOnly), FileParams as [fp |];
    cbn; try destruct (_ && _); cbn; auto.
Qed.

(** With confirmations off and no flag that asks for another mode, the
    batch mode is [boAll]. *)
Lemma ApplicableBatchOverwrite_all (Config : TConfiguration)
  (FileParams : option TOverwriteFileParams) (Params : list TCopyFlag)
  (P : TFileOperationProgressType) :
  FLAGSET Params cpNoConfirmation || negb (ConfirmOverwriting Config) = true ->
  FLAGSET Params cpResume = false -> FLAGSET Params cpAppend = false ->
  FLAGSET Params cpNewerOnly = false ->
  ApplicableBatchOverwrite Config FileParams Params P = boAll.
Proof.
  intros HOff H1 H2 H3.
  unfold ApplicableBatchOverwrite, EffectiveBatchOverwrite.
  rewrite H1, H2, H3, HOff. rewrite andb_false_r. reflexivity.
Qed.

(** X2. With confirmations switched off, by the flag of the operation or in
    the configuration, [ConfirmFileOverwrite] asks nobody: it returns yes, no
    or retry and leaves the terminal as it is, and it returns yes where the
    operation neither resumes, nor appends, nor takes newer files only. *)
Theorem ConfirmFileOverwrite_unattended (FileName : string)
  (FileParams : option TOverwriteFileParams) (Answers : list TQueryAnswer)
  (QueryParams : option TQueryParams) (Side : TOperationSide)
  (Params : list TCopyFlag) (OperationProgress : TFileOperationProgressType)
  (Message : TMessage) (t : TTerminalState) :
  FLAGSET Params cpNoConfirmation ||
    negb (ConfirmOverwriting (FConfiguration t)) = true ->
  exists Result,
    ConfirmFileOverwrite FileName FileParams Answers QueryParams Side Params
      OperationProgress Message t = (Returns Result, t) /\
    (Result = qaYes \/ Result = qaNo \/ Result = qaRetry) /\
    (FLAGSET Params cpResume = false -> FLAGSET Params cpAppend = false ->
     FLAGSET Params cpNewerOnly = false -> Result = qaYes).
Proof.
  intros HOff.
  pose proof (ApplicableBatchOverwrite_unattended (FConfiguration t) FileParams
                Params OperationProgress HOff) as HB.
  cbv zeta in HB.
  unfold ConfirmFileOverwrite, bind, gets, ret.
  pose proof (ApplicableBatchOverwrite_all (FConfiguration t) FileParams
                Params OperationProgress HOff) as HAll.
  destruct HB as [HB | [HB | [HB | HB]]]; rewrite HB in *; cbn.
  - eexists. split; [reflexivity |]. split; auto.
  - destruct FileParams as [fp |]; [destruct (0 <? _) |];
      eexists; (split; [reflexivity |]); (split; [auto |]);
      intros H1 H2 H3; specialize (HAll H1 H2 H3); discriminate.
  - eexists. split; [reflexivity |]. split; [auto |].
    intros H1 H2 H3; specialize (HAll H1 H2 H3); discriminate.
  - eexists. split; [reflexivity |]. split; [auto |].
    intros H1 H2 H3; specialize (HAll H1 H2 H3); discriminate.
Qed.

(** The flags and members under which the effective mode is [boNo]. *)
Lemma EffectiveBatchOverwrite_asks (Config : TConfiguration)
  (Params : list TCopyFlag) (P : TFileOperationProgressType) :
  EffectiveBatchOverwrite Config Params P true = boNo ->
  FLAGSET Params cpResume = false /\ FLAGSET Params cpAppend = false /\
  FLAGSET Params cpNewerOnly = false /\
  FLAGSET Params cpNoConfirmation = false /\ ConfirmOverwriting Config = true /\
  BatchOverwrite P = boNo.
Proof.
  unfold EffectiveBatchOverwrite.
  destruct (FLAGSET Params cpResume), (FLAGSET Params cpAppend),
    (FLAGSET Params cpNewerOnly), (FLAGSET Params cpNoConfirmation),
    (ConfirmOverwriting Config); cbn; try discriminate.
  intros ->. repeat split.
Qed.



End OverwriteBatchProperties.

Lemma ConfirmFileOverwrite_unattended_witness :
  FLAGSET [cpNoConfirmation] cpNoConfirmation ||
    negb (ConfirmOverwriting (FConfiguration SampleState)) = true /\
  exists Result,
    @ConfirmFileOverwrite SampleExternals "x.txt" (Some SampleOverwrite)
      [qaYes; qaNo] None osRemote [cpNoConfirmation] SampleProgress (Text "")
      SampleState = (Returns Result, SampleState) /\
    Result = qaYes.
Proof.
  split; [reflexivity |].
  destruct (@ConfirmFileOverwrite_unattended SampleExternals "x.txt"
              (Some SampleOverwrite) [qaYes; qaNo] None osRemote
              [cpNoConfirmation] SampleProgress (Text "") SampleState eq_refl)
    as (Result & HRun & _ & HYes).
  exists Result. split; [exact HRun |].
  exact (HYes eq_refl eq_refl eq_refl).
Defined.



(** ** The answers of the retry loop *)

Section RetryLoopAnswers.
Context `{Externals}.

(** X5. What the retry loop makes of the answer of the user, where
    [SkipToAll] does not answer for them: retry makes the loop run again,
    yes ends it, and every other answer raises [EScpSkipFile] where skipping
    is allowed and [ExtException] where it is not, both around the error;
    abort also sets [Cancel] to [csCancel], and only the answer all sets
    [SkipToAll].  The user is asked once. *)
Theorem FileOperationLoopQuery_answers (E : Exception) (Message : TMessage)
  (AllowSkip : bool) (SpecialRetry : string) (P : TFileOperationProgressType)
  (t : TTerminalState) (OnQueryUser : TQueryUserEvent) (Answer : TQueryAnswer) :
  AllowSkip && SkipToAll P = false ->
  FOnQueryUser t = Some OnQueryUser ->
  (forall Q, OnQueryUser (FLog t) Q = Returns Answer) ->
  let run := FileOperationLoopQuery E Message AllowSkip SpecialRetry (P, t) in
  let Raise :=
    if AllowSkip then EScpSkipFile (Some E) Message
    else ExtException (Some E) Message in
  fst run =
    match Answer with
    | qaRetry => Returns false
    | qaYes => Returns true
    | _ => Throws Raise
    end /\
  Cancel (fst (snd run)) =
    match Answer with qaAbort => csCancel | _ => Cancel P end /\
  SkipToAll (fst (snd run)) =
    match Answer with qaAll => true | _ => SkipToAll P end /\
  (exists Q, FLog (snd (snd run)) = FLog t ++ [EvQueryUser Q]).
Proof.
  intros HSkip HCallback HAnswer run Raise. subst run Raise.
  unfold FileOperationLoopQuery, FileOperationLoopAnswer, bind, gets.
  cbn [fst snd]. rewrite HSkip.
  unfold OnTerminal, QueryUserException, QueryUser. cbn [fst snd].
  rewrite HCallback, HAnswer.
  destruct Answer, AllowSkip; cbn; repeat split; eexists; reflexivity.
Qed.

End RetryLoopAnswers.

Lemma FileOperationLoopQuery_answers_witness :
  let t := set_FOnQueryUser SampleState (Some (AlwaysAnswer qaAbort)) in
  let run :=
    @FileOperationLoopQuery SampleExternals (EExternal "no such file")
      (Text "Error deleting file") true "" (SampleAsking, t) in
  true && SkipToAll SampleAsking = false /\
  FOnQueryUser t = Some (AlwaysAnswer qaAbort) /\
  fst run = Throws (EScpSkipFile (Some (EExternal "no such file"))
                      (Text "Error deleting file")) /\
  Cancel (fst (snd run)) = csCancel.
Proof.
  intros t run.
  split; [reflexivity |]. split; [reflexivity |].
  destruct (@FileOperationLoopQuery_answers SampleExternals
              (EExternal "no such file") (Text "Error deleting file") true ""
              SampleAsking t (AlwaysAnswer qaAbort) qaAbort eq_refl eq_refl
              (fun _ => eq_refl)) as (HResult & HCancel & _).
  split; [exact HResult | exact HCancel].
Defined.

(** ** Transactions on closed sessions, with failing reloads, and without
    commands *)

Lemma TTerminal_nested_ind (P : TTerminal -> Prop) :
  (forall own, P (mkTerminal own None)) ->
  (forall own c, P c -> P (mkTerminal own (Some c))) ->
  forall T, P T.
Proof.
  intros HNone HSome. fix IH 1. intros [own [c |]].
  - apply HSome, IH.
  - apply HNone.
Qed.

(** X6. On a session that is not active [EndTransaction] only counts down:
    nothing is read again, and the pending flags stay as they are. *)
Theorem EndTransaction_closed (T : TTerminal) :
  FInTransaction (Own T) <> 0 ->
  GetActive (Own T) = false ->
  Own (snd (EndTransaction T)) =
    set_FInTransaction (Own T) (FInTransaction (Own T) - 1).
Proof.
  intros Hn HClosed. rewrite Own_EndTransaction by exact Hn.
  unfold FlushPendingReloads, bind, gets. cbn [fst snd].
  assert (HA : GetActive
                 (set_FInTransaction (Own T) (FInTransaction (Own T) - 1))
               = false) by (destruct (Own T); exact HClosed).
  now rewrite HA.
Qed.

(** X7. When the reload at the end of the outermost transaction fails,
    [EndTransaction] raises the error of the reload with the terminal's own
    counter at zero and both pending flags cleared, but the transaction of
    the command session is not ended: the command session is as it was. *)
Theorem EndTransaction_reload_fails (T : TTerminal) (E : Exception) :
  FInTransaction (Own T) = 1 ->
  fst (FlushPendingReloads (set_FInTransaction (Own T) 0)) = Throws E ->
  let run := EndTransaction T in
  fst run = Throws E /\
  FInTransaction (Own (snd run)) = 0 /\
  FReadCurrentDirectoryPending (Own (snd run)) = false /\
  FReadDirectoryPending (Own (snd run)) = false /\
  FCommandSession (snd run) = FCommandSession T.
Proof.
  intros Hn HFlush. destruct T as [own cs]. cbn [Own] in *.
  cbn [EndTransaction]. rewrite Hn. cbn [Z.eqb Z.sub Z.add Z.opp Z.pos_sub].
  set (own1 := set_FInTransaction own 0) in *.
  assert (HActive : GetActive own1 = true).
  { destruct (GetActive own1) eqn:HA; [reflexivity |].
    revert HFlush. unfold FlushPendingReloads, bind, gets. cbn [fst snd].
    rewrite HA. discriminate. }
  assert (HCount : FInTransaction own1 = 0) by (destruct own; reflexivity).
  destruct (FlushPendingReloads_outermost own1 HActive HCount)
    as (evs & _ & _ & _ & _ & HCwd & HDir & HZero).
  cbv zeta in HCwd, HDir, HZero.
  destruct (FlushPendingReloads own1) as [r own2].
  cbn [fst snd] in *. subst r. cbn [fst snd Own FCommandSession].
  repeat split; assumption.
Qed.

Lemma FlushPendingReloads_nothing (t : TTerminalState) :
  0 <= FInTransaction t ->
  (FInTransaction t = 0 ->
   FReadCurrentDirectoryPending t = false /\ FReadDirectoryPending t = false) ->
  FlushPendingReloads
    (set_FInTransaction (BeginOwnTransaction t)
       (FInTransaction (BeginOwnTransaction t) - 1)) = (Returns tt, t).
Proof.
  intros Hn HPending. unfold BeginOwnTransaction.
  destruct (FInTransaction t =? 0) eqn:HZero.
  - apply Z.eqb_eq in HZero. destruct (HPending HZero) as [HCwd HDir].
    destruct t as [cfg sd fs op qu n su rc rd ar cd ld lg]. cbn in *. subst.
    unfold FlushPendingReloads, bind, gets, GetActive. cbn.
    destruct fs as [fs |]; [destruct (fsActive fs) |]; reflexivity.
  - apply Z.eqb_neq in HZero.
    destruct t as [cfg sd fs op qu n su rc rd ar cd ld lg]. cbn in *.
    unfold FlushPendingReloads, bind, gets, GetActive. cbn.
    replace (n + 1 - 1) with n by lia.
    destruct (n =? 0) eqn:Hn0; [apply Z.eqb_eq in Hn0; lia |].
    destruct fs as [fs |]; [destruct (fsActive fs) |]; reflexivity.
Qed.

(** X8. A transaction without commands leaves no trace: on a terminal whose
    counters are not negative and on which nothing is pending outside a
    transaction, [BeginTransaction] followed by [EndTransaction] returns and
    gives back the terminal, with its command sessions, exactly as it
    was. *)
Theorem Transaction_round_trip (T : TTerminal) :
  NothingPendingOutside T ->
  EndTransaction (BeginTransaction T) = (Returns tt, T).
Proof.
  induction T as [own | own c IH] using TTerminal_nested_ind;
    cbn [NothingPendingOutside]; intros (Hn & HPending & HSession);
    cbn [BeginTransaction EndTransaction].
  - assert (HPos : (FInTransaction (BeginOwnTransaction own) =? 0) = false).
    { apply Z.eqb_neq. unfold BeginOwnTransaction.
      destruct (FInTransaction own =? 0) eqn:HZ; destruct own; cbn in *; lia. }
    rewrite HPos, (FlushPendingReloads_nothing own Hn HPending). reflexivity.
  - assert (HPos : (FInTransaction (BeginOwnTransaction own) =? 0) = false).
    { apply Z.eqb_neq. unfold BeginOwnTransaction.
      destruct (FInTransaction own =? 0) eqn:HZ; destruct own; cbn in *; lia. }
    rewrite HPos, (FlushPendingReloads_nothing own Hn HPending).
    rewrite (IH HSession). reflexivity.
Qed.

Lemma EndTransaction_closed_witness :
  let T := mkTerminal (SamplePending None) None in
  FInTransaction (Own T) <> 0 /\
  GetActive (Own T) = false /\
  Own (snd (EndTransaction T)) = set_FInTransaction (SamplePending None) 0.
Proof.
  intros T.
  assert (Hn : FInTransaction (Own T) <> 0) by discriminate.
  split; [exact Hn |]. split; [reflexivity |].
  exact (EndTransaction_closed T Hn eq_refl).
Defined.

Lemma EndTransaction_reload_fails_witness :
  let T :=
    mkTerminal (SamplePending (Some SampleFailingFileSystem))
      (Some (mkTerminal (SamplePending (Some SampleFileSystem)) None)) in
  FInTransaction (Own T) = 1 /\
  fst (EndTransaction T) = Throws (EExternal "listing failed") /\
  FCommandSession (snd (EndTransaction T)) =
    Some (mkTerminal (SamplePending (Some SampleFileSystem)) None).
Proof.
  intros T. split; [reflexivity |].
  destruct (EndTransaction_reload_fails T (EExternal "listing failed")
              eq_refl eq_refl) as (HResult & _ & _ & _ & HSession).
  split; [exact HResult | exact HSession].
Defined.

Lemma Transaction_round_trip_witness :
  NothingPendingOutside SampleTerminal /\
  EndTransaction (BeginTransaction SampleTerminal) =
    (Returns tt, SampleTerminal).
Proof.
  assert (H : NothingPendingOutside SampleTerminal).
  { cbn. repeat split; lia. }
  split; [exact H |].
  exact (Transaction_round_trip SampleTerminal H).
Defined.

(** ** A tunnel is opened completely or not at all *)

(** The choice of the port writes the port number only, and leaves it zero
    where it fails. *)
Lemma SelectTunnelPort_members (Host : TTunnelHost) (t : TTunnelMembers) :
  let run := SelectTunnelPort Host t in
  FTunnelData (snd run) = FTunnelData t /\
  FTunnel (snd run) = FTunnel t /\
  FTunnelThread (snd run) = FTunnelThread t /\
  FTunnelOpening (snd run) = FTunnelOpening t /\
  FTunnelLog (snd run) = FTunnelLog t /\
  tnSessionData (snd run) = tnSessionData t /\
  (forall E, fst run = Throws E -> FTunnelLocalPortNumber (snd run) = 0).
Proof.
  unfold SelectTunnelPort, bind, modify, gets. cbn [fst snd].
  destruct t as [cfg sd port data tn op th err guard log].
  cbn [FTunnelLocalPortNumber set_FTunnelLocalPortNumber tnSessionData
       tnConfiguration].
  destruct (TunnelLocalPortNumber sd =? 0); cbn [fst snd].
  - destruct (ScanTunnelPort _ _ _) as [p |]; cbn.
    + repeat split. discriminate.
    + unfold FatalError. cbn. destruct guard; cbn; repeat split.
  - cbn. repeat split. discriminate.
Qed.

(** X9. [OpenTunnel] opens the tunnel completely or not at all: from a
    terminal without a tunnel, either it returns with the tunnel shell, its
    thread and the session data of the tunnel for the chosen port in place,
    or it raises with none of them in place and the local port number back
    at zero; the mark of a tunnel being opened is cleared either way. *)
Theorem OpenTunnel_all_or_nothing (Host : TTunnelHost) (t : TTunnelMembers) :
  FTunnelData t = None -> FTunnel t = false -> FTunnelThread t = false ->
  FTunnelOpening t = false ->
  let run := OpenTunnel Host t in
  FTunnelOpening (snd run) = false /\
  match fst run with
  | Returns _ =>
      FTunnel (snd run) = true /\ FTunnelThread (snd run) = true /\
      FTunnelData (snd run) =
        Some (MakeTunnelData Host (tnSessionData t)
                (FTunnelLocalPortNumber (snd run)))
  | Throws _ =>
      FTunnel (snd run) = false /\ FTunnelThread (snd run) = false /\
      FTunnelData (snd run) = None /\ FTunnelLocalPortNumber (snd run) = 0
  end.
Proof.
  intros HData HTunnel HThread HOpening.
  pose proof (SelectTunnelPort_members Host t) as HSel. cbv zeta in HSel.
  unfold OpenTunnel, bind.
  destruct (SelectTunnelPort Host t) as [[[] | E] t1]; cbn [fst snd] in *;
    destruct HSel as (HD & HT & HTh & HO & _ & HSd & HPort).
  - unfold TRY_CATCH_RETHROW, TRY_FINALLY, OpenTunnelShell, CloseTunnel, bind,
      modify.
    destruct t1 as [cfg sd port data tn op th err guard log]. cbn in *.
    destruct (TunnelOpens Host _); cbn; repeat split.
    now rewrite HSd.
  - rewrite HD, HT, HTh, HO. repeat split; try assumption.
    apply (HPort E). reflexivity.
Qed.

Lemma OpenTunnel_all_or_nothing_witness :
  let run := OpenTunnel SampleTunnelHost SampleTunnelMembers in
  FTunnelData SampleTunnelMembers = None /\
  FTunnel SampleTunnelMembers = false /\
  fst run = Returns tt /\
  FTunnelOpening (snd run) = false /\
  FTunnel (snd run) = true /\
  FTunnelLocalPortNumber (snd run) = 50002.
Proof.
  intros run.
  split; [reflexivity |]. split; [reflexivity |]. split; [reflexivity |].
  pose proof (OpenTunnel_all_or_nothing SampleTunnelHost SampleTunnelMembers
                eq_refl eq_refl eq_refl eq_refl) as (HOpening & HDone).
  split; [exact HOpening |]. split; [exact (proj1 HDone) | reflexivity].
Defined.

(** Where the tunnel shell fails to open, nothing of the tunnel is left. *)
Example OpenTunnel_fails_clean :
  let Host :=
    {| SocketCreated := true;
       BindLoopback := fun _ => true;
       TunnelOpens := fun _ => Some (EExternal "refused");
       LastTunnelError := "refused";
       DefaultSettings := SampleSessionData |} in
  let run := OpenTunnel Host SampleTunnelMembers in
  (exists E, fst run = Throws E) /\
  FTunnel (snd run) = false /\ FTunnelData (snd run) = None /\
  FTunnelLocalPortNumber (snd run) = 0.
Proof. cbn. repeat split. eexists; reflexivity. Qed.

(** ** What the collect phase plans *)

Section PlanProperties.
Context `{Externals}.
Variable AMode : TSynchronizeMode.
Variable AParams : list TSynchronizeParam.


Lemma KeepsChecklist_ret : KeepsChecklist AMode AParams (ret tt).
Proof. intros Checklist HC. exact HC. Qed.

Lemma KeepsChecklist_bind (c : Exec (list TItem) unit)
  (k : unit -> Exec (list TItem) unit) :
  KeepsChecklist AMode AParams c ->
  (forall a, KeepsChecklist AMode AParams (k a)) ->
  KeepsChecklist AMode AParams (bind c k).
Proof.
  intros Hc Hk Checklist HC. unfold bind. specialize (Hc Checklist HC).
  destruct (c Checklist) as [[a | E] Checklist1]; cbn in *;
    [apply Hk |]; exact Hc.
Qed.

Lemma KeepsChecklist_progress (Data : TSynchronizeData) (b Collect : bool) :
  KeepsChecklist AMode AParams (when b (DoSynchronizeProgress Data Collect)).
Proof.
  intros Checklist HC. unfold when, DoSynchronizeProgress.
  destruct b; [| exact HC].
  destruct (OnSynchronizeDirectory Data) as [Event |];
    [destruct (Event _ _ _) |]; exact HC.
Qed.

(** The item of a remote file is planned by the mode and the parameters. *)
Lemma AddRemoteItem_planned (Data : TSynchronizeData) (File : TRemoteFile)
  (Item : TItem) (IsNew IsModified : bool) :
  Mode Data = AMode -> Params Data = AParams ->
  Action Item = saNone ->
  (IsModified = true -> IsDirectory Item = false) ->
  KeepsChecklist AMode AParams (AddRemoteItem Data File Item IsNew IsModified).
Proof.
  intros <- <- HNone HFile Checklist HC. unfold AddRemoteItem.
  destruct (IsNew || IsModified); [| exact HC].
  assert (HAdd : forall A,
    A <> saNone ->
    (FLAGSET (Params Data) spTimestamp = true -> IsUpdate A = true) ->
    (Mode Data = smBoth -> IsDeletion A = false) ->
    (IsDirectory Item = true -> IsUpdate A = false) ->
    Forall (Planned (Mode Data) (Params Data))
      (Checklist ++
       [WithRemoteFile
          (WithAction Item A
             (CheckedUnless (Params Data) (Wanted (Params Data) A)
                (IsDirectory Item))) File])).
  { intros A H1 H2 H3 H4. apply Forall_app. split; [exact HC |].
    constructor; [| constructor]. constructor; cbn; auto. }
  destruct (Mode Data) eqn:HMode; cbn [TSynchronizeMode_beq orb andb].
  - (* smRemote *)
    destruct IsNew; cbn [andb]; [| rewrite HNone; exact HC].
    destruct (FLAGCLEAR (Params Data) spTimestamp) eqn:HTs;
      [| rewrite HNone; exact HC].
    cbn. apply (HAdd saDeleteRemote); try discriminate.
    + unfold FLAGCLEAR in HTs. intros HSet. rewrite HSet in HTs. discriminate.
    + reflexivity.
  - (* smLocal *)
    destruct (FLAGCLEAR (Params Data) spTimestamp || IsModified) eqn:HCond;
      [| rewrite HNone; exact HC].
    destruct IsModified; cbn.
    + apply (HAdd saDownloadUpdate); try discriminate; try reflexivity.
      intros HDir. rewrite HFile in HDir by reflexivity. discriminate.
    + rewrite orb_false_r in HCond.
      apply (HAdd saDownloadNew); try discriminate; try reflexivity.
      unfold FLAGCLEAR in HCond. intros HSet. rewrite HSet in HCond.
      discriminate.
  - (* smBoth *)
    destruct (FLAGCLEAR (Params Data) spTimestamp || IsModified) eqn:HCond;
      [| rewrite HNone; exact HC].
    destruct IsModified; cbn.
    + apply (HAdd saDownloadUpdate); try discriminate; try reflexivity.
      intros HDir. rewrite HFile in HDir by reflexivity. discriminate.
    + rewrite orb_false_r in HCond.
      apply (HAdd saDownloadNew); try discriminate; try reflexivity.
      unfold FLAGCLEAR in HCond. intros HSet. rewrite HSet in HCond.
      discriminate.
Qed.

(** So is the item of a local file. *)
Lemma LocalItem_planned (Data : TSynchronizeData)
  (FileData : TSynchronizeFileData) (Item : TItem) :
  Mode Data = AMode -> Params Data = AParams ->
  MatchedIsFile FileData ->
  LocalItem Data FileData = Some Item -> Planned AMode AParams Item.
Proof.
  intros <- <- HFile. unfold LocalItem, MatchedIsFile in *.
  destruct (Mode Data) eqn:HMode; cbn [TSynchronizeMode_beq orb andb];
    rewrite ?andb_true_r, ?andb_false_r, ?orb_false_r.
  - (* smRemote *)
    destruct (Modified FileData) eqn:HMod; cbn [orb andb].
    + intros [= <-]. constructor; cbn; try discriminate; try reflexivity.
      intros HDir. rewrite HFile in HDir by reflexivity. discriminate.
    + destruct (New FileData && FLAGCLEAR (Params Data) spTimestamp) eqn:HNew;
        [| discriminate].
      intros [= <-]. constructor; cbn; try discriminate; try reflexivity.
      apply andb_prop in HNew as [_ HTs]. unfold FLAGCLEAR in HTs.
      intros HSet. rewrite HSet in HTs. discriminate.
  - (* smLocal *)
    cbn. destruct (New FileData); [| discriminate].
    destruct (FLAGCLEAR (Params Data) spTimestamp) eqn:HTs; cbn;
      [| discriminate].
    intros [= <-]. constructor; cbn; try discriminate; try reflexivity.
    unfold FLAGCLEAR in HTs. intros HSet. rewrite HSet in HTs. discriminate.
  - (* smBoth *)
    destruct (Modified FileData) eqn:HMod; cbn [orb andb].
    + intros [= <-]. constructor; cbn; try discriminate; try reflexivity.
      intros HDir. rewrite HFile in HDir by reflexivity. discriminate.
    + destruct (New FileData && FLAGCLEAR (Params Data) spTimestamp) eqn:HNew;
        [| discriminate].
      intros [= <-]. constructor; cbn; try discriminate; try reflexivity.
      apply andb_prop in HNew as [_ HTs]. unfold FLAGCLEAR in HTs.
      intros HSet. rewrite HSet in HTs. discriminate.
Qed.


Lemma AddLocalItems_planned (Data : TSynchronizeData) (List : TLocalFileList) :
  Mode Data = AMode -> Params Data = AParams ->
  Forall (fun e => MatchedIsFile (snd e)) List ->
  Forall (Planned AMode AParams) (AddLocalItems Data List).
Proof.
  intros HMode HParams.
  induction 1 as [| [Name FileData] rest HFile _ IH]; cbn; [constructor |].
  destruct (LocalItem Data FileData) as [Item |] eqn:HItem; [| exact IH].
  constructor; [| exact IH].
  eapply LocalItem_planned; eassumption.
Qed.

Lemma CollectLocalFiles_unmatched (Host : TCollectHost)
  (Data : TSynchronizeData) (Found : list TLocalEntry) :
  Forall (fun e => MatchedIsFile (snd e)) (CollectLocalFiles Host Data Found).
Proof.
  induction Found as [| [SearchRec Entries] rest IH]; cbn; [constructor |].
  destruct (LocalFileTakesPart Host Data SearchRec); [| exact IH].
  constructor; [| exact IH]. intros HMod. discriminate HMod.
Qed.

(** An assignment through the list keeps what the assigned value keeps. *)
Lemma UpdateLocal_Forall (R : TSynchronizeFileData -> Prop) (Name : string)
  (f : TSynchronizeFileData -> TSynchronizeFileData) (List : TLocalFileList) :
  Forall (fun e => R (snd e)) List ->
  (forall d, LookupLocal Name List = Some d -> R d -> R (f d)) ->
  Forall (fun e => R (snd e)) (UpdateLocal Name f List).
Proof.
  induction 1 as [| [N d] rest Hd Hrest IH]; cbn; [constructor |].
  intros Hf. destruct (SameText Name N).
  - constructor; [apply Hf; [reflexivity | exact Hd] | exact Hrest].
  - constructor; [exact Hd | apply IH, Hf].
Qed.

Lemma LookupLocal_UpdateLocal (Name : string)
  (f : TSynchronizeFileData -> TSynchronizeFileData) (List : TLocalFileList) :
  LookupLocal Name (UpdateLocal Name f List) =
  option_map f (LookupLocal Name List).
Proof.
  induction List as [| [N d] rest IH]; cbn; [reflexivity |].
  destruct (SameText Name N) eqn:HSame; cbn; rewrite HSame; [reflexivity |].
  exact IH.
Qed.

Lemma ProcessListedFiles_planned (CollectFile : TCollectFile)
  (Data : TSynchronizeData) (Files : list TRemoteEntry) :
  Forall (fun Entry => forall List,
            Forall (fun e => MatchedIsFile (snd e)) List ->
            KeepsPlanned AMode AParams (CollectFile Entry Data List)) Files ->
  forall List,
    Forall (fun e => MatchedIsFile (snd e)) List ->
    KeepsPlanned AMode AParams (ProcessListedFiles CollectFile Data Files List).
Proof.
  induction 1 as [| Entry rest HEntry _ IH]; intros List HList; cbn.
  - intros Checklist HC. cbn. split; [exact HC |].
    intros List' [= <-]. exact HList.
  - destruct (negb _ && negb _); [| apply IH, HList].
    intros Checklist HC. unfold bind.
    destruct (HEntry List HList Checklist HC) as [HC1 HL1].
    destruct (CollectFile Entry Data List Checklist)
      as [[List1 | E] Checklist1];
      cbn [fst snd] in *.
    + apply IH; [apply HL1; reflexivity | exact HC1].
    + split; [exact HC1 | discriminate].
Qed.

Lemma DoSynchronizeCollectDirectoryWith_planned (Host : TCollectHost)
  (CollectFile : TCollectFile) (LocalDirectory RemoteDirectory : string)
  (CopyParam : TCopyParamType)
  (OnSynchronizeDirectory : option TSynchronizeDirectoryEvent)
  (Options : option TSynchronizeOptions) (Flags : list TSynchronizeFlag)
  (Found : list TLocalEntry) (Listing : TListing TRemoteEntry) :
  (forall Files, Listing = Listed Files ->
     Forall (fun Entry => forall Data List,
               Mode Data = AMode -> Params Data = AParams ->
               Forall (fun e => MatchedIsFile (snd e)) List ->
               KeepsPlanned AMode AParams (CollectFile Entry Data List))
       Files) ->
  KeepsChecklist AMode AParams
    (DoSynchronizeCollectDirectoryWith Host CollectFile LocalDirectory
       RemoteDirectory AMode CopyParam AParams OnSynchronizeDirectory Options
       Flags Found Listing).
Proof.
  intros HFiles. unfold DoSynchronizeCollectDirectoryWith.
  apply KeepsChecklist_bind; [apply KeepsChecklist_progress |].
  intros _. destruct Found as [| First Found]; [apply KeepsChecklist_ret |].
  apply KeepsChecklist_bind; [apply KeepsChecklist_progress |].
  intros _ Checklist HC. unfold bind. cbv zeta.
  match goal with
  | |- Forall _ (snd (let (_, _) := ?c Checklist in _)) =>
      assert (HRun : KeepsPlanned AMode AParams c)
  end.
  { match goal with
    | |- context [CollectLocalFiles Host ?D ?F] =>
        pose proof (CollectLocalFiles_unmatched Host D F) as HList0
    end.
    destruct Listing as [Files | | E].
    - apply ProcessListedFiles_planned; [| exact HList0].
      eapply Forall_impl; [| apply (HFiles Files eq_refl)].
      cbn. intros Entry HEntry List HList. apply HEntry; auto.
    - intros C HCk. unfold ret. cbn [fst snd]. split; [exact HCk |].
      intros L HL. injection HL as <-. exact HList0.
    - intros C HCk. cbn. split; [exact HCk | discriminate]. }
  specialize (HRun Checklist HC). cbv beta in HRun.
  destruct HRun as [HC1 HL1].
  match goal with
  | |- Forall _ (snd (let (_, _) := ?r in _)) =>
      destruct r as [[List1 | E] Checklist1]
  end; cbn [fst snd] in *; [| exact HC1].
  cbn. apply Forall_app. split; [exact HC1 |].
  apply AddLocalItems_planned; try reflexivity. apply HL1. reflexivity.
Qed.

(** Whatever the trees, [SynchronizeCollectFile] keeps the checklist
    planned. *)
Lemma SynchronizeCollectFile_planned (Host : TCollectHost)
  (Entry : TRemoteEntry) :
  forall Data List,
    Mode Data = AMode -> Params Data = AParams ->
    Forall (fun e => MatchedIsFile (snd e)) List ->
    KeepsPlanned AMode AParams (SynchronizeCollectFile Host Entry Data List).
Proof.
  induction Entry as [File Listing IH] using TRemoteEntry_nested_ind.
  intros Data List HMode HParams HList. cbn [SynchronizeCollectFile].
  assert (HKeep : forall L, Forall (fun e => MatchedIsFile (snd e)) L ->
            KeepsPlanned AMode AParams (ret L)).
  { intros L HL C HCk. cbn. split; [exact HCk |]. now intros ? [= <-]. }
  assert (HThen : forall (c : Exec (list TItem) unit) L,
            KeepsChecklist AMode AParams c ->
            Forall (fun e => MatchedIsFile (snd e)) L ->
            KeepsPlanned AMode AParams (c ;; ret L)).
  { intros c L Hc HL C HCk. unfold bind. specialize (Hc C HCk).
    destruct (c C) as [[[] | E] C1]; cbn in *.
    - split; [exact Hc |]. now intros ? [= <-].
    - split; [exact Hc | discriminate]. }
  destruct (RemoteFileTakesPart Host Data File); [| apply HKeep, HList].
  destruct (LookupLocal _ List) as [LocalData |] eqn:HLookup.
  - assert (HCleared : Forall (fun e => MatchedIsFile (snd e))
              (UpdateLocal
                 (ChangeFileName (CopyParam Data) (GetFileName File) osRemote
                    false) ClearNew List)).
    { apply UpdateLocal_Forall; [exact HList |]. intros d _ Hd. exact Hd. }
    destruct (negb (Bool.eqb _ _)) eqn:HSame; [apply HKeep, HCleared |].
    destruct (negb (GetIsDirectory File)) eqn:HDir.
    + destruct (CompareSides _ _ _) as [IsModified LocalModified].
      apply HThen.
      * apply AddRemoteItem_planned; try assumption; try reflexivity.
        intros _. cbn. now destruct (GetIsDirectory File).
      * destruct LocalModified; [| exact HCleared].
        apply UpdateLocal_Forall; [exact HCleared |].
        intros d Hd _ _. cbn.
        rewrite LookupLocal_UpdateLocal, HLookup in Hd. cbn in Hd.
        injection Hd as <-. cbn.
        apply negb_false_iff, Bool.eqb_prop in HSame. rewrite <- HSame.
        now destruct (GetIsDirectory File).
    + destruct (FLAGCLEAR (Params Data) spNoRecurse); [| apply HKeep, HCleared].
      apply HThen; [| exact HCleared].
      rewrite HMode, HParams.
      apply DoSynchronizeCollectDirectoryWith_planned.
      intros Files HFiles. specialize (IH Files HFiles).
      eapply Forall_impl; [| exact IH].
      cbn. intros Entry HEntry Data' List' HM HP HL. now apply HEntry.
  - apply HThen; [| exact HList].
    apply AddRemoteItem_planned; try assumption; try reflexivity.
    discriminate.
Qed.

(** Every item of the checklist that [SynchronizeCollect] returns is
    planned by the mode and the parameters. *)
Lemma SynchronizeCollect_planned (Host : TCollectHost)
  (LocalDirectory RemoteDirectory : string) (CopyParam : TCopyParamType)
  (OnSynchronizeDirectory : option TSynchronizeDirectoryEvent)
  (Options : option TSynchronizeOptions) (Found : list TLocalEntry)
  (Listing : TListing TRemoteEntry) (Checklist : list TItem) :
  (forall l, Permutation l (ListSort TItem Compare l)) ->
  SynchronizeCollect Host LocalDirectory RemoteDirectory AMode CopyParam
    AParams OnSynchronizeDirectory Options Found Listing = Returns Checklist ->
  Forall (Planned AMode AParams) Checklist.
Proof.
  intros HSort HRun. unfold SynchronizeCollect in HRun.
  pose proof (DoSynchronizeCollectDirectoryWith_planned Host
                (SynchronizeCollectFile Host) LocalDirectory RemoteDirectory
                CopyParam OnSynchronizeDirectory Options [sfFirstLevel] Found
                Listing) as HKeeps.
  fold (DoSynchronizeCollectDirectory Host) in HKeeps.
  specialize (HKeeps ltac:(
    intros Files _; apply Forall_forall; intros Entry _ Data List HM HP HL;
    now apply SynchronizeCollectFile_planned) [] (Forall_nil _)).
  destruct (DoSynchronizeCollectDirectory _ _ _ _ _ _ _ _ _ _ _ _)
    as [[[] | E] Collected]; [| discriminate].
  injection HRun as <-. cbn in HKeeps.
  rewrite Forall_forall in *. intros Item HIn. apply HKeeps.
  eapply Permutation_in; [apply Permutation_sym, HSort | exact HIn].
Qed.




End PlanProperties.

Section BothProperties.
Context `{Externals}.


End BothProperties.


(** In mode remote, with deletions asked for and existing files only: the
    file that is only remote is deleted, and the upload of the file that is
    only local is listed but not checked. *)
Example SynchronizeCollect_checked_scenario :
  option_map (map (fun Item => (Action Item, Checked Item)))
    (match @SynchronizeCollect SampleExternals SampleCollectHost "C:\work"
             "/home/user" smRemote SampleCopyParam [spDelete; spExistingOnly]
             None None
             (SampleDots ++ [SampleLocalFile "old.txt" 10 SampleT])
             (Listed [SampleRemoteFile "new.txt" 20 SampleT]) with
     | Returns l => Some l
     | Throws _ => None
     end) = Some [(saDeleteRemote, true); (saUploadNew, false)].
Proof. reflexivity. Qed.


(** With timestamps only, of a file on both sides and one file on each
    side alone, the file on both sides is the only one planned. *)
Example SynchronizeCollect_timestamp_scenario :
  option_map (map (fun Item => (Action Item, ItemFileName Item)))
    (match @SynchronizeCollect SampleExternals SampleCollectHost "C:\work"
             "/home/user" smBoth SampleCopyParam [spTimestamp] None None
             (SampleDots ++ [SampleLocalFile "c.txt" 10 SampleT;
                             SampleLocalFile "old.txt" 10 SampleT])
             (Listed [SampleRemoteFile "c.txt" 10 SampleNewer;
                      SampleRemoteFile "new.txt" 20 SampleT]) with
     | Returns l => Some l
     | Throws _ => None
     end) = Some [(saDownloadUpdate, "c.txt")].
Proof. reflexivity. Qed.


(** A directory that is only local is uploaded as a new one. *)
Example SynchronizeCollect_directory_scenario :
  option_map (map (fun Item => (Action Item, IsDirectory Item)))
    (match @SynchronizeCollect SampleExternals SampleCollectHost "C:\work"
             "/home/user" smRemote SampleCopyParam [spDelete] None None
             (SampleDots ++ [SampleLocalDirectory "sub";
                             SampleLocalFile "old.txt" 10 SampleT])
             (Listed [SampleRemoteFile "new.txt" 20 SampleT]) with
     | Returns l => Some l
     | Throws _ => None
     end) = Some [(saDeleteRemote, false); (saUploadNew, false);
                  (saUploadNew, true)].
Proof. reflexivity. Qed.


(** In mode both, even with deletions asked for, the file of each side is
    copied to the other. *)
Example SynchronizeCollect_both_scenario :
  option_map (map Action)
    (match @SynchronizeCollect SampleExternals SampleCollectHost "C:\work"
             "/home/user" smBoth SampleCopyParam [spDelete] None None
             (SampleDots ++ [SampleLocalFile "old.txt" 10 SampleT])
             (Listed [SampleRemoteFile "new.txt" 20 SampleT]) with
     | Returns l => Some l
     | Throws _ => None
     end) = Some [saDownloadNew; saUploadNew].
Proof. reflexivity. Qed.

(** ** What the apply phase hands to the bulk operations *)

Section BucketProperties.
Context `{Externals}.
Variable AParams : list TSynchronizeParam.
Hypothesis HParams : FLAGSET AParams spTimestamp = false.

Lemma AddToLists_bucket (K : TBulkKind) (Item : TItem) (L : TApplyLists) :
  TransfersOrDeletes K = true ->
  BucketOf K (AddToLists AParams Item L) =
  BucketOf K L ++
  (if ListedIn K (Action Item) then [BulkEntryOf K Item] else []).
Proof.
  intros HK. unfold AddToLists. rewrite HParams.
  destruct K; try discriminate HK; destruct (Action Item); cbn;
    rewrite ?app_nil_r; reflexivity.
Qed.

Lemma GatherGroup_buckets (l r : string) (Items : list TItem) :
  forall (L : TApplyLists) (c : nat),
  let G := GatherGroup AParams l r Items L c in
  (forall K, TransfersOrDeletes K = true ->
     BucketOf K (fst (fst G)) =
     BucketOf K L ++
     map (BulkEntryOf K) (CheckedFor K (SameDirectories l r Items))) /\
  snd (fst G) =
    (c + List.length (filter Checked (SameDirectories l r Items)))%nat /\
  Items = SameDirectories l r Items ++ snd G.
Proof.
  induction Items as [| Item rest IH]; intros L c; cbn.
  - split; [| split]; [| lia | reflexivity].
    intros K _. now rewrite app_nil_r.
  - destruct (InGroup l r Item); cbn.
    2: { split; [| split]; [| lia | reflexivity].
         intros K _. now rewrite app_nil_r. }
    destruct (Checked Item) eqn:HChecked; cbn.
    + destruct (IH (AddToLists AParams Item L) (S c)) as (HB & HC & HI).
      split; [| split].
      * intros K HK. rewrite (HB K HK), (AddToLists_bucket K Item L HK).
        rewrite <- app_assoc. f_equal. unfold CheckedFor. cbn.
        rewrite ?HChecked. cbn.
        destruct (ListedIn K (Action Item)); reflexivity.
      * rewrite HC. lia.
      * f_equal. exact HI.
    + destruct (IH L c) as (HB & HC & HI).
      split; [| split].
      * intros K HK. rewrite (HB K HK). unfold CheckedFor. cbn.
        rewrite ?HChecked. reflexivity.
      * exact HC.
      * f_equal. exact HI.
Qed.

End BucketProperties.

Section GatherPartition.
Context `{Externals}.

(** The lists of a group that starts from cleared lists. *)
Lemma GatherGroup_cleared (AParams : list TSynchronizeParam)
  (CurrentLocalDirectory CurrentRemoteDirectory : string)
  (Items : list TItem) :
  FLAGSET AParams spTimestamp = false ->
  let Gathered :=
    GatherGroup AParams CurrentLocalDirectory CurrentRemoteDirectory Items
      ClearedLists 0 in
  let Same :=
    SameDirectories CurrentLocalDirectory CurrentRemoteDirectory Items in
  (forall K, TransfersOrDeletes K = true ->
     BucketOf K (fst (fst Gathered)) =
       map (BulkEntryOf K) (CheckedFor K Same)) /\
  snd (fst Gathered) = List.length (filter Checked Same) /\
  Items = Same ++ snd Gathered.
Proof.
  intros HParams Gathered Same.
  destruct (GatherGroup_buckets AParams HParams CurrentLocalDirectory
              CurrentRemoteDirectory Items ClearedLists 0) as (HB & HC & HI).
  split; [| split]; [| exact HC | exact HI].
  intros K HK. subst Gathered Same. rewrite (HB K HK).
  destruct K; reflexivity.
Qed.

(** X14. Outside the mode of timestamps the inner loop of
    [SynchronizeApply] sorts a group into its four lists without loss: the
    group is the longest run of items at the head of the list that share
    both directories, each list holds, in the order of the checklist, the
    names of the checked items of the group that its bulk operation carries
    out, the count is that of the checked items, and the items after the
    group are left for the next turn. *)
Theorem GatherGroup_partition (AParams : list TSynchronizeParam)
  (CurrentLocalDirectory CurrentRemoteDirectory : string)
  (Items : list TItem) :
  FLAGSET AParams spTimestamp = false ->
  let Gathered :=
    GatherGroup AParams CurrentLocalDirectory CurrentRemoteDirectory Items
      ClearedLists 0 in
  let Same :=
    SameDirectories CurrentLocalDirectory CurrentRemoteDirectory Items in
  (forall K, TransfersOrDeletes K = true ->
     BucketOf K (fst (fst Gathered)) =
       map (BulkEntryOf K) (CheckedFor K Same)) /\
  snd (fst Gathered) = List.length (filter Checked Same) /\
  Items = Same ++ snd Gathered.
Proof.
  intros HParams Gathered Same.
  exact (GatherGroup_cleared AParams CurrentLocalDirectory
           CurrentRemoteDirectory Items HParams).
Qed.

End GatherPartition.

Section ApplyCoverage.
Context `{Externals}.

Lemma SameDirectories_incl (l r : string) (Items : list TItem) (Item : TItem) :
  In Item (SameDirectories l r Items) -> In Item Items.
Proof.
  induction Items as [| First rest IH]; cbn; [auto |].
  destruct (InGroup l r First); cbn; [| contradiction].
  intros [-> | HIn]; auto.
Qed.

Lemma In_skipn {A : Type} (n : nat) (l : list A) (x : A) :
  In x (skipn n l) -> In x l.
Proof.
  revert l. induction n as [| n IH]; intros [| y l]; cbn; auto.
Qed.

(** The body of the [try] of [SynchronizeApply] and what the [finally]
    leaves of it. *)
Lemma SynchronizeApply_body (Operations : TBulkOperations)
  (Checklist : list TItem) (ALocalDirectory ARemoteDirectory : string)
  (ACopyParam : TCopyParamType) (AParams : list TSynchronizeParam)
  (OnSync : option TSynchronizeDirectoryEvent) (s s' : TApplyState)
  (r : Outcome unit) :
  SynchronizeApply Operations Checklist ALocalDirectory ARemoteDirectory
    ACopyParam AParams OnSync s = (r, s') ->
  exists SyncCopyParam CopyParams rb sb,
    ApplyGroups Operations OnSync SyncCopyParam AParams CopyParams 0 Checklist
      {| Terminal := BeginTransaction (Terminal s); ApplyLog := ApplyLog s |}
      = (rb, sb) /\
    ApplyLog s' = ApplyLog sb /\
    (forall a, r = Returns a -> rb = Returns a).
Proof.
  intros HRun. unfold SynchronizeApply in HRun.
  apply bind_cases in HRun as [([] & s1 & HBegin & HRun) | (E & HBegin & _)];
    [| discriminate HBegin].
  injection HBegin as <-. unfold TRY_FINALLY in HRun.
  match type of HRun with
  | context [ApplyGroups ?O ?S ?C ?P ?F ?i ?l ?st] =>
      exists C, F; destruct (ApplyGroups O S C P F i l st) as [rb sb] eqn:HBody
  end.
  exists rb, sb. split; [reflexivity |].
  destruct (EndTransaction (Terminal sb)) as [[[] | E] T];
    injection HRun as <- <-; cbn; split; try reflexivity.
  - auto.
  - discriminate.
Qed.

(** X15. Outside the mode of timestamps [SynchronizeApply] hands the bulk
    operations nothing that the checklist does not ask for: every name in
    the list of every call is that of a checked item of the checklist whose
    action the operation of the call carries out, with the remote file of
    the item for downloads and remote deletions. *)
Theorem SynchronizeApply_sound (Operations : TBulkOperations)
  (Checklist : list TItem) (ALocalDirectory ARemoteDirectory : string)
  (ACopyParam : TCopyParamType) (AParams : list TSynchronizeParam)
  (OnSync : option TSynchronizeDirectoryEvent) (s s' : TApplyState)
  (r : Outcome unit) :
  FLAGSET AParams spTimestamp = false ->
  SynchronizeApply Operations Checklist ALocalDirectory ARemoteDirectory
    ACopyParam AParams OnSync s = (r, s') ->
  exists Calls,
    ApplyLog s' = ApplyLog s ++ Calls /\
    forall e entry,
      In e Calls -> In entry (FileList (Call e)) ->
      exists Item,
        In Item Checklist /\ Checked Item = true /\
        ListedIn (Kind (Call e)) (Action Item) = true /\
        entry = BulkEntryOf (Kind (Call e)) Item.
Proof.
  intros HParams HRun.
  apply SynchronizeApply_body in HRun
    as (SyncCopyParam & CopyParams & rb & sb & HBody & HLog & _).
  apply (ApplyGroups_log _ _ _ _ _ HParams _ _ (Nat.le_refl _)) in HBody
    as (Calls & HLogB & _ & _ & HOf).
  cbn [ApplyLog] in HLogB.
  exists Calls. split; [congruence |].
  intros e entry He HEntry. rewrite Forall_forall in HOf.
  destruct (HOf e He) as (_ & HKind & HList & _).
  rewrite Nat.sub_0_r in HList. rewrite HList in HEntry.
  unfold GroupLists in HEntry.
  destruct (skipn (Group e) Checklist) as [| First rest] eqn:HSkip;
    [destruct (Kind (Call e)); contradiction |].
  destruct (GatherGroup_cleared AParams (Directory (Local First))
              (Directory (Remote First)) (First :: rest) HParams)
    as (HB & _ & _).
  rewrite (HB _ HKind) in HEntry. apply in_map_iff in HEntry
    as (Item & <- & HItem).
  unfold CheckedFor in HItem. apply filter_In in HItem as [HIn HOk].
  apply andb_prop in HOk as [HChecked HListed].
  exists Item. repeat split; try assumption.
  apply (In_skipn (Group e)). rewrite HSkip.
  apply SameDirectories_incl in HIn. exact HIn.
Qed.


Section Completeness.
Variable Operations : TBulkOperations.
Variable OnSync : option TSynchronizeDirectoryEvent.
Variable SyncCopyParam : TCopyParamType.
Variable AParams : list TSynchronizeParam.
Variable CopyParams : list TCopyFlag.
Hypothesis HParams : FLAGSET AParams spTimestamp = false.

(** A bulk operation that returned was called where its list holds a
    name. *)
Lemma BulkOrAbort_called (AGroup : nat) (ACall : TBulkCall) s s' :
  BulkOrAbort Operations AGroup ACall s = (Returns tt, s') ->
  exists Calls,
    ApplyLog s' = ApplyLog s ++ Calls /\
    (FileList ACall <> [] ->
     exists e, In e Calls /\ Group e = AGroup /\ Call e = ACall).
Proof.
  intros HRun.
  apply BulkOrAbort_log in HRun
    as [(HEmpty & _ & ->) | (_ & a & HLog & _)].
  - exists []. rewrite app_nil_r. split; [reflexivity |].
    intros HNonEmpty. contradiction.
  - eexists. split; [exact HLog |]. intros _.
    eexists. split; [left; reflexivity |]. split; reflexivity.
Qed.

Lemma ApplyGroup_complete (l r : string) (AGroup : nat) (L : TApplyLists)
  s s' :
  ApplyGroup Operations OnSync SyncCopyParam AParams CopyParams l r AGroup L s
    = (Returns tt, s') ->
  exists Calls,
    ApplyLog s' = ApplyLog s ++ Calls /\
    forall K, TransfersOrDeletes K = true -> BucketOf K L <> [] ->
      exists e, In e Calls /\ Group e = AGroup /\ Kind (Call e) = K /\
                FileList (Call e) = BucketOf K L.
Proof.
  unfold ApplyGroup. rewrite HParams. cbn [LocalDirectory RemoteDirectory].
  intros HRun.
  apply bind_cases in HRun as [([] & s0 & HProgress & HRun) | (E & _ & HE)];
    [| discriminate HE].
  assert (s0 = s) as ->.
  { unfold DoSynchronizeProgress in HProgress. cbn in HProgress.
    destruct OnSync as [Event |]; [| now injection HProgress].
    destruct (Event _ _ _); [now injection HProgress | discriminate]. }
  clear HProgress.
  apply bind_cases in HRun as [([] & s1 & H1 & HRun) | (E & _ & HE)];
    [| discriminate HE].
  apply bind_cases in HRun as [([] & s2 & H2 & HRun) | (E & _ & HE)];
    [| discriminate HE].
  apply bind_cases in HRun as [([] & s3 & H3 & H4) | (E & _ & HE)];
    [| discriminate HE].
  apply BulkOrAbort_called in H1 as (C1 & HL1 & HC1).
  apply BulkOrAbort_called in H2 as (C2 & HL2 & HC2).
  apply BulkOrAbort_called in H3 as (C3 & HL3 & HC3).
  apply BulkOrAbort_called in H4 as (C4 & HL4 & HC4).
  exists (C1 ++ C2 ++ C3 ++ C4). split.
  { rewrite HL4, HL3, HL2, HL1, <- !app_assoc. reflexivity. }
  intros K HK HNonEmpty.
  destruct K; try discriminate HK; cbn in HNonEmpty.
  - destruct (HC1 HNonEmpty) as (e & HIn & Hg & Hc).
    exists e. rewrite Hc. repeat split; auto. apply in_or_app. now left.
  - destruct (HC2 HNonEmpty) as (e & HIn & Hg & Hc).
    exists e. rewrite Hc. repeat split; auto.
    apply in_or_app. right. apply in_or_app. now left.
  - destruct (HC3 HNonEmpty) as (e & HIn & Hg & Hc).
    exists e. rewrite Hc. repeat split; auto.
    apply in_or_app. right. apply in_or_app. right. apply in_or_app. now left.
  - destruct (HC4 HNonEmpty) as (e & HIn & Hg & Hc).
    exists e. rewrite Hc. repeat split; auto.
    apply in_or_app. right. apply in_or_app. right. apply in_or_app. now right.
Qed.

Lemma ApplyGroups_complete (n : nat) :
  forall Items, (List.length Items <= n)%nat ->
  forall IIndex s s',
  ApplyGroups Operations OnSync SyncCopyParam AParams CopyParams IIndex Items s
    = (Returns tt, s') ->
  exists Calls,
    ApplyLog s' = ApplyLog s ++ Calls /\
    forall Item K,
      In Item Items -> Checked Item = true ->
      ListedIn K (Action Item) = true ->
      exists e, In e Calls /\ Kind (Call e) = K /\
                In (BulkEntryOf K Item) (FileList (Call e)).
Proof.
  induction n as [| n IH]; intros [| First rest] Hn IIndex s s' HRun;
    try (cbn in Hn; lia).
  1, 2: rewrite ApplyGroups_equation_1 in HRun; injection HRun as <-;
    exists []; rewrite app_nil_r; split; [reflexivity |];
    intros Item K HIn; contradiction.
  rewrite ApplyGroups_equation_2 in HRun. cbv zeta in HRun.
  pose proof (GatherGroup_first AParams First rest ClearedLists 0) as HShort.
  destruct (GatherGroup_cleared AParams (Directory (Local First))
              (Directory (Remote First)) (First :: rest) HParams)
    as (HB & HCount & HItems).
  set (Gathered := GatherGroup AParams (Directory (Local First))
                     (Directory (Remote First)) (First :: rest) ClearedLists 0)
    in *.
  set (Same := SameDirectories (Directory (Local First))
                 (Directory (Remote First)) (First :: rest)) in *.
  apply bind_cases in HRun as [([] & s1 & H1 & HRun) | (E & _ & HE)];
    [| discriminate HE].
  apply IH in HRun as (Calls2 & HLog2 & HAll2); [| cbn in Hn; lia].
  assert (HGroup : exists Calls1,
    ApplyLog s1 = ApplyLog s ++ Calls1 /\
    forall K, TransfersOrDeletes K = true ->
      (0 < snd (fst Gathered))%nat -> BucketOf K (fst (fst Gathered)) <> [] ->
      exists e, In e Calls1 /\ Kind (Call e) = K /\
                FileList (Call e) = BucketOf K (fst (fst Gathered))).
  { unfold when in H1. destruct (0 <? snd (fst Gathered))%nat eqn:HPos.
    - apply ApplyGroup_complete in H1 as (Calls1 & HLog1 & HAll1).
      exists Calls1. split; [exact HLog1 |]. intros K HK _ HNonEmpty.
      destruct (HAll1 K HK HNonEmpty) as (e & HIn & _ & Hk & HList).
      exists e. auto.
    - injection H1 as <-. exists []. rewrite app_nil_r.
      split; [reflexivity |]. intros K _ HLt.
      apply Nat.ltb_ge in HPos. lia. }
  destruct HGroup as (Calls1 & HLog1 & HAll1).
  exists (Calls1 ++ Calls2).
  split; [rewrite HLog2, HLog1; now rewrite app_assoc |].
  intros Item K HIn HChecked HListed.
  rewrite HItems in HIn. apply in_app_or in HIn as [HIn | HIn].
  - assert (HK : TransfersOrDeletes K = true)
      by (destruct K, (Action Item); try discriminate HListed; reflexivity).
    assert (HFor : In Item (CheckedFor K Same)).
    { unfold CheckedFor. apply filter_In. split; [exact HIn |].
      now rewrite HChecked, HListed. }
    assert (HEntry : In (BulkEntryOf K Item) (BucketOf K (fst (fst Gathered)))).
    { rewrite (HB K HK). apply in_map. exact HFor. }
    destruct (HAll1 K HK) as (e & He & Hk & HList).
    + rewrite HCount.
      assert (HIn' : In Item (filter Checked Same))
        by (apply filter_In; split; assumption).
      destruct (filter Checked Same); [contradiction | cbn; lia].
    + intros HNil. rewrite HNil in HEntry. contradiction.
    + exists e. split; [apply in_or_app; now left |].
      split; [exact Hk |]. rewrite HList. exact HEntry.
  - destruct (HAll2 Item K HIn HChecked HListed) as (e & He & Hk & HEntry).
    exists e. split; [apply in_or_app; now right |]. split; assumption.
Qed.

End Completeness.

(** X16. Outside the mode of timestamps an apply that returns has left
    nothing out: every checked item of the checklist that plans a transfer
    or a deletion is in the list of a call of the bulk operation that
    carries out its action. *)
Theorem SynchronizeApply_complete (Operations : TBulkOperations)
  (Checklist : list TItem) (ALocalDirectory ARemoteDirectory : string)
  (ACopyParam : TCopyParamType) (AParams : list TSynchronizeParam)
  (OnSync : option TSynchronizeDirectoryEvent) (s s' : TApplyState) :
  FLAGSET AParams spTimestamp = false ->
  SynchronizeApply Operations Checklist ALocalDirectory ARemoteDirectory
    ACopyParam AParams OnSync s = (Returns tt, s') ->
  exists Calls,
    ApplyLog s' = ApplyLog s ++ Calls /\
    forall Item K,
      In Item Checklist -> Checked Item = true ->
      ListedIn K (Action Item) = true ->
      exists e, In e Calls /\ Kind (Call e) = K /\
                In (BulkEntryOf K Item) (FileList (Call e)).
Proof.
  intros HParams HRun.
  apply SynchronizeApply_body in HRun
    as (SyncCopyParam & CopyParams & rb & sb & HBody & HLog & HRet).
  rewrite (HRet tt eq_refl) in HBody.
  apply (ApplyGroups_complete _ _ _ _ _ HParams _ _ (Nat.le_refl _)) in HBody
    as (Calls & HLogB & HAll).
  cbn [ApplyLog] in HLogB.
  exists Calls. split; [congruence | exact HAll].
Qed.

End ApplyCoverage.

Lemma GatherGroup_partition_witness :
  let Gathered :=
    @GatherGroup SampleExternals [spDelete] "C:\work" "/home/user"
      SampleApplyChecklist ClearedLists 0 in
  let Same :=
    @SameDirectories SampleExternals "C:\work" "/home/user"
      SampleApplyChecklist in
  FLAGSET [spDelete] spTimestamp = false /\
  (forall K, TransfersOrDeletes K = true ->
     BucketOf K (fst (fst Gathered)) =
       map (BulkEntryOf K) (CheckedFor K Same)) /\
  snd (fst Gathered) = List.length (filter Checked Same) /\
  SampleApplyChecklist = Same ++ snd Gathered.
Proof.
  intros Gathered Same. split; [reflexivity |].
  exact (@GatherGroup_partition SampleExternals [spDelete] "C:\work"
           "/home/user" SampleApplyChecklist eq_refl).
Defined.

(** The first group of the sample checklist: its four checked items go to
    one list each, the item that is not checked to none, and the item of
    the other directories is left. *)
Example GatherGroup_scenario :
  let Gathered :=
    @GatherGroup SampleExternals [spDelete] "C:\work" "/home/user"
      SampleApplyChecklist ClearedLists 0 in
  map (fun K => map fst (BucketOf K (fst (fst Gathered))))
    [bkCopyToLocal; bkDeleteFiles; bkCopyToRemote; bkDeleteLocalFiles] =
    [["/home/user/a.txt"]; ["/home/user/c.txt"]; ["C:\work\b.txt"];
     ["C:\work\d.txt"]] /\
  snd (fst Gathered) = 4%nat /\
  map ItemFileName (snd Gathered) = ["e.txt"].
Proof. repeat split. Qed.

Lemma SynchronizeApply_sound_witness :
  let run :=
    @SynchronizeApply SampleExternals SampleOperations SampleApplyChecklist
      "C:\work" "/home/user" SampleCopyParam [spDelete] None SampleApplyState in
  FLAGSET [spDelete] spTimestamp = false /\
  exists Calls,
    ApplyLog (snd run) = [] ++ Calls /\
    forall e entry,
      In e Calls -> In entry (FileList (Call e)) ->
      exists Item,
        In Item SampleApplyChecklist /\ Checked Item = true /\
        ListedIn (Kind (Call e)) (Action Item) = true /\
        entry = BulkEntryOf (Kind (Call e)) Item.
Proof.
  intros run. split; [reflexivity |].
  exact (@SynchronizeApply_sound SampleExternals SampleOperations
           SampleApplyChecklist "C:\work" "/home/user" SampleCopyParam
           [spDelete] None SampleApplyState (snd run) (fst run) eq_refl
           eq_refl).
Defined.

Lemma SynchronizeApply_complete_witness :
  let run :=
    @SynchronizeApply SampleExternals SampleOperations SampleApplyChecklist
      "C:\work" "/home/user" SampleCopyParam [spDelete] None SampleApplyState in
  FLAGSET [spDelete] spTimestamp = false /\
  fst run = Returns tt /\
  exists Calls,
    ApplyLog (snd run) = [] ++ Calls /\
    forall Item K,
      In Item SampleApplyChecklist -> Checked Item = true ->
      ListedIn K (Action Item) = true ->
      exists e, In e Calls /\ Kind (Call e) = K /\
                In (BulkEntryOf K Item) (FileList (Call e)).
Proof.
  intros run. split; [reflexivity |]. split; [reflexivity |].
  exact (@SynchronizeApply_complete SampleExternals SampleOperations
           SampleApplyChecklist "C:\work" "/home/user" SampleCopyParam
           [spDelete] None SampleApplyState (snd run) eq_refl eq_refl).
Defined.
(** ** Bulk operations on lists of files *)

Section BulkProperties.
Context `{Externals}.
Variable Host : TProcessHost.

Lemma StoreProgress_members (P : TFileOperationProgressType)
  (s : TProcessMembers) :
  Finished (StoreProgress P s) = Finished s /\
  OnFail (StoreProgress P s) = OnFail s /\
  FCommandSession (Session (StoreProgress P s)) = FCommandSession (Session s) /\
  exists v, Own (Session (StoreProgress P s)) =
            set_FOperationProgress (Own (Session s)) v.
Proof.
  unfold StoreProgress.
  destruct (FOperationProgress (Own (Session s))) eqn:Hp; cbn.
  - repeat split. eexists; reflexivity.
  - repeat split. exists None.
    destruct s as [[own cs] f l]; cbn in *. destruct own; cbn in *.
    now subst.
Qed.

(** The handler of the loop: a skipped file is passed over unless
    [FExceptionOnFail] is set, and the terminal is as it was. *)
Lemma HandleSkipped {A : Type} (E : Exception) (a : A) (s : TProcessMembers) :
  (Handled <- HandleException E ;;
   if negb Handled then throw E else ret a) s =
  (if GetExceptionOnFail (OnFail s) then Throws E else Returns a, s).
Proof.
  unfold HandleException, bind, gets, ret, throw.
  destruct (GetExceptionOnFail (OnFail s)); reflexivity.
Qed.

(** One turn of the loop records one call of [Progress.Finish]. *)
Lemma ProcessOneFile_finished (ProcessFile : TProcessFileEvent) (Ex : bool)
  (FileName : string) (Object : TListObject) (Once : TOnceDoneOperation)
  (P : TFileOperationProgressType) (s : TProcessMembers) :
  KeepsFinished ProcessFile ->
  exists Success,
    Finished (snd (ProcessOneFile Host ProcessFile Ex FileName Object Once P s))
    = Finished s ++ [{| FinishedFile := FileName;
                        FinishedSuccess := Success |}].
Proof.
  intros Hkeep. unfold ProcessOneFile.
  assert (Hcb : Finished (snd ((if negb Ex then ProcessFile FileName Object
                                else ret tt) s)) = Finished s).
  { destruct Ex; cbn; [reflexivity | apply Hkeep]. }
  destruct ((if negb Ex then ProcessFile FileName Object else ret tt) s)
    as [r s1]. cbn [snd] in Hcb.
  match goal with
  | |- context [Finish Host ?a ?b ?c ?d] =>
      destruct (Finish Host a b c d) as [[Raised Once'] P']
  end.
  match goal with
  | |- context [StoreProgress P' ?x] =>
      destruct (StoreProgress_members P' x) as (HF & _);
      set (s2 := StoreProgress P' x) in *
  end.
  cbn [Finished] in HF. rewrite Hcb in HF.
  exists (match r with Returns _ => true | Throws _ => false end).
  destruct Raised as [E |]; [| destruct r as [[] | E]];
    try (cbn [snd]; exact HF);
    destruct E; cbn [snd]; try exact HF;
    rewrite HandleSkipped; exact HF.
Qed.

Lemma ProcessFileList_finished (ProcessFile : TProcessFileEvent) (Ex : bool)
  (FileList : TStringList) :
  KeepsFinished ProcessFile ->
  forall Once P s,
  exists Calls,
    Finished (snd (ProcessFileList Host ProcessFile Ex FileList Once P s)) =
      Finished s ++ Calls /\
    (exists k, map FinishedFile Calls = firstn k (map fst FileList)) /\
    (forall Left,
       fst (ProcessFileList Host ProcessFile Ex FileList Once P s) =
         Returns Left ->
       Cancel (snd Left) = csContinue ->
       map FinishedFile Calls = map fst FileList).
Proof.
  intros Hkeep.
  induction FileList as [| [FileName Object] rest IH]; intros Once P s.
  - exists []. cbn. rewrite app_nil_r. split; [reflexivity |].
    split; [exists 0%nat; reflexivity | reflexivity].
  - cbn [ProcessFileList].
    destruct (TCancelStatus_beq (Cancel P) csContinue) eqn:Hcancel.
    + destruct (ProcessOneFile_finished ProcessFile Ex FileName Object Once P
                  s Hkeep) as (Success & Hone).
      unfold bind.
      destruct (ProcessOneFile Host ProcessFile Ex FileName Object Once P s)
        as [[Left | E] s1]; cbn [snd] in Hone.
      * destruct (IH (fst Left) (snd Left) s1) as (Calls & HF & [k Hk] & Hall).
        exists ({| FinishedFile := FileName; FinishedSuccess := Success |}
                :: Calls).
        split; [rewrite HF, Hone, <- app_assoc; reflexivity |].
        split.
        -- exists (S k). cbn. now rewrite Hk.
        -- intros Left' Hret Hc. cbn. f_equal. exact (Hall Left' Hret Hc).
      * exists [{| FinishedFile := FileName; FinishedSuccess := Success |}].
        split; [exact Hone |]. split.
        -- exists 1%nat. reflexivity.
        -- intros Left' Hret. discriminate.
    + exists []. cbn. rewrite app_nil_r. split; [reflexivity |].
      split; [exists 0%nat; reflexivity |].
      intros Left' Hret Hc. injection Hret as <-. cbn in Hc.
      rewrite Hc in Hcancel. discriminate.
Qed.

(** [ProcessFiles] by its stages: the start, the loop, the end of the
    transaction, the release of the progress object and the close on
    completion. *)
Lemma ProcessFiles_stages (FileList : TStringList)
  (AOperation : TFileOperation) (ProcessFile : TProcessFileEvent)
  (Side : TOperationSide) (Ex : bool) (s : TProcessMembers) :
  let Progress := Start Host AOperation Side (List.length FileList) in
  let Remote := match Side with osRemote => true | osLocal => false end in
  exists s1 Loop Ended,
    s1 = (if Remote
          then set_Session (PointProgress (Some Progress) s)
                 (BeginTransaction
                    (Session (PointProgress (Some Progress) s)))
          else PointProgress (Some Progress) s) /\
    Loop = ProcessFileList Host ProcessFile Ex FileList odoIdle Progress s1 /\
    Ended = (if Remote then EndProcessTransaction (snd Loop)
             else (Returns tt, snd Loop)) /\
    ProcessFiles Host FileList AOperation ProcessFile Side Ex s =
      match fst Ended, fst Loop with
      | Throws E, _ => (Throws E, PointProgress None (snd Ended))
      | Returns _, Throws E => (Throws E, PointProgress None (snd Ended))
      | Returns _, Returns Left =>
          if IsIdle (fst Left)
          then (Returns (TCancelStatus_beq (Cancel (snd Left)) csContinue),
                PointProgress None (snd Ended))
          else (Throws (ESshTerminate Host
                          (if TMessage_IsEmpty (DefaultMessage Host)
                           then CLOSED_ON_COMPLETION Host
                           else DefaultMessage Host) (fst Left)),
                set_Session (PointProgress None (snd Ended))
                  (Close Host (Session (PointProgress None (snd Ended)))))
      end.
Proof.
  intros Progress Remote.
  eexists _, _, _. split; [reflexivity |]. split; [reflexivity |].
  split; [reflexivity |].
  set (s0 := PointProgress (Some Progress) s).
  set (s1 := if Remote then _ else s0).
  set (Loop := ProcessFileList _ _ _ _ _ _ s1).
  set (Ended := if Remote then _ else _).
  unfold ProcessFiles. fold Progress. fold Remote.
  unfold bind at 1. unfold modify at 1. fold s0.
  unfold bind at 1. unfold TRY_FINALLY at 1.
  unfold bind at 1.
  assert (Hbegin : when Remote BeginProcessTransaction s0 = (Returns tt, s1)).
  { subst s1. destruct Remote; reflexivity. }
  rewrite Hbegin.
  unfold bind at 1. unfold TRY_FINALLY at 1. fold Loop.
  assert (Hend : when Remote EndProcessTransaction (snd Loop) = Ended).
  { subst Ended. destruct Remote; reflexivity. }
  destruct Loop as [r s2] eqn:HLoop. cbn [fst snd] in *.
  rewrite Hend.
  destruct Ended as [[[] | E] sE] eqn:HEnded; cbn [fst snd] in *.
  - destruct r as [Left | E]; cbn.
    + destruct (IsIdle (fst Left)); reflexivity.
    + reflexivity.
  - reflexivity.
Qed.

(** X17. The calls of [Progress.Finish] that [ProcessFiles] makes are for the
    files of the list, in the order of the list, and one per file: for a
    callback that leaves the record of those calls alone they name a prefix
    of the list, and all of it when the operation returns [true]. *)
Theorem ProcessFiles_finishes_in_order (FileList : TStringList)
  (AOperation : TFileOperation) (ProcessFile : TProcessFileEvent)
  (Side : TOperationSide) (Ex : bool) (s : TProcessMembers) :
  KeepsFinished ProcessFile ->
  let run := ProcessFiles Host FileList AOperation ProcessFile Side Ex s in
  exists Calls,
    Finished (snd run) = Finished s ++ Calls /\
    (exists k, map FinishedFile Calls = firstn k (map fst FileList)) /\
    (fst run = Returns true -> map FinishedFile Calls = map fst FileList).
Proof.
  intros Hkeep run. subst run.
  destruct (ProcessFiles_stages FileList AOperation ProcessFile Side Ex s)
    as (s1 & Loop & Ended & Hs1 & HLoop & HEnded & ->).
  destruct (ProcessFileList_finished ProcessFile Ex FileList Hkeep odoIdle
              (Start Host AOperation Side (List.length FileList)) s1)
    as (Calls & HF & Hk & Hall).
  rewrite <- HLoop in HF, Hall.
  assert (Hs : Finished s1 = Finished s).
  { subst s1. destruct Side; reflexivity. }
  rewrite Hs in HF.
  assert (HE : Finished (snd Ended) = Finished (snd Loop)).
  { subst Ended. destruct Side; [reflexivity |].
    unfold EndProcessTransaction.
    destruct (EndTransaction (Session (snd Loop))); reflexivity. }
  exists Calls.
  destruct (fst Ended) as [[] | E];
    [destruct (fst Loop) as [Left | E] eqn:HL |].
  - destruct (IsIdle (fst Left)); cbn [fst snd].
    + split; [cbn; rewrite HE; exact HF |]. split; [exact Hk |].
      intros Hret. apply (Hall Left eq_refl).
      injection Hret as Hc. destruct (Cancel (snd Left)); try discriminate.
      reflexivity.
    + split; [cbn; rewrite HE; exact HF |]. split; [exact Hk |].
      discriminate.
  - cbn [fst snd]. split; [cbn; rewrite HE; exact HF |].
    split; [exact Hk | discriminate].
  - cbn [fst snd]. split; [cbn; rewrite HE; exact HF |].
    split; [exact Hk | discriminate].
Qed.

(** X18. [ProcessFiles] never leaves [FOperationProgress] pointing at its
    progress object: however the operation ends, the member is null, or
    was null when [CloseOnCompletion] closed the session. *)
Theorem ProcessFiles_releases_progress (FileList : TStringList)
  (AOperation : TFileOperation) (ProcessFile : TProcessFileEvent)
  (Side : TOperationSide) (Ex : bool) (s : TProcessMembers) :
  UpToClose Host (fun T => FOperationProgress (Own T) = None)
    (Session (snd (ProcessFiles Host FileList AOperation ProcessFile Side Ex
                     s))).
Proof.
  destruct (ProcessFiles_stages FileList AOperation ProcessFile Side Ex s)
    as (s1 & Loop & Ended & Hs1 & HLoop & HEnded & ->).
  assert (Hnull : forall s', FOperationProgress
                    (Own (Session (PointProgress None s'))) = None).
  { intros s'. destruct s' as [[[] cs] f l]; reflexivity. }
  destruct (fst Ended) as [[] | E]; [destruct (fst Loop) as [Left | E] |].
  - destruct (IsIdle (fst Left)); cbn [fst snd].
    + left. apply Hnull.
    + right. eexists. split; [reflexivity | apply Hnull].
  - left. apply Hnull.
  - left. apply Hnull.
Qed.

(** What a turn of the loop raises when the callback fails by skipping and
    [Progress.Finish] does not raise. *)
Lemma ProcessFileList_skips (ProcessFile : TProcessFileEvent) (Ex : bool)
  (FileList : TStringList) :
  FailsBySkipping ProcessFile ->
  (forall Calls Call Once P,
     fst (fst (Finish Host Calls Call Once P)) = None) ->
  forall Once P s,
    GetExceptionOnFail (OnFail s) = false ->
    exists Left,
      fst (ProcessFileList Host ProcessFile Ex FileList Once P s) =
        Returns Left.
Proof.
  intros Hskip Hfinish.
  induction FileList as [| [FileName Object] rest IH]; intros Once P s Hfail.
  - eexists; reflexivity.
  - cbn [ProcessFileList].
    destruct (TCancelStatus_beq (Cancel P) csContinue);
      [| eexists; reflexivity].
    unfold bind.
    assert (Hone : exists Left s1,
              ProcessOneFile Host ProcessFile Ex FileName Object Once P s =
                (Returns Left, s1) /\ OnFail s1 = OnFail s).
    { unfold ProcessOneFile.
      assert (Hcb : OnFail (snd ((if negb Ex then ProcessFile FileName Object
                                else ret tt) s)) = OnFail s /\
                    forall E, fst ((if negb Ex then ProcessFile FileName Object
                                    else ret tt) s) = Throws E ->
                      exists Inner Msg, E = EScpSkipFile Inner Msg).
      { destruct Ex; cbn [negb].
        - split; [reflexivity | discriminate].
        - apply Hskip. }
      destruct ((if negb Ex then ProcessFile FileName Object else ret tt) s)
        as [r s1]. cbn [fst snd] in Hcb. destruct Hcb as [Hf Hthrows].
      match goal with
      | |- context [Finish Host ?a ?b ?c ?d] =>
          pose proof (Hfinish a b c d) as Hnone;
          destruct (Finish Host a b c d) as [[Raised Once'] P']
      end.
      cbn in Hnone. subst Raised.
      match goal with
      | |- context [StoreProgress P' ?x] =>
          destruct (StoreProgress_members P' x) as (_ & HFail & _);
          set (s2 := StoreProgress P' x) in *
      end.
      cbn [OnFail] in HFail. rewrite Hf in HFail.
      destruct r as [[] | E].
      - eexists _, s2. split; [reflexivity | exact HFail].
      - destruct (Hthrows E eq_refl) as (Inner & Msg & ->).
        rewrite HandleSkipped. rewrite HFail, Hfail.
        eexists _, s2. split; [reflexivity | exact HFail]. }
    destruct Hone as (Left & s1 & -> & Hf1).
    apply IH. now rewrite Hf1.
Qed.


End BulkProperties.

(** ** Deleting a list of files *)

Lemma Steady_refl (t : TTerminalState) : Steady t t.
Proof.
  repeat split; auto. exists []. now rewrite app_nil_r.
Qed.

Lemma Steady_trans (t1 t2 t3 : TTerminalState) :
  Steady t1 t2 -> Steady t2 t3 -> Steady t1 t3.
Proof.
  intros (Hn & Hs & Hp & evs & Hl & He) (Hn' & Hs' & Hp' & evs' & Hl' & He').
  repeat split; try congruence; auto.
  exists (evs ++ evs'). split.
  - rewrite Hl', Hl. now rewrite app_assoc.
  - rewrite forallb_app, He, He'. reflexivity.
Qed.

Lemma Steady_InTransaction (t t' : TTerminalState) :
  Steady t t' -> InTransaction t' = InTransaction t.
Proof.
  intros (Hn & Hs & _). unfold InTransaction. now rewrite Hn, Hs.
Qed.

Lemma SteadyInside_bind {A B : Type} (c : Exec TTerminalState A)
  (k : A -> Exec TTerminalState B) :
  SteadyInside c -> (forall a, SteadyInside (k a)) -> SteadyInside (bind c k).
Proof.
  intros Hc Hk t Hin. unfold bind.
  specialize (Hc t Hin). destruct (c t) as [[a | E] t1]; cbn [snd] in *.
  - apply (Steady_trans _ t1); [exact Hc |].
    apply Hk. rewrite (Steady_InTransaction _ _ Hc). exact Hin.
  - exact Hc.
Qed.

Lemma SteadyInside_ret {A : Type} (a : A) : SteadyInside (ret a).
Proof. intros t _. apply Steady_refl. Qed.

Lemma SteadyInside_throw {A : Type} (E : Exception) :
  SteadyInside (throw (A := A) E).
Proof. intros t _. apply Steady_refl. Qed.

Lemma SteadyInside_gets {A : Type} (f : TTerminalState -> A) :
  SteadyInside (gets f).
Proof. intros t _. apply Steady_refl. Qed.

Lemma SteadyInside_when (b : bool) (c : Exec TTerminalState unit) :
  SteadyInside c -> SteadyInside (when b c).
Proof. intros Hc. destruct b; [exact Hc | apply SteadyInside_ret]. Qed.

Lemma SteadyInside_modify (f : TTerminalState -> TTerminalState) :
  (forall t, Steady t (f t)) -> SteadyInside (modify f).
Proof. intros Hf t _. apply Hf. Qed.

Lemma Steady_progress (t : TTerminalState)
  (v : option TFileOperationProgressType) :
  Steady t (set_FOperationProgress t v).
Proof.
  repeat split; auto. exists []. cbn. now rewrite app_nil_r.
Qed.

Lemma SteadyInside_Request (ev : TEvent) :
  IsDirectoryReread ev = false -> SteadyInside (Request ev).
Proof.
  intros Hev t _. unfold Request.
  destruct (FFileSystem t) as [fs |]; [| apply Steady_refl].
  assert (Hst : Steady t (set_FLog t (FLog t ++ [ev]))).
  { repeat split; auto. exists [ev]. split; [reflexivity |].
    cbn. now rewrite Hev. }
  destruct (fsRequest fs (FLog t) ev); exact Hst.
Qed.

Lemma SteadyInside_ReadCurrentDirectory : SteadyInside ReadCurrentDirectory.
Proof.
  apply SteadyInside_bind.
  - apply SteadyInside_modify. intros t. repeat split; auto.
    exists []. cbn. now rewrite app_nil_r.
  - intros _. now apply SteadyInside_Request.
Qed.

(** Inside a transaction a command that modifies files asks for no listing
    and for no reload of the current directory. *)
Lemma SteadyInside_ReactOnCommand (Cmd : TFSCommand) :
  Cmd = fsDeleteFile \/ Cmd = fsMoveFile ->
  SteadyInside (ReactOnCommand Cmd).
Proof.
  intros HCmd t Hin.
  assert (Hst : forall d, Steady t (set_FReadDirectoryPending t d)).
  { intros d. repeat split; auto. exists []. cbn. now rewrite app_nil_r. }
  destruct HCmd as [-> | ->];
    unfold ReactOnCommand, bind, gets, when, modify, ret; cbn;
    rewrite Hin; cbn;
    destruct (FAutoReadDirectory t); cbn; try apply Steady_refl;
    destruct (AutoReadDirectoryAfterOp (FConfiguration t)); cbn;
    try apply Steady_refl; apply Hst.
Qed.

Section DeleteProperties.
Context `{Externals}.

Lemma SteadyInside_CheckProgress (Kinds : list TFileOperation)
  (FileName : string) : SteadyInside (CheckProgress Kinds FileName).
Proof.
  unfold CheckProgress. apply SteadyInside_bind; [apply SteadyInside_gets |].
  intros [p |]; [| apply SteadyInside_ret].
  destruct (existsb _ Kinds); [| apply SteadyInside_ret].
  destruct (negb _); [apply SteadyInside_throw |].
  apply SteadyInside_modify. intros t. apply Steady_progress.
Qed.

Lemma SteadyInside_GetCurrentDirectory : SteadyInside GetCurrentDirectory.
Proof.
  unfold GetCurrentDirectory.
  apply SteadyInside_bind; [apply SteadyInside_gets |]. intros fs.
  apply SteadyInside_bind; [| intros _; apply SteadyInside_gets].
  destruct fs as [fs |]; [| apply SteadyInside_ret].
  apply SteadyInside_bind; [apply SteadyInside_gets |]. intros log.
  apply SteadyInside_bind; [apply SteadyInside_gets |]. intros Current.
  destruct (negb _); [| apply SteadyInside_ret].
  apply SteadyInside_bind.
  - apply SteadyInside_modify. intros t. repeat split; auto.
    exists []. cbn. now rewrite app_nil_r.
  - intros _. apply SteadyInside_when, SteadyInside_ReadCurrentDirectory.
Qed.

Lemma SteadyInside_IsRecycledFile (FileName : string) :
  SteadyInside (IsRecycledFile FileName).
Proof.
  unfold IsRecycledFile.
  apply SteadyInside_bind; [apply SteadyInside_gets |]. intros Bin.
  destruct (negb _); [| apply SteadyInside_ret].
  apply SteadyInside_bind; [| intros Path; apply SteadyInside_ret].
  destruct (_ =? _)%string;
    [apply SteadyInside_GetCurrentDirectory | apply SteadyInside_ret].
Qed.

Lemma SteadyInside_MoveFile (FileName : string) (File : option TRemoteFile)
  (Params : TMoveFileParams) : SteadyInside (MoveFile FileName File Params).
Proof.
  unfold MoveFile.
  apply SteadyInside_bind; [apply SteadyInside_CheckProgress |]. intros _.
  apply SteadyInside_bind; [now apply SteadyInside_Request |]. intros _.
  apply SteadyInside_ReactOnCommand. now right.
Qed.

Lemma SteadyInside_RecycleFile (FileName : string) (File : option TRemoteFile) :
  SteadyInside (RecycleFile FileName File).
Proof.
  unfold RecycleFile.
  apply SteadyInside_bind.
  { destruct (_ =? _)%string; [| apply SteadyInside_ret].
    destruct File; [apply SteadyInside_ret | apply SteadyInside_throw]. }
  intros F. apply SteadyInside_bind; [apply SteadyInside_IsRecycledFile |].
  intros Recycled. destruct (negb Recycled); [| apply SteadyInside_ret].
  apply SteadyInside_bind; [apply SteadyInside_gets |]. intros Bin.
  apply SteadyInside_bind; [apply SteadyInside_gets |]. intros log.
  apply SteadyInside_MoveFile.
Qed.

(** Inside a transaction [DeleteFile] asks the backend for no listing and
    leaves the transaction as it is. *)
Lemma SteadyInside_DeleteFile (FileName : string) (File : option TRemoteFile)
  (AParams : option (list TDeleteFlag)) :
  SteadyInside (DeleteFile FileName File AParams).
Proof.
  unfold DeleteFile.
  apply SteadyInside_bind; [apply SteadyInside_CheckProgress |]. intros _.
  apply SteadyInside_bind; [apply SteadyInside_gets |]. intros sd.
  apply SteadyInside_bind.
  { destruct (_ && _ && _); [| apply SteadyInside_ret].
    apply SteadyInside_bind; [apply SteadyInside_IsRecycledFile |].
    intros Recycled. apply SteadyInside_ret. }
  intros [|]; [apply SteadyInside_RecycleFile |].
  apply SteadyInside_bind; [now apply SteadyInside_Request |]. intros _.
  apply SteadyInside_ReactOnCommand. now left.
Qed.

End DeleteProperties.

Section DeleteFilesProperties.
Context `{Externals}.
Variable Host : TProcessHost.

(** A turn of the loop whose callback is steady is steady. *)
Lemma ProcessFileList_steady (ProcessFile : TProcessFileEvent) (Ex : bool)
  (FileList : TStringList) :
  (forall FileName Object s,
     InTransaction (Own (Session s)) = true ->
     Steady (Own (Session s))
       (Own (Session (snd (ProcessFile FileName Object s))))) ->
  forall Once P s,
    InTransaction (Own (Session s)) = true ->
    Steady (Own (Session s))
      (Own (Session (snd (ProcessFileList Host ProcessFile Ex FileList Once P
                            s)))).
Proof.
  intros Hcb.
  induction FileList as [| [FileName Object] rest IH]; intros Once P s Hin.
  - apply Steady_refl.
  - cbn [ProcessFileList].
    destruct (TCancelStatus_beq (Cancel P) csContinue);
      [| apply Steady_refl].
    assert (Hone : Steady (Own (Session s))
              (Own (Session (snd (ProcessOneFile Host ProcessFile Ex FileName
                                    Object Once P s))))).
    { unfold ProcessOneFile.
      assert (Hrun : Steady (Own (Session s))
                (Own (Session (snd ((if negb Ex
                                     then ProcessFile FileName Object
                                     else ret tt) s))))).
      { destruct Ex; cbn [negb]; [apply Steady_refl | now apply Hcb]. }
      destruct ((if negb Ex then ProcessFile FileName Object else ret tt) s)
        as [r s1]. cbn [snd] in Hrun.
      match goal with
      | |- context [Finish Host ?a ?b ?c ?d] =>
          destruct (Finish Host a b c d) as [[Raised Once'] P']
      end.
      match goal with
      | |- context [StoreProgress P' ?x] =>
          destruct (StoreProgress_members P' x) as (_ & _ & _ & v & Hv);
          set (s2 := StoreProgress P' x) in *
      end.
      cbn [Session] in Hv.
      assert (Hs2 : Steady (Own (Session s)) (Own (Session s2))).
      { rewrite Hv. apply (Steady_trans _ _ _ Hrun), Steady_progress. }
      destruct Raised as [E |]; [| destruct r as [[] | E]];
        try exact Hs2;
        destruct E; cbn [snd]; try exact Hs2;
        rewrite HandleSkipped; exact Hs2. }
    unfold bind.
    destruct (ProcessOneFile Host ProcessFile Ex FileName Object Once P s)
      as [[Left | E] s1]; cbn [snd] in *; [| exact Hone].
    apply (Steady_trans _ _ _ Hone), IH.
    rewrite (Steady_InTransaction _ _ Hone). exact Hin.
Qed.

(** The flush of an [EndTransaction] where no reload of the current
    directory is pending. *)
Lemma FlushPendingReloads_listing (t : TTerminalState) :
  FReadCurrentDirectoryPending t = false \/ FInTransaction t <> 0 ->
  exists reread,
    FLog (snd (FlushPendingReloads t)) = FLog t ++ reread /\
    (reread = [] \/
     reread = [EvReadDirectory true false] /\ FInTransaction t = 0) /\
    FInTransaction (snd (FlushPendingReloads t)) = FInTransaction t.
Proof.
  intros Hpending.
  destruct t as [cfg sd fs op qu n su rc rd ar cd ld lg]; cbn in *.
  unfold FlushPendingReloads, bind, gets, TRY_FINALLY, when, modify, ret,
    ReadCurrentDirectory, ReadDirectory, Request, bind, modify, GetActive;
    cbn.
  destruct fs as [fs |]; cbn;
    [| exists []; rewrite app_nil_r; auto].
  destruct (fsActive fs); cbn; [| exists []; rewrite app_nil_r; auto].
  destruct (Z.eqb_spec n 0) as [-> | Hn]; cbn;
    [| exists []; rewrite app_nil_r; auto].
  destruct Hpending as [-> | Hn]; [| contradiction]. cbn.
  destruct rd; cbn; [| exists []; rewrite app_nil_r; auto].
  exists [EvReadDirectory true false].
  destruct (fsRequest fs lg (EvReadDirectory true false)); cbn; auto.
Qed.

(** X20. [DeleteFiles] asks the backend for at most one listing of the
    directory, and only after the last file: from a terminal whose
    transaction is not suspended, the requests of the deletions hold no
    listing, the one reload of the outermost transaction follows them, and
    the nesting counter ends as it began. *)
Theorem DeleteFiles_reloads_once (FilesToDelete : TStringList)
  (Params : list TDeleteFlag) (s : TProcessMembers) :
  0 <= FInTransaction (Own (Session s)) ->
  FSuspendTransaction (Own (Session s)) = false ->
  UpToClose Host
    (fun T =>
       exists evs reread,
         FLog (Own T) = FLog (Own (Session s)) ++ evs ++ reread /\
         forallb (fun ev => negb (IsDirectoryReread ev)) evs = true /\
         (reread = [] \/
          reread = [EvReadDirectory true false] /\
          FInTransaction (Own (Session s)) = 0) /\
         FInTransaction (Own T) = FInTransaction (Own (Session s)))
    (Session (snd (DeleteFiles Host FilesToDelete Params s))).
Proof.
  intros Hn Hsusp. unfold DeleteFiles.
  set (ProcessFile := fun FileName Object => OnSession _).
  destruct (ProcessFiles_stages Host FilesToDelete foDelete ProcessFile
              osRemote false s)
    as (s1 & Loop & Ended & Hs1 & HLoop & HEnded & ->).
  set (own := Own (Session s)) in *.
  set (P0 := Start Host foDelete osRemote (List.length FilesToDelete)) in *.
  (* the terminal at the start of the loop *)
  assert (Hown1 : Own (Session s1) =
                  BeginOwnTransaction (set_FOperationProgress own (Some P0))).
  { subst s1. cbn [Session set_Session]. rewrite Own_BeginTransaction.
    reflexivity. }
  assert (Hstart : FInTransaction (Own (Session s1)) = FInTransaction own + 1
                   /\ FSuspendTransaction (Own (Session s1)) = false
                   /\ FLog (Own (Session s1)) = FLog own
                   /\ (FInTransaction own = 0 ->
                       FReadCurrentDirectoryPending (Own (Session s1))
                       = false)).
  { rewrite Hown1. unfold BeginOwnTransaction. cbn.
    destruct (Z.eqb_spec (FInTransaction own) 0) as [H0 | H0]; cbn;
      repeat split; auto; try contradiction. }
  destruct Hstart as (Hn1 & Hsusp1 & Hlog1 & Hrc1).
  assert (Hin1 : InTransaction (Own (Session s1)) = true).
  { unfold InTransaction. rewrite Hn1, Hsusp1.
    apply andb_true_iff. split; [apply Z.ltb_lt; lia | reflexivity]. }
  (* the loop *)
  assert (Hcb : forall FileName Object s',
             InTransaction (Own (Session s')) = true ->
             Steady (Own (Session s'))
               (Own (Session (snd (ProcessFile FileName Object s'))))).
  { intros FileName Object s' Hin. subst ProcessFile. cbn beta.
    unfold OnSession, OnOwn.
    pose proof (SteadyInside_DeleteFile FileName (AsRemoteFile Object)
                  (Some Params) (Own (Session s')) Hin) as Hst.
    destruct (DeleteFile FileName (AsRemoteFile Object) (Some Params)
                (Own (Session s'))) as [r t']. exact Hst. }
  pose proof (ProcessFileList_steady ProcessFile false FilesToDelete Hcb
                odoIdle P0 s1 Hin1) as Hloop.
  rewrite <- HLoop in Hloop.
  destruct Hloop as (Hn2 & Hsusp2 & Hrc2 & evs & Hlog2 & Hevs).
  (* the end of the transaction *)
  set (T2 := Session (snd Loop)) in *.
  assert (HownE : Own (Session (snd Ended)) =
                  snd (FlushPendingReloads
                         (set_FInTransaction (Own T2)
                            (FInTransaction (Own T2) - 1)))).
  { rewrite HEnded. unfold EndProcessTransaction. fold T2.
    rewrite <- (Own_EndTransaction T2) by lia.
    destruct (EndTransaction T2); reflexivity. }
  destruct (FlushPendingReloads_listing
              (set_FInTransaction (Own T2) (FInTransaction (Own T2) - 1)))
    as (reread & HlogE & Hreread & HnE).
  { destruct (Z.eq_dec (FInTransaction own) 0) as [H0 | H0].
    - left. destruct (Own T2); cbn in *. auto.
    - right. destruct (Own T2); cbn in *. lia. }
  rewrite <- HownE in HlogE, HnE.
  assert (Hfinal : forall T,
            Own T = set_FOperationProgress (Own (Session (snd Ended))) None ->
            exists evs reread,
              FLog (Own T) = FLog own ++ evs ++ reread /\
              forallb (fun ev => negb (IsDirectoryReread ev)) evs = true /\
              (reread = [] \/
               reread = [EvReadDirectory true false] /\
               FInTransaction own = 0) /\
              FInTransaction (Own T) = FInTransaction own).
  { intros T HT. exists evs, reread. rewrite HT. cbn.
    rewrite HlogE, HnE.
    split.
    - destruct (Own T2); cbn in *. rewrite Hlog2, Hlog1.
      now rewrite app_assoc.
    - split; [exact Hevs |]. split.
      + destruct Hreread as [-> | [-> H0]]; [now left | right].
        split; [reflexivity |]. destruct (Own T2); cbn in *. lia.
      + destruct (Own T2); cbn in *. lia. }
  destruct (fst Ended) as [[] | E]; [destruct (fst Loop) as [Left | E] |].
  - destruct (IsIdle (fst Left)); cbn [fst snd].
    + left. apply Hfinal. reflexivity.
    + right. eexists. split; [reflexivity |]. apply Hfinal. reflexivity.
  - left. apply Hfinal. reflexivity.
  - left. apply Hfinal. reflexivity.
Qed.

End DeleteFilesProperties.

(** ** The counter of [SetExceptionOnFail] *)

(** X21. A pair of [SetExceptionOnFail(true)] and [SetExceptionOnFail(false)]
    brings the terminal's counter back to where it was, and leaves the
    counter of the command session, if there is one, equal to it, whatever
    that counter was before. *)
Theorem SetExceptionOnFail_bracket (s : TFailMembers) :
  0 <= FExceptionOnFail s ->
  (SetExceptionOnFail true ;; SetExceptionOnFail false) s =
    (Returns tt,
     {| FExceptionOnFail := FExceptionOnFail s;
        CommandSessionExceptionOnFail :=
          match CommandSessionExceptionOnFail s with
          | Some _ => Some (FExceptionOnFail s)
          | None => None
          end |}).
Proof.
  intros Hn. destruct s as [n cs]; cbn in *.
  unfold SetExceptionOnFail, bind, modify, gets, throw; cbn.
  destruct (Z.eqb_spec (n + 1) 0) as [H0 | _]; [lia |].
  destruct cs; cbn; rewrite Z.add_simpl_r; reflexivity.
Qed.

Lemma ProcessFiles_finishes_in_order_witness :
  let run :=
    @ProcessFiles SampleExternals SampleProcessHost SampleFiles foDelete
      SampleSkipping osLocal false SampleProcessMembers in
  KeepsFinished SampleSkipping /\
  fst run = Returns true /\
  exists Calls,
    Finished (snd run) = [] ++ Calls /\
    map FinishedFile Calls = ["a.txt"; "b.txt"; "c.txt"].
Proof.
  intros run.
  assert (HKeep : KeepsFinished SampleSkipping).
  { intros FileName Object s. unfold SampleSkipping.
    destruct (FileName =? "b.txt")%string; reflexivity. }
  split; [exact HKeep |]. split; [reflexivity |].
  destruct (@ProcessFiles_finishes_in_order SampleExternals SampleProcessHost
              SampleFiles foDelete SampleSkipping osLocal false
              SampleProcessMembers HKeep) as (Calls & HF & _ & HAll).
  exists Calls. split; [exact HF | exact (HAll eq_refl)].
Defined.

(** The file that is skipped is finished without success, and the files
    after it are processed. *)
Example ProcessFiles_skip_scenario :
  let run :=
    @ProcessFiles SampleExternals SampleProcessHost SampleFiles foDelete
      SampleSkipping osLocal false SampleProcessMembers in
  fst run = Returns true /\
  map (fun c => (FinishedFile c, FinishedSuccess c)) (Finished (snd run)) =
    [("a.txt", true); ("b.txt", false); ("c.txt", true)].
Proof. split; reflexivity. Qed.

(** With [FExceptionOnFail] set the skipped file ends the operation. *)
Example ProcessFiles_fail_scenario :
  let run :=
    @ProcessFiles SampleExternals SampleProcessHost SampleFiles foDelete
      SampleSkipping osLocal false SampleFailing in
  fst run = Throws (EScpSkipFile None (Text "skipped")) /\
  map FinishedFile (Finished (snd run)) = ["a.txt"; "b.txt"] /\
  FOperationProgress (Own (Session (snd run))) = None.
Proof. repeat split. Qed.


Lemma DeleteFiles_reloads_once_witness :
  let run :=
    @DeleteFiles SampleExternals SampleProcessHost SampleFiles [dfForceDelete]
      SampleProcessMembers in
  0 <= FInTransaction (Own (Session SampleProcessMembers)) /\
  FSuspendTransaction (Own (Session SampleProcessMembers)) = false /\
  fst run = Returns true /\
  UpToClose SampleProcessHost
    (fun T =>
       exists evs reread,
         FLog (Own T) = [] ++ evs ++ reread /\
         forallb (fun ev => negb (IsDirectoryReread ev)) evs = true /\
         (reread = [] \/
          reread = [EvReadDirectory true false] /\
          FInTransaction (Own (Session SampleProcessMembers)) = 0) /\
         FInTransaction (Own T) = 0)
    (Session (snd run)).
Proof.
  intros run.
  assert (Hn : 0 <= FInTransaction (Own (Session SampleProcessMembers)))
    by (cbn; lia).
  split; [exact Hn |]. split; [reflexivity |]. split; [reflexivity |].
  exact (@DeleteFiles_reloads_once SampleExternals SampleProcessHost
           SampleFiles [dfForceDelete] SampleProcessMembers Hn eq_refl).
Defined.

(** Three files are deleted and the directory is listed once, after the
    last of them. *)
Example DeleteFiles_scenario :
  let run :=
    @DeleteFiles SampleExternals SampleProcessHost SampleFiles [dfForceDelete]
      SampleProcessMembers in
  FLog (Own (Session (snd run))) =
    [EvDeleteFile "a.txt" [dfForceDelete];
     EvDeleteFile "b.txt" [dfForceDelete];
     EvDeleteFile "c.txt" [dfForceDelete];
     EvReadDirectory true false] /\
  Session (snd run) =
    mkTerminal
      (set_FLog SampleState (FLog (Own (Session (snd run)))))
      (FCommandSession SampleTerminal).
Proof. split; reflexivity. Qed.

Lemma SetExceptionOnFail_bracket_witness :
  let s := {| FExceptionOnFail := 0;
              CommandSessionExceptionOnFail := Some 5 |} in
  0 <= FExceptionOnFail s /\
  (SetExceptionOnFail true ;; SetExceptionOnFail false) s =
    (Returns tt,
     {| FExceptionOnFail := 0; CommandSessionExceptionOnFail := Some 0 |}).
Proof.
  intros s.
  assert (Hn : 0 <= FExceptionOnFail s) by (cbn; lia).
  split; [exact Hn |].
  exact (SetExceptionOnFail_bracket s Hn).
Defined.

(** At zero [SetExceptionOnFail(false)] raises and changes nothing. *)
Example SetExceptionOnFail_at_zero :
  let s := {| FExceptionOnFail := 0;
              CommandSessionExceptionOnFail := Some 5 |} in
  SetExceptionOnFail false s =
    (Throws (EExternal "ExceptionOnFail is already zero."), s).
Proof. reflexivity. Qed.
